(** * Image processor: batch metadata generation and persistence

  A shallow embedding of the metadata core of
  [advanced_image_processor.py] (class [AdvancedImageCompressorGUI]):
  filename context, response parser, EXIF/XMP persistence, the batch
  loop and the local tool-result router.

  Conventions.
  - A Python [str] is a [string]; each [ascii] is the code point of one
    character, so the embedding covers text in the range U+0000..U+00FF.
  - A Python [bytes] is a [list N] of values below 256.
  - A Python [dict] with string keys is a [gmap string _].
  - A call that may raise returns a [result]; the [except Exception]
    handlers of the source are the [match] on it. *)

From Stdlib Require Import ZArith NArith List String Ascii Bool Lia.
From stdpp Require Import base gmap strings list.

Local Open Scope list_scope.

(** ** Python string primitives *)

Module PyStr.

Definition nl : ascii := "010"%char.
Definition NL : string := String nl "".

(** [str.isspace] on one character (Latin-1 range); also the class [\s]
    of the [re] module on [str] patterns. *)
Definition isspace (c : ascii) : bool :=
  let n := N_of_ascii c in
  ((9 <=? n) && (n <=? 13) || (28 <=? n) && (n <=? 32)
   || (n =? 133) || (n =? 160))%N.

(** [str.isdigit] on one character: the decimal digits and the
    superscripts U+00B2, U+00B3, U+00B9. *)
Definition isdigit (c : ascii) : bool :=
  let n := N_of_ascii c in
  ((48 <=? n) && (n <=? 57) || (n =? 178) || (n =? 179) || (n =? 185))%N.

(** [str.lower] on one character. *)
Definition lower_char (c : ascii) : ascii :=
  let n := N_of_ascii c in
  if ((65 <=? n) && (n <=? 90)
      || (192 <=? n) && (n <=? 222) && negb (n =? 215))%N
  then ascii_of_N (n + 32) else c.

Fixpoint lower (s : string) : string :=
  match s with
  | "" => ""
  | String c s' => String (lower_char c) (lower s')
  end.

Fixpoint lstrip (s : string) : string :=
  match s with
  | "" => ""
  | String c s' => if isspace c then lstrip s' else s
  end.

Fixpoint rstrip (s : string) : string :=
  match s with
  | "" => ""
  | String c s' =>
      match rstrip s' with
      | "" => if isspace c then "" else String c ""
      | r => String c r
      end
  end.

Definition strip (s : string) : string := rstrip (lstrip s).

(** [s.startswith(p)] *)
Definition startswith (p s : string) : bool := String.prefix p s.

(** [sub in s] *)
Fixpoint contains (sub s : string) : bool :=
  String.prefix sub s ||
  match s with
  | "" => false
  | String _ s' => contains sub s'
  end.

(** [s.split(c)] for a separator of one character. *)
Fixpoint split_char (c : ascii) (s : string) : list string :=
  match s with
  | "" => [""]
  | String a s' =>
      if Ascii.eqb a c then "" :: split_char c s'
      else match split_char c s' with
           | x :: xs => String a x :: xs
           | [] => [String a ""]
           end
  end.

(** [s.rfind(c)]; [None] stands for [-1]. *)
Fixpoint rfind_char (c : ascii) (s : string) : option nat :=
  match s with
  | "" => None
  | String a s' =>
      match rfind_char c s' with
      | Some i => Some (S i)
      | None => if Ascii.eqb a c then Some 0 else None
      end
  end.

(** Decimal text of a number, [str(n)]. *)
Fixpoint digits (fuel n : nat) (acc : string) : string :=
  match fuel with
  | 0 => acc
  | S fuel' =>
      let acc' := String (ascii_of_nat (48 + n mod 10)) acc in
      if n / 10 =? 0 then acc' else digits fuel' (n / 10) acc'
  end.

Definition str_of_nat (n : nat) : string := digits (S n) n "".

(** [str(z)] of an integer. *)
Definition str_of_int (z : Z) : string :=
  if (z <? 0)%Z then "-" +:+ str_of_nat (Z.to_nat (- z))
  else str_of_nat (Z.to_nat z).

(** The rest of [s] after the prefix [p], when [s] starts with [p]. *)
Fixpoint strip_prefix (p s : string) : option string :=
  match p with
  | "" => Some s
  | String a p' =>
      match s with
      | String b s' => if Ascii.eqb a b then strip_prefix p' s' else None
      | "" => None
      end
  end.

(** [s.replace(old, new)] for a non-empty [old]: the occurrences are
    taken from the left and do not overlap.  Each step consumes a
    character, so the fuel of [replace] is never used up. *)
Fixpoint replace_go (fuel : nat) (old new s : string) : string :=
  match fuel with
  | 0 => s
  | S fuel' =>
      match strip_prefix old s with
      | Some rest => new +:+ replace_go fuel' old new rest
      | None =>
          match s with
          | "" => ""
          | String c s' => String c (replace_go fuel' old new s')
          end
      end
  end.

Definition replace (old new s : string) : string :=
  replace_go (S (String.length s)) old new s.

(** [s.split(sep)] for a non-empty separator of any length. *)
Fixpoint split_go (fuel : nat) (sep s : string) : list string :=
  match fuel with
  | 0 => [s]
  | S fuel' =>
      match strip_prefix sep s with
      | Some rest => "" :: split_go fuel' sep rest
      | None =>
          match s with
          | "" => [""]
          | String c s' =>
              match split_go fuel' sep s' with
              | x :: xs => String c x :: xs
              | [] => [String c ""]
              end
          end
      end
  end.

Definition split (sep s : string) : list string :=
  split_go (S (String.length s)) sep s.

(** [s.split(c, 1)]: at most one split. *)
Fixpoint split_once (c : ascii) (s : string) : list string :=
  match s with
  | "" => [""]
  | String a s' =>
      if Ascii.eqb a c then [""; s']
      else match split_once c s' with
           | x :: xs => String a x :: xs
           | [] => [String a ""]
           end
  end.

(** [int(s)]: white space around, an optional sign, decimal digits with
    single underscores between them; [None] is [ValueError]. *)
Definition decimal_value (c : ascii) : option N :=
  let n := N_of_ascii c in
  if ((48 <=? n) && (n <=? 57))%N then Some (n - 48)%N else None.

Definition is_decimal (c : ascii) : bool :=
  match decimal_value c with
  | Some _ => true
  | None => false
  end.

Fixpoint int_digits (acc : N) (after_digit : bool) (s : string) : option N :=
  match s with
  | "" => if after_digit then Some acc else None
  | String c s' =>
      match decimal_value c with
      | Some v => int_digits (10 * acc + v) true s'
      | None =>
          if Ascii.eqb c "_"%char && after_digit
          then int_digits acc false s' else None
      end
  end.

Definition int_of_str (s : string) : option Z :=
  match strip s with
  | "" => None
  | String c r =>
      if Ascii.eqb c "-"%char
      then option_map (fun n => (- Z.of_N n)%Z) (int_digits 0 false r)
      else if Ascii.eqb c "+"%char
      then option_map Z.of_N (int_digits 0 false r)
      else option_map Z.of_N (int_digits 0 false (String c r))
  end.

(** [sep.join(l)] *)
Fixpoint join (sep : string) (l : list string) : string :=
  match l with
  | [] => ""
  | [x] => x
  | x :: xs => x +:+ sep +:+ join sep xs
  end.

End PyStr.

(** ** pathlib: the parts of [PurePosixPath] that the program uses *)

Module PyPath.
Import PyStr.

(** Components of a path: empty components and ["."] are dropped. *)
Definition parts (p : string) : list string :=
  List.filter (fun x => negb (String.eqb x "") && negb (String.eqb x "."))
              (split_char "/" p).

(** [Path(p).name], also [os.path.basename] of a path that does not end
    in a separator. *)
Definition name (p : string) : string := List.last (parts p) "".

(** [os.path.basename(p)]: what follows the last separator. *)
Definition basename (p : string) : string := List.last (split_char "/" p) "".

(** [Path(p).stem]: the name up to its last dot, when that dot is
    neither the first nor the last character of the name. *)
Definition stem (p : string) : string :=
  let n := name p in
  match rfind_char "." n with
  | Some i =>
      if (0 <? i) && (i <? String.length n - 1)
      then String.substring 0 i n else n
  | None => n
  end.

(** [Path(p).suffix] *)
Definition suffix (p : string) : string :=
  let n := name p in
  match rfind_char "." n with
  | Some i =>
      if (0 <? i) && (i <? String.length n - 1)
      then String.substring i (String.length n - i) n else ""
  | None => ""
  end.

End PyPath.

(** ** Context builder: [parse_filename_data] *)

Module Context.
Import PyStr.

Record filename_data := {
  filename : string;
  code : string;
  type : string;
  color : string;
  name : string;
  category : string;
  number : string
}.

(** The source builds the dictionary with empty fields and fills
    positions 0..5 when the stem has at least six tokens. *)
Definition parse_filename_data (fname : string) : filename_data :=
  let name_without_ext := PyPath.stem fname in
  let parts := split_char "_" name_without_ext in
  if 6 <=? length parts then
    {| filename := fname;
       code := nth 0 parts "";
       type := nth 1 parts "";
       color := nth 2 parts "";
       name := nth 3 parts "";
       category := nth 4 parts "";
       number := if 5 <? length parts then nth 5 parts "" else "" |}
  else
    {| filename := fname; code := ""; type := ""; color := "";
       name := ""; category := ""; number := "" |}.

End Context.

(** ** Outcomes of calls that may raise

    [Raise] carries the name of the exception class.  Only subclasses of
    [Exception] are modelled, which is what the handlers of the source
    catch. *)

Inductive result (A : Type) : Type :=
| Ok (a : A)
| Raise (exc : string).
Arguments Ok {A} a.
Arguments Raise {A} exc.

(** ** Text codecs: [str.encode] and [bytes.decode(..., errors='ignore')] *)

Module Codec.

Abbreviation bytes := (list N).

(** A decoded text can hold any code point, so the readers return the
    list of code points of the Python string. *)
Abbreviation pytext := (list N).

Definition codepoints (s : string) : pytext :=
  map N_of_ascii (list_ascii_of_string s).

(** A text of ASCII characters only. *)
Definition ascii_text (s : string) : Prop :=
  Forall (fun c => (N_of_ascii c < 128)%N) (list_ascii_of_string s).

(** [bytes.decode('latin-1')]: one character per byte. *)
Definition latin1_decode (b : bytes) : string :=
  string_of_list_ascii (map ascii_of_N b).

(** [s.encode('utf-8')] for code points below U+0800. *)
Definition utf8_char (n : N) : bytes :=
  if (n <? 128)%N then [n] else [192 + n / 64; 128 + n mod 64]%N.

Definition utf8_encode (s : string) : bytes :=
  flat_map utf8_char (codepoints s).

(** [s.encode('utf-16le')] for code points of the basic plane: low byte
    first, and no byte-order mark. *)
Definition utf16le_char (n : N) : bytes := [n mod 256; n / 256]%N.

Definition utf16le_encode (s : string) : bytes :=
  flat_map utf16le_char (codepoints s).

Definition is_high_surrogate (u : N) : bool := ((55296 <=? u) && (u <? 56320))%N.
Definition is_low_surrogate (u : N) : bool := ((56320 <=? u) && (u <? 57344))%N.

(** The 16-bit units of a little-endian byte string; a trailing odd byte
    is truncated data and is ignored. *)
Fixpoint utf16le_units (b : bytes) : list N :=
  match b with
  | lo :: hi :: r => (lo + 256 * hi)%N :: utf16le_units r
  | _ => []
  end.

(** Surrogate pairs combine; a lone surrogate is an error and is
    ignored. *)
Fixpoint utf16_combine (us : list N) : pytext :=
  match us with
  | [] => []
  | u :: r =>
      if is_high_surrogate u then
        match r with
        | [] => []
        | v :: r' =>
            if is_low_surrogate v
            then (65536 + (u - 55296) * 1024 + (v - 56320))%N :: utf16_combine r'
            else utf16_combine r
        end
      else if is_low_surrogate u then utf16_combine r
      else u :: utf16_combine r
  end.

(** [b.decode('utf-16le', errors='ignore')] *)
Definition utf16le_decode_ignore (b : bytes) : pytext :=
  utf16_combine (utf16le_units b).

Definition is_cont (c : N) : bool := ((128 <=? c) && (c <? 192))%N.

(** [b.decode('utf-8', errors='ignore')]: an invalid start byte is
    skipped; an invalid continuation byte ends the sequence, whose bytes
    read so far are skipped; a sequence cut by the end of the data is
    dropped. *)
Fixpoint utf8_decode_ignore (b : bytes) : pytext :=
  match b with
  | [] => []
  | c :: r =>
      if (c <? 128)%N then c :: utf8_decode_ignore r
      else if (c <? 194)%N then utf8_decode_ignore r
      else if (c <? 224)%N then
        match r with
        | [] => []
        | c2 :: r2 =>
            if is_cont c2
            then ((c - 192) * 64 + (c2 - 128))%N :: utf8_decode_ignore r2
            else utf8_decode_ignore r
        end
      else if (c <? 240)%N then
        match r with
        | [] => []
        | c2 :: r2 =>
            if negb (is_cont c2) || (c =? 224)%N && (c2 <? 160)%N
               || (c =? 237)%N && (160 <=? c2)%N
            then utf8_decode_ignore r
            else
              match r2 with
              | [] => []
              | c3 :: r3 =>
                  if is_cont c3
                  then ((c - 224) * 4096 + (c2 - 128) * 64 + (c3 - 128))%N
                         :: utf8_decode_ignore r3
                  else utf8_decode_ignore r2
              end
        end
      else if (c <? 245)%N then
        match r with
        | [] => []
        | c2 :: r2 =>
            if negb (is_cont c2) || (c =? 240)%N && (c2 <? 144)%N
               || (c =? 244)%N && (144 <=? c2)%N
            then utf8_decode_ignore r
            else
              match r2 with
              | [] => []
              | c3 :: r3 =>
                  if negb (is_cont c3) then utf8_decode_ignore r2
                  else
                    match r3 with
                    | [] => []
                    | c4 :: r4 =>
                        if is_cont c4
                        then ((c - 240) * 262144 + (c2 - 128) * 4096
                              + (c3 - 128) * 64 + (c4 - 128))%N
                               :: utf8_decode_ignore r4
                        else utf8_decode_ignore r3
                    end
              end
        end
      else utf8_decode_ignore r
  end.

(** [b.startswith(b'\xff\xfe')] *)
Definition starts_with_bom (b : bytes) : bool :=
  match b with
  | 255%N :: 254%N :: _ => true
  | _ => false
  end.

Definition BOM : bytes := [255; 254]%N.

End Codec.

(** ** Files, the image libraries and the metadata codec *)

Module Store.
Import Codec.

(** An image file is kept structured: the 0th IFD of its EXIF block (tag
    id to value bytes, as [piexif] holds it), its XMP properties, and the
    rest of the file.  [Junk] is a file that does not open as an image,
    such as one left by an interrupted write. *)
Record image_file := {
  exif : option (gmap N bytes);
  xmp : gmap string string;
  payload : N
}.

Inductive content :=
| Image (i : image_file)
| Junk (b : bytes).

Record world := {
  fs : gmap string content;
  log : list string
}.

(** What the program does not control: write faults, the encoder of the
    image library, [piexif] on inputs where it may raise, and external
    commands. *)
Record env := {
  (** a write to this path is interrupted and leaves these bytes *)
  write_fault : string -> option bytes;
  (** the parts of a file outside EXIF after [Image.save] *)
  reencode : image_file -> image_file;
  (** [piexif.load(b'')] *)
  piexif_load_empty : result (gmap N bytes);
  (** [piexif.dump] accepts the dictionary *)
  piexif_dump_ok : gmap N bytes -> bool;
  (** [subprocess.run]: return code or exception, and the files after *)
  run : list string -> gmap string content ->
        result Z * gmap string content
}.

Definition log_message (w : world) (message : string) : world :=
  {| fs := fs w; log := log w ++ [message] |}.

Definition set_file (w : world) (path : string) (c : content) : world :=
  {| fs := <[path := c]> (fs w); log := log w |}.

Definition set_fs (w : world) (f : gmap string content) : world :=
  {| fs := f; log := log w |}.

(** [Image.open(path)] *)
Definition image_open (w : world) (path : string) : result image_file :=
  match fs w !! path with
  | Some (Image i) => Ok i
  | Some (Junk _) => Raise "UnidentifiedImageError"
  | None => Raise "FileNotFoundError"
  end.

(** [image.save(path, exif=exif_bytes, quality=95)]: the file at [path]
    is opened for writing and rewritten in place. *)
Definition image_save (e : env) (w : world) (path : string)
    (image : image_file) (exif_dict : gmap N bytes)
  : result unit * world :=
  match write_fault e path with
  | Some junk => (Raise "OSError", set_file w path (Junk junk))
  | None =>
      let r := reencode e image in
      (Ok tt, set_file w path
                (Image {| exif := Some exif_dict; xmp := xmp r;
                          payload := payload r |}))
  end.

(** Tag ids of [piexif.ImageIFD]. *)
Definition XPTitle : N := 40091.
Definition ImageDescription : N := 270.
Definition XPKeywords : N := 40094.
Definition Artist : N := 315.
Definition Make : N := 271.
Definition Model : N := 272.

(** *** Batch path: [_save_jpeg_metadata_direct] *)

(** [if key in metadata_dict: exif_dict['0th'][tag] = metadata_dict[key].encode(enc)] *)
Definition set_if_present (key : string) (tag : N) (enc : string -> bytes)
    (metadata_dict : gmap string string) (ifd : gmap N bytes)
  : gmap N bytes :=
  match metadata_dict !! key with
  | Some v => <[tag := enc v]> ifd
  | None => ifd
  end.

Definition direct_exif (metadata_dict : gmap string string)
    (ifd : gmap N bytes) : gmap N bytes :=
  let ifd := set_if_present "XPTitle" XPTitle utf16le_encode metadata_dict ifd in
  let ifd := set_if_present "ImageDescription" ImageDescription utf8_encode metadata_dict ifd in
  let ifd := set_if_present "XPKeywords" XPKeywords utf16le_encode metadata_dict ifd in
  let ifd := set_if_present "Artist" Artist utf8_encode metadata_dict ifd in
  let ifd := set_if_present "Make" Make utf8_encode metadata_dict ifd in
  set_if_present "Model" Model utf8_encode metadata_dict ifd.

Definition _save_jpeg_metadata_direct (e : env) (w : world)
    (image_path : string) (metadata_dict : gmap string string)
  : bool * world :=
  let failed exc w' :=
    (false, log_message w' ("Error saving JPEG metadata: " +:+ exc)) in
  match image_open w image_path with
  | Raise exc => failed exc w
  | Ok image =>
      match (match exif image with
             | Some d => Ok d
             | None => piexif_load_empty e
             end) with
      | Raise exc => failed exc w
      | Ok ifd =>
          let exif_dict := direct_exif metadata_dict ifd in
          if piexif_dump_ok e exif_dict then
            match image_save e w image_path image exif_dict with
            | (Raise exc, w') => failed exc w'
            | (Ok _, w') => (true, w')
            end
          else failed "ValueError" w
      end
  end.

(** *** Batch path: [_save_webp_metadata_direct]

    [attrs] holds the string-valued attributes of the instance;
    [self.exiftool_path] raises [AttributeError] when it has none. *)
Definition getattr (attrs : gmap string string) (name : string)
  : result string :=
  match attrs !! name with
  | Some v => Ok v
  | None => Raise "AttributeError"
  end.

Definition extend_if_present (key tag : string)
    (metadata_dict : gmap string string) (cmd : list string) : list string :=
  match metadata_dict !! key with
  | Some v => cmd ++ [tag; v]
  | None => cmd
  end.

Definition direct_cmd (exiftool_path image_path : string)
    (metadata_dict : gmap string string) : list string :=
  let cmd := [exiftool_path; "-overwrite_original"] in
  let cmd := extend_if_present "XPTitle" "-XMP:Title" metadata_dict cmd in
  let cmd := extend_if_present "ImageDescription" "-XMP:Description" metadata_dict cmd in
  let cmd := extend_if_present "XPKeywords" "-XMP:Subject" metadata_dict cmd in
  let cmd := extend_if_present "Artist" "-XMP:Creator" metadata_dict cmd in
  let cmd := extend_if_present "Make" "-XMP:Make" metadata_dict cmd in
  let cmd := extend_if_present "Model" "-XMP:Model" metadata_dict cmd in
  cmd ++ [image_path].

Definition _save_webp_metadata_direct (e : env)
    (attrs : gmap string string) (w : world)
    (image_path : string) (metadata_dict : gmap string string)
  : bool * world :=
  let failed exc w' :=
    (false, log_message w' ("Error saving WebP metadata: " +:+ exc)) in
  match getattr attrs "exiftool_path" with
  | Raise exc => failed exc w
  | Ok exiftool_path =>
      let cmd := direct_cmd exiftool_path image_path metadata_dict in
      match run e cmd (fs w) with
      | (Raise exc, f') => failed exc (set_fs w f')
      | (Ok returncode, f') =>
          if (returncode =? 0)%Z then (true, set_fs w f')
          else (false, log_message (set_fs w f') "ExifTool error")
      end
  end.

(** *** Batch path: [_save_metadata_to_file], dispatch on the suffix *)
Definition _save_metadata_to_file (e : env) (attrs : gmap string string)
    (w : world) (image_path : string) (metadata_dict : gmap string string)
  : bool * world :=
  let file_ext := PyStr.lower (PyPath.suffix image_path) in
  if String.eqb file_ext ".jpg" || String.eqb file_ext ".jpeg" then
    _save_jpeg_metadata_direct e w image_path metadata_dict
  else if String.eqb file_ext ".webp" then
    _save_webp_metadata_direct e attrs w image_path metadata_dict
  else
    (false, log_message w ("Unsupported file type: " +:+ file_ext)).

End Store.

(** ** Interactive path: the simple metadata tab *)

Module Simple.
Import Codec Store.

Inductive encoding := Utf16le | Utf8.

(** [field_mapping] of [save_simple_jpeg_metadata]: tag id and encoding
    of each of the six fields. *)
Definition field_mapping (field_name : string) : option (N * encoding) :=
  if String.eqb field_name "XPTitle" then Some (40091%N, Utf16le)
  else if String.eqb field_name "ImageDescription" then Some (270%N, Utf8)
  else if String.eqb field_name "XPKeywords" then Some (40094%N, Utf16le)
  else if String.eqb field_name "Artist" then Some (315%N, Utf8)
  else if String.eqb field_name "Make" then Some (271%N, Utf8)
  else if String.eqb field_name "Model" then Some (272%N, Utf8)
  else None.

(** The value written for one field: UTF-16LE values get the byte-order
    mark in front unless they already start with it. *)
Definition encode_value (enc : encoding) (value : string) : bytes :=
  match enc with
  | Utf16le =>
      let encoded_value := utf16le_encode value in
      if starts_with_bom encoded_value then encoded_value
      else BOM ++ encoded_value
  | Utf8 => utf8_encode value
  end.

(** One iteration of [for field_name, value in metadata_dict.items()]. *)
Definition add_field (field_name value : string) (ifd : gmap N bytes)
  : gmap N bytes :=
  match field_mapping field_name with
  | Some (tag_id, enc) => <[tag_id := encode_value enc value]> ifd
  | None => ifd
  end.

(** [save_simple_jpeg_metadata(image, file_path, metadata_dict)]; an
    exception is printed and raised again. *)
Definition save_simple_jpeg_metadata (e : env) (w : world)
    (image : image_file) (file_path : string)
    (metadata_dict : gmap string string) : result unit * world :=
  let ifd := match exif image with Some d => d | None => ∅ end in
  let exif_dict := map_fold add_field ifd metadata_dict in
  if piexif_dump_ok e exif_dict
  then image_save e w file_path image exif_dict
  else (Raise "ValueError", w).

(** Candidate locations of the external tool, probed with [-ver]. *)
Definition exiftool_paths : list string :=
  ["exiftool"; ".\exiftool\exiftool.exe"; "C:\exiftool\exiftool.exe"].

Fixpoint find_exiftool (e : env) (f : gmap string content)
    (paths : list string) : option string * gmap string content :=
  match paths with
  | [] => (None, f)
  | path :: rest =>
      match run e [path; "-ver"] f with
      | (Ok returncode, f') =>
          if (returncode =? 0)%Z then (Some path, f')
          else find_exiftool e f' rest
      | (Raise _, f') => find_exiftool e f' rest
      end
  end.

Definition webp_field_mapping (field_name : string) : option string :=
  if String.eqb field_name "XPTitle" then Some "-XMP:Title"
  else if String.eqb field_name "ImageDescription" then Some "-XMP:Description"
  else if String.eqb field_name "XPKeywords" then Some "-XMP:Subject"
  else if String.eqb field_name "Artist" then Some "-XMP:Creator"
  else if String.eqb field_name "Make" then Some "-XMP:Make"
  else if String.eqb field_name "Model" then Some "-XMP:Model"
  else None.

Definition dquote : string := String "034"%char EmptyString.

(** [cmd.extend([field_mapping[field_name], f'"{value}"'])]: the value is
    passed between two quote characters. *)
Definition extend_field (field_name value : string) (cmd : list string)
  : list string :=
  match webp_field_mapping field_name with
  | Some tag => cmd ++ [tag; dquote +:+ value +:+ dquote]
  | None => cmd
  end.

Definition webp_cmd (exiftool_cmd file_path : string)
    (metadata_dict : gmap string string) : list string :=
  foldl (fun cmd kv => extend_field kv.1 kv.2 cmd)
        [exiftool_cmd; "-overwrite_original"] (map_to_list metadata_dict)
  ++ [file_path].

(** [save_simple_webp_metadata(image, file_path, metadata_dict)] *)
Definition save_simple_webp_metadata (e : env) (w : world)
    (file_path : string) (metadata_dict : gmap string string)
  : result unit * world :=
  match find_exiftool e (fs w) exiftool_paths with
  | (None, f') => (Raise "Exception", set_fs w f')
  | (Some exiftool_cmd, f') =>
      match run e (webp_cmd exiftool_cmd file_path metadata_dict) f' with
      | (Raise exc, f'') => (Raise exc, set_fs w f'')
      | (Ok returncode, f'') =>
          if (returncode =? 0)%Z then (Ok tt, set_fs w f'')
          else (Raise "Exception", set_fs w f'')
      end
  end.

(** What [image.getexif()] hands to the program for a stored value: tags
    of TIFF type ASCII come back as text, one character per byte; the
    other tags, among them the two XP tags of type BYTE, as bytes. *)
Inductive exif_value :=
| VBytes (b : bytes)
| VStr (s : string).

Definition ascii_typed (tag_id : N) : bool :=
  ((tag_id =? 270) || (tag_id =? 271) || (tag_id =? 272) || (tag_id =? 315))%N.

Definition pil_value (tag_id : N) (raw : bytes) : exif_value :=
  if ascii_typed tag_id then VStr (latin1_decode raw) else VBytes raw.

Definition getexif (image : image_file) : gmap N exif_value :=
  match exif image with
  | Some d => map_imap (fun tag_id raw => Some (pil_value tag_id raw)) d
  | None => ∅
  end.

(** [PIL.ExifTags.TAGS], on the six tags whose names the reader tests. *)
Definition TAGS (tag_id : N) : option string :=
  if (tag_id =? 40091)%N then Some "XPTitle"
  else if (tag_id =? 270)%N then Some "ImageDescription"
  else if (tag_id =? 40094)%N then Some "XPKeywords"
  else if (tag_id =? 315)%N then Some "Artist"
  else if (tag_id =? 271)%N then Some "Make"
  else if (tag_id =? 272)%N then Some "Model"
  else None.

(** The text of one value: bytes of the XP tags lose a leading byte-order
    mark and decode as UTF-16LE, other bytes decode as UTF-8. *)
Definition decode_data (tag_id : N) (data : exif_value) : pytext :=
  match data with
  | VBytes b =>
      if ((tag_id =? 40091) || (tag_id =? 40094))%N
      then utf16le_decode_ignore (if starts_with_bom b then drop 2 b else b)
      else utf8_decode_ignore b
  | VStr s => codepoints s
  end.

(** One iteration of [for tag_id in exifdata]. *)
Definition read_tag (tag_id : N) (data : exif_value)
    (all_fields : gmap string pytext) : gmap string pytext :=
  match TAGS tag_id with
  | Some tag => <[tag := decode_data tag_id data]> all_fields
  | None => all_fields
  end.

Definition simple_standard_fields : list string :=
  ["XPTitle"; "ImageDescription"; "XPKeywords"; "Artist"; "Make"; "Model"].

Definition empty_fields : gmap string pytext :=
  foldl (fun all_fields field_name => <[field_name := []]> all_fields)
        ∅ simple_standard_fields.

(** [load_simple_metadata], as the six standard fields it displays. *)
Definition load_simple_metadata (w : world) (path : string)
  : result (gmap string pytext) :=
  match image_open w path with
  | Raise exc => Raise exc
  | Ok image => Ok (map_fold read_tag empty_fields (getexif image))
  end.

End Simple.

(** ** The fragment of [re] that the response parser uses

    A pattern is a sequence of items.  Every pattern of the parser has
    one capturing group, a repeated character class, and repeats classes
    of single characters only, so backtracking is a recursion on the
    text.  All patterns are compiled with [re.IGNORECASE]. *)

Module Re.
Import PyStr.

Inductive item :=
| Lit (c : ascii)                  (* a literal, compared ignoring case *)
| Cls (p : ascii -> bool)          (* one character of a class *)
| Opt (p : ascii -> bool)          (* [class?], greedy *)
| Star (p : ascii -> bool)         (* [class*], greedy *)
| CapLazy (p : ascii -> bool)      (* the group [(class+?)] *)
| CapGreedy (p : ascii -> bool)    (* the group [(class+)] *)
| EndOfLine.                       (* [(?:\n|$)] under [re.MULTILINE] *)

Definition lit (s : string) : list item := map Lit (list_ascii_of_string s).

Definition snoc (s : string) (c : ascii) : string := s +:+ String c "".

(** [match_here pat s] is the text of the group when [pat] matches a
    prefix of [s], trying the alternatives in the order of a backtracking
    matcher. *)
Fixpoint match_here (pat : list item) : string -> option string :=
  match pat with
  | [] => fun _ => Some ""
  | it :: rest =>
      let k := match_here rest in
      match it with
      | Lit c => fun s =>
          match s with
          | String a s' =>
              if Ascii.eqb (lower_char a) (lower_char c) then k s' else None
          | "" => None
          end
      | Cls p => fun s =>
          match s with
          | String a s' => if p a then k s' else None
          | "" => None
          end
      | Opt p => fun s =>
          match s with
          | String a s' =>
              if p a then
                match k s' with Some r => Some r | None => k s end
              else k s
          | "" => k s
          end
      | Star p =>
          fix star (s : string) : option string :=
            match s with
            | String a s' =>
                if p a then
                  match star s' with Some r => Some r | None => k s end
                else k s
            | "" => k s
            end
      | CapLazy p =>
          (fix lazy (acc s : string) : option string :=
             match s with
             | String a s' =>
                 if p a then
                   match k s' with
                   | Some _ => Some (snoc acc a)
                   | None => lazy (snoc acc a) s'
                   end
                 else None
             | "" => None
             end) ""
      | CapGreedy p =>
          (fix greedy (acc s : string) : option string :=
             match s with
             | String a s' =>
                 if p a then
                   match greedy (snoc acc a) s' with
                   | Some r => Some r
                   | None =>
                       match k s' with
                       | Some _ => Some (snoc acc a)
                       | None => None
                       end
                   end
                 else None
             | "" => None
             end) ""
      | EndOfLine => fun s =>
          match s with
          | String a s' =>
              if Ascii.eqb a nl then
                match k s' with Some r => Some r | None => k s end
              else None
          | "" => k s
          end
      end
  end.

(** [re.search(pat, s).group(1)]: the leftmost match. *)
Fixpoint search (pat : list item) (s : string) : option string :=
  match match_here pat s with
  | Some r => Some r
  | None =>
      match s with
      | "" => None
      | String _ s' => search pat s'
      end
  end.

Definition any_char (c : ascii) : bool := negb (Ascii.eqb c nl).
Definition char_is (x : ascii) (c : ascii) : bool := Ascii.eqb c x.
Definition quote (c : ascii) : bool :=
  Ascii.eqb c "034"%char || Ascii.eqb c "039"%char.
Definition not_quote (c : ascii) : bool := negb (quote c).
Definition colon_or_equals (c : ascii) : bool :=
  Ascii.eqb c ":"%char || Ascii.eqb c "="%char.
Definition not_lt (c : ascii) : bool := negb (Ascii.eqb c "<"%char).

(** [r'KEY\s*:\s*(.+?)(?:\n|$)'] *)
Definition structured (key : string) : list item :=
  lit key ++ [Star isspace; Cls (char_is ":"%char); Star isspace;
              CapLazy any_char; EndOfLine].

(** [r'KEY["\']?\s*[:=]\s*["\']([^"\']+)["\']'] *)
Definition quoted (key : string) : list item :=
  lit key ++ [Opt quote; Star isspace; Cls colon_or_equals; Star isspace;
              Cls quote; CapGreedy not_quote; Cls quote].

(** [r'<title>([^<]+)</title>'] *)
Definition title_element : list item :=
  lit "<title>" ++ [CapGreedy not_lt] ++ lit "</title>".

(** Every character of a text satisfies [ok]. *)
Fixpoint all_chars (ok : ascii -> bool) (s : string) : bool :=
  match s with
  | "" => true
  | String c s' => ok c && all_chars ok s'
  end.

(** Any character but [c]. *)
Definition is_not (c : ascii) : ascii -> bool :=
  fun a => negb (Ascii.eqb a c).

(** An item that has to consume a character and accepts none of the
    characters that satisfy [ok]. *)
Definition dead (ok : ascii -> bool) (it : item) : Prop :=
  match it with
  | Lit x =>
      forall c, ok c = true -> Ascii.eqb (lower_char c) (lower_char x) = false
  | Cls p => forall c, ok c = true -> p c = false
  | _ => False
  end.

(** Neither a colon, nor an equals sign, nor a [<]. *)
Definition plain_char (c : ascii) : bool :=
  negb (Ascii.eqb c ":"%char) && negb (Ascii.eqb c "="%char)
  && negb (Ascii.eqb c "<"%char).

End Re.

(** ** Response parser: [_parse_ai_response_for_metadata] *)

Module Parser.
Import PyStr Re.

(** [max(l, key=len)]: the first of the longest elements. *)
Fixpoint longest (best : string) (l : list string) : string :=
  match l with
  | [] => best
  | x :: r =>
      if String.length best <? String.length x then longest x r
      else longest best r
  end.

Definition description_line (line : string) : bool :=
  negb (String.eqb line "") && negb (startswith "**" line)
  && negb (startswith "###" line) && negb (startswith "```" line)
  && (20 <? String.length line).

Definition description_parts (ai_response : string) : list string :=
  List.filter description_line (map strip (split_char nl ai_response)).

Definition keyword_indicators : list string :=
  ["kitchen"; "worktop"; "countertop"; "cabinet"; "modern"; "design";
   "concrete"; "wood"; "granite"; "braganza"].

Definition keywords (ai_response : string) : list string :=
  List.filter (fun indicator => contains (lower indicator) (lower ai_response))
              keyword_indicators.

(** [for pattern in patterns: match = re.search(...); if match: ... break] *)
Fixpoint first_match (patterns : list (list item)) (s : string)
  : option string :=
  match patterns with
  | [] => None
  | pattern :: rest =>
      match search pattern s with
      | Some g => Some g
      | None => first_match rest s
      end
  end.

Definition set_opt (key : string) (v : option string)
    (metadata : gmap string string) : gmap string string :=
  match v with
  | Some g => <[key := strip g]> metadata
  | None => metadata
  end.

(** [not metadata.get(key)]: the key is missing or its value is empty. *)
Definition missing (key : string) (metadata : gmap string string) : bool :=
  match metadata !! key with
  | Some v => String.eqb v ""
  | None => true
  end.

(** The structured pattern of a field, then its fallback patterns. *)
Definition extract (key : string) (fallbacks : list (list item))
    (ai_response : string) : option string :=
  match search (structured key) ai_response with
  | Some g => Some g
  | None => first_match fallbacks ai_response
  end.

(** [current_filename_data] is the attribute of that name when the
    instance has it ([hasattr]).  The chat lines that the source adds
    while parsing are display only and are left out. *)
Definition _parse_ai_response_for_metadata
    (current_filename_data : option Context.filename_data)
    (ai_response : string) : gmap string string :=
  let metadata : gmap string string := ∅ in
  let metadata :=
    match description_parts ai_response with
    | [] => metadata
    | x :: r => <["Description" := longest x r]> metadata
    end in
  let metadata :=
    match keywords ai_response with
    | [] => metadata
    | ks => <["Keywords" := join ", " ks]> metadata
    end in
  let metadata :=
    match search (structured "title") ai_response with
    | Some g => <["Title" := strip g]> metadata
    | None =>
        if contains "title" (lower ai_response)
           || contains "name" (lower ai_response)
        then set_opt "Title"
               (first_match [quoted "title"; title_element; quoted "name"]
                            ai_response) metadata
        else metadata
    end in
  let metadata :=
    set_opt "Artist"
      (extract "artist" [quoted "artist"; quoted "company"; quoted "brand"]
               ai_response) metadata in
  let metadata :=
    set_opt "Make"
      (extract "make" [quoted "make"; quoted "product code"; quoted "code"]
               ai_response) metadata in
  let metadata :=
    set_opt "Model"
      (extract "model" [quoted "model"; quoted "type"; quoted "product type"]
               ai_response) metadata in
  let metadata :=
    if missing "Artist" metadata && contains "egger" (lower ai_response)
    then <["Artist" := "[Your Company Name]"]> metadata
    else metadata in
  if missing "Make" metadata && missing "Model" metadata then
    match current_filename_data with
    | Some filename_data =>
        let metadata :=
          if negb (String.eqb (Context.code filename_data) "")
          then <["Make" := Context.code filename_data]> metadata
          else metadata in
        if negb (String.eqb (Context.type filename_data) "")
        then <["Model" := Context.type filename_data]> metadata
        else metadata
    | None => metadata
    end
  else metadata.

(** What the parser takes from a text without field syntax: the longest
    line as Description, the whitelist terms as Keywords, and the
    placeholder Artist when the text mentions [egger]. *)
Definition plain_record (ai_response : string) : gmap string string :=
  let metadata : gmap string string := ∅ in
  let metadata :=
    match description_parts ai_response with
    | [] => metadata
    | x :: r => <["Description" := longest x r]> metadata
    end in
  let metadata :=
    match keywords ai_response with
    | [] => metadata
    | ks => <["Keywords" := join ", " ks]> metadata
    end in
  if contains "egger" (lower ai_response)
  then <["Artist" := "[Your Company Name]"]> metadata
  else metadata.

End Parser.

(** ** Batch orchestrator *)

Module Batch.
Import PyStr Store.

Record chat_message := {
  sender : string;
  message : string
}.

(** The attributes of the instance that the batch entry points read. *)
Record app := {
  batch_folder : option string;
  ai_enabled : bool;
  chat_messages : list chat_message;
  image_files : list string;
  ai_processing : bool;
  current_filename_data : option Context.filename_data;
  attrs : gmap string string
}.

Definition set_ai_processing (b : bool) (self : app) : app :=
  {| batch_folder := batch_folder self;
     ai_enabled := ai_enabled self;
     chat_messages := chat_messages self;
     image_files := image_files self;
     ai_processing := b;
     current_filename_data := current_filename_data self;
     attrs := attrs self |}.

(** The services outside the program that one batch run talks to. *)
Record services := {
  store : env;
  (** [base64.b64encode(f.read()).decode('utf-8')] of a file *)
  image_data_of : content -> string;
  (** [_call_lm_studio_api_with_context]: the reply, or [None] on a
      transport error, a status other than 200 or a reply without
      choices *)
  vision_api : string -> string -> option string;
  (** [self.root.after(0, self._update_batch_progress, ...)] for the
      image at an index *)
  tk_after : nat -> result unit;
  (** [self.root.after(0, self._reset_batch_progress)] at the end *)
  tk_reset : result unit
}.

(** *** [start_batch_ai_processing] *)

Inductive start_result :=
| Warning (text : string)
| Declined
| ThreadStarted.

Definition truthy (s : option string) : bool :=
  match s with
  | Some v => negb (String.eqb v "")
  | None => false
  end.

(** [answer] is the reply to the confirmation dialog. *)
Definition start_batch_ai_processing (self : app) (answer : bool)
  : start_result :=
  if negb (truthy (batch_folder self)) then
    Warning "Please select a folder first"
  else if negb (ai_enabled self) then
    Warning "Please enable AI and test connection first"
  else match chat_messages self with
       | [] => Warning "Please set up rules in the AI Chat tab first"
       | _ :: _ => if negb answer then Declined else ThreadStarted
       end.

Definition launches (r : start_result) : bool :=
  match r with
  | ThreadStarted => true
  | _ => false
  end.

(** *** [_extract_chat_rules] and [_format_rules_for_ai] *)

Record rule := {
  rule_type : string;
  content : string
}.

Definition rule_keywords : list string :=
  ["rule"; "instruction"; "always"; "never"; "should"; "must"; "format"].

Definition extract_rule (msg : chat_message) : list rule :=
  if String.eqb (sender msg) "user" then
    if existsb (fun keyword => contains keyword (lower (message msg)))
               rule_keywords
    then [{| rule_type := "user_rule"; content := message msg |}]
    else []
  else if String.eqb (sender msg) "ai" then
    if contains "format" (lower (message msg))
       || contains "structure" (lower (message msg))
    then [{| rule_type := "ai_format"; content := message msg |}]
    else []
  else [].

Definition _extract_chat_rules (self : app) : list rule :=
  flat_map extract_rule (chat_messages self).

Definition _format_rules_for_ai (rules : list rule) : string :=
  match rules with
  | [] => "No specific rules provided. Use standard metadata format."
  | _ => join NL (map (fun r => "- " +:+ content r) rules)
  end.

(** *** [_process_single_image_ai] *)

Definition build_context (filename : string)
    (filename_data : Context.filename_data) (rules : list rule) : string :=
  join NL
    [""; "Filename: " +:+ filename;
     "Product Code: " +:+ Context.code filename_data;
     "Product Type: " +:+ Context.type filename_data;
     "Color: " +:+ Context.color filename_data;
     "Product Name: " +:+ Context.name filename_data;
     "Category: " +:+ Context.category filename_data;
     "";
     "Rules and Instructions:";
     _format_rules_for_ai rules;
     "";
     "Please provide metadata suggestions for this image in the following format:";
     "";
     "Title: [descriptive title based on the product and room shown]";
     "Description: [detailed description of what's shown in the image]";
     "Keywords: [relevant search terms, comma-separated]";
     "Artist: [Your Company Name]";
     "Make: " +:+ Context.code filename_data;
     "Model: " +:+ Context.type filename_data;
     "";
     "Please ensure all 6 fields are provided with the exact format shown above.";
     ""].

(** [open(image_path, "rb")] and the encoding of what it reads. *)
Definition read_image_data (sv : services) (w : world) (image_path : string)
  : result string :=
  match fs w !! image_path with
  | Some c => Ok (image_data_of sv c)
  | None => Raise "FileNotFoundError"
  end.

Definition _process_single_image_ai (sv : services) (self : app) (w : world)
    (image_path : string) (rules : list rule) : bool * world :=
  let filename := PyPath.name image_path in
  let filename_data := Context.parse_filename_data filename in
  let context := build_context filename filename_data rules in
  match read_image_data sv w image_path with
  | Raise exc =>
      (false, log_message w ("Error processing " +:+ image_path +:+ ": " +:+ exc))
  | Ok image_data =>
      match vision_api sv image_data context with
      | Some response =>
          if String.eqb response "" then (false, w)
          else
            let metadata_dict :=
              Parser._parse_ai_response_for_metadata
                (current_filename_data self) response in
            if decide (metadata_dict = ∅) then (false, w)
            else _save_metadata_to_file (store sv) (attrs self) w
                                        image_path metadata_dict
      | None => (false, w)
      end
  end.

(** *** [_process_batch_ai_thread] *)

(** The body of the loop for the image at index [i]: whether the image
    counts as successful and whether it counts as processed. *)
Definition process_one (sv : services) (self : app) (rules : list rule)
    (i : nat) (image_path : string) (w : world) : bool * bool * world :=
  match tk_after sv i with
  | Raise exc =>
      (false, false,
       log_message w ("Error processing " +:+ PyPath.basename image_path
                      +:+ ": " +:+ exc))
  | Ok _ =>
      match _process_single_image_ai sv self w image_path rules with
      | (true, w') =>
          (true, true, log_message w' ("Processed: " +:+ PyPath.basename image_path))
      | (false, w') =>
          (false, true, log_message w' ("Failed: " +:+ PyPath.basename image_path))
      end
  end.

Record counters := {
  processed : nat;
  successful : nat;
  failed : nat
}.

(** [for i, image_path in enumerate(self.image_files)] *)
Fixpoint batch_loop (sv : services) (self : app) (rules : list rule)
    (i : nat) (images : list string) (c : counters) (w : world)
  : counters * world :=
  match images with
  | [] => (c, w)
  | image_path :: rest =>
      match process_one sv self rules i image_path w with
      | (success, counted, w') =>
          batch_loop sv self rules (S i) rest
            {| processed := if counted then S (processed c) else processed c;
               successful := if success then S (successful c) else successful c;
               failed := if success then failed c else S (failed c) |}
            w'
      end
  end.

Definition summary (c : counters) (total_images : nat) : string :=
  "Results: " +:+ str_of_nat (successful c) +:+ " successful, "
  +:+ str_of_nat (failed c) +:+ " failed out of "
  +:+ str_of_nat total_images +:+ " total".

(** The thread body on a log that can be written (module [Worker] has
    the body with a log that can fail): the flag is raised, every image
    is visited, the summary is logged, the progress is reset, and the
    flag is lowered in the [finally] clause.  When the reset raises, the
    outer [except] clause logs the error. *)
Definition _process_batch_ai_thread (sv : services) (self : app) (w : world)
  : app * counters * world :=
  let w := log_message w "Starting batch AI processing..." in
  let self := set_ai_processing true self in
  let rules := _extract_chat_rules self in
  let w := log_message w ("Extracted " +:+ str_of_nat (length rules)
                          +:+ " rules from chat") in
  let total_images := length (image_files self) in
  match batch_loop sv self rules 0 (image_files self)
          {| processed := 0; successful := 0; failed := 0 |} w with
  | (c, w) =>
      let w := log_message w "Batch processing complete!" in
      let w := log_message w (summary c total_images) in
      let w :=
        match tk_reset sv with
        | Ok _ => w
        | Raise exc => log_message w ("Batch processing error: " +:+ exc)
        end in
      (set_ai_processing false self, c, w)
  end.



End Batch.

(** ** Tool-augmented mode: the folder tools and the local answer router *)

Module Router.
Import PyStr.

(** The floating-point operations that the tools and the router use.
    They belong to the Python runtime and are kept abstract. *)
Record float_ops := {
  float : Type;
  (** [float(s)]; [None] is [ValueError] *)
  float_of_str : string -> option float;
  (** [f"{x:.1f}"] *)
  format_1f : float -> string;
  (** [x < y] *)
  float_ltb : float -> float -> bool;
  (** the integer [0] *)
  float_zero : float
}.

Section Tools.
Variable fl : float_ops.

(** The attributes that the tools read, and [os.path.getsize(p) / 1024]
    for the files of the folder. *)
Record tool_state := {
  chat_folder_images : list string;
  chat_folder_path_str : string;
  chat_current_image_index : nat;
  getsize_kb : string -> result (float fl)
}.

Fixpoint insert_sorted (x : string) (l : list string) : list string :=
  match l with
  | [] => [x]
  | y :: r => if String.leb x y then x :: l else y :: insert_sorted x r
  end.

(** [unique_files = list(set(l)); unique_files.sort()] *)
Definition sorted_unique (l : list string) : list string :=
  foldr insert_sorted [] (remove_dups l).

(** The lines [f"{i}. {filename} ({file_size:.1f} KB)"], numbered from
    [i]; a failing [getsize] ends the tool. *)
Fixpoint file_lines (ts : tool_state) (i : nat) (files : list string)
  : result (list string) :=
  match files with
  | [] => Ok []
  | img_path :: rest =>
      match getsize_kb ts img_path with
      | Raise exc => Raise exc
      | Ok file_size =>
          match file_lines ts (S i) rest with
          | Raise exc => Raise exc
          | Ok lines =>
              Ok ((str_of_nat i +:+ ". " +:+ PyPath.basename img_path
                   +:+ " (" +:+ format_1f fl file_size +:+ " KB)") :: lines)
          end
      end
  end.

Definition _tool_list_folder_contents (ts : tool_state) : result string :=
  match chat_folder_images ts with
  | [] => Ok "No folder loaded. Please select a folder first."
  | _ :: _ =>
      let folder_name :=
        if String.eqb (chat_folder_path_str ts) "" then "Unknown"
        else PyPath.basename (chat_folder_path_str ts) in
      let unique_files := sorted_unique (chat_folder_images ts) in
      match file_lines ts 1 unique_files with
      | Raise exc => Raise exc
      | Ok file_list =>
          Ok ("Folder: " +:+ folder_name +:+ NL +:+ "Total files: "
              +:+ str_of_nat (length unique_files) +:+ NL +:+ NL
              +:+ "Files:" +:+ NL +:+ join NL file_list)
      end
  end.

(** [args.get('index', 1)] on the members of the parsed arguments. *)
Definition get_index (args : list (string * Z)) : Z :=
  match List.find (fun kv => String.eqb (fst kv) "index") args with
  | Some kv => snd kv
  | None => 1%Z
  end.

Definition _tool_get_image_info (ts : tool_state) (args : list (string * Z))
  : string :=
  match chat_folder_images ts with
  | [] => "No folder loaded."
  | _ :: _ =>
      let image_index := (get_index args - 1)%Z in
      if ((0 <=? image_index)
          && (image_index <? Z.of_nat (length (chat_folder_images ts))))%Z
      then
        let img_path := nth (Z.to_nat image_index) (chat_folder_images ts) "" in
        let filename := PyPath.basename img_path in
        match getsize_kb ts img_path with
        | Raise exc => "Error getting image info: " +:+ exc
        | Ok file_size =>
            let filename_data := Context.parse_filename_data filename in
            "Image " +:+ str_of_int (image_index + 1) +:+ ":" +:+ NL
            +:+ "- Filename: " +:+ filename +:+ NL
            +:+ "- Size: " +:+ format_1f fl file_size +:+ " KB" +:+ NL
            +:+ "- Product Code: " +:+ Context.code filename_data +:+ NL
            +:+ "- Product Type: " +:+ Context.type filename_data +:+ NL
            +:+ "- Color: " +:+ Context.color filename_data +:+ NL
            +:+ "- Product Name: " +:+ Context.name filename_data +:+ NL
            +:+ "- Category: " +:+ Context.category filename_data
        end
      else "Invalid image index. Available range: 1-"
           +:+ str_of_nat (length (chat_folder_images ts))
  end.

Definition _tool_get_current_image (ts : tool_state) : string :=
  match chat_folder_images ts with
  | [] => "No current image available."
  | _ :: _ =>
      _tool_get_image_info ts
        [("index", Z.of_nat (chat_current_image_index ts + 1))]
  end.

Definition _execute_tool (ts : tool_state) (function_name : string)
    (args : list (string * Z)) : string :=
  if String.eqb function_name "list_folder_contents" then
    match _tool_list_folder_contents ts with
    | Ok r => r
    | Raise exc => "Tool execution error: " +:+ exc
    end
  else if String.eqb function_name "get_image_info" then
    _tool_get_image_info ts args
  else if String.eqb function_name "get_current_image" then
    _tool_get_current_image ts
  else "Unknown tool: " +:+ function_name.

(** A file name that the report of the folder tool shows unchanged: it
    does not begin with white space and holds neither a line break nor
    the two characters that open the size. *)
Definition plain_name (n : string) : bool :=
  match n with
  | "" => false
  | String c _ => negb (isspace c)
  end
  && negb (contains NL n) && negb (contains " (" n).

(** *** [_analyze_tool_results_and_respond] *)

Record file_entry := {
  name : string;
  size : float fl
}.

Record folder_report := {
  folder_name : string;
  total_files : Z;
  files : list file_entry
}.

(** The first result that holds both markers of a folder listing. *)
Definition find_folder_data (tool_results : list string) : option string :=
  List.find (fun r => contains "Folder:" r && contains "Total files:" r)
            tool_results.

(** A line of the form [1. filename.ext (size KB)]. *)
Definition parse_file_line (line : string) : list file_entry :=
  match split_once "." line with
  | _ :: rest :: _ =>
      let file_info := strip rest in
      if contains " (" file_info && contains " KB)" file_info then
        let pieces := split " (" file_info in
        let filename := nth 0 pieces "" in
        let size_str := replace " KB)" "" (nth 1 pieces "") in
        match float_of_str fl size_str with
        | Some size => [{| name := filename; size := size |}]
        | None => [{| name := file_info; size := float_zero fl |}]
        end
      else []
  | _ => []
  end.

Definition first_isdigit (line : string) : bool :=
  match line with
  | String c _ => isdigit c
  | "" => false
  end.

(** One iteration of [for line in lines]; [int] may raise. *)
Definition parse_line (line : string) (r : folder_report)
  : result folder_report :=
  if startswith "Folder:" line then
    Ok {| folder_name := strip (replace "Folder:" "" line);
          total_files := total_files r; files := files r |}
  else if startswith "Total files:" line then
    match int_of_str (strip (replace "Total files:" "" line)) with
    | Some n => Ok {| folder_name := folder_name r; total_files := n;
                      files := files r |}
    | None => Raise "invalid literal for int() with base 10"
    end
  else if negb (String.eqb (strip line) "") && first_isdigit line then
    Ok {| folder_name := folder_name r; total_files := total_files r;
          files := files r ++ parse_file_line line |}
  else Ok r.

Fixpoint parse_lines (lines : list string) (r : folder_report)
  : result folder_report :=
  match lines with
  | [] => Ok r
  | line :: rest =>
      match parse_line line r with
      | Ok r' => parse_lines rest r'
      | Raise exc => Raise exc
      end
  end.

Definition parse_folder_data (folder_data : string) : result folder_report :=
  parse_lines (split_char nl folder_data)
    {| folder_name := "Unknown"; total_files := 0; files := [] |}.

(** [max(files, key=lambda x: x['size'])]: the first of the largest. *)
Fixpoint max_by_size (best : file_entry) (l : list file_entry) : file_entry :=
  match l with
  | [] => best
  | x :: r =>
      if float_ltb fl (size best) (size x) then max_by_size x r
      else max_by_size best r
  end.

(** [min(files, key=lambda x: x['size'])]: the first of the smallest. *)
Fixpoint min_by_size (best : file_entry) (l : list file_entry) : file_entry :=
  match l with
  | [] => best
  | x :: r =>
      if float_ltb fl (size x) (size best) then min_by_size x r
      else min_by_size best r
  end.

Definition number_of_unique (filenames : list string) : nat :=
  base.size (list_to_set filenames : gset string).

Definition duplicate_answer (r : folder_report) : string :=
  let filenames := map name (files r) in
  if length filenames =? number_of_unique filenames then
    "No, there are no duplicate files in the '" +:+ folder_name r
    +:+ "' folder. All " +:+ str_of_int (total_files r)
    +:+ " files have unique names."
  else
    "Yes, there are "
    +:+ str_of_nat (length filenames - number_of_unique filenames)
    +:+ " duplicate files in the '" +:+ folder_name r
    +:+ "' folder. The folder contains "
    +:+ str_of_nat (number_of_unique filenames)
    +:+ " unique files out of " +:+ str_of_int (total_files r)
    +:+ " total files.".

Definition extreme_answer (word : string) (r : folder_report)
    (pick : file_entry -> list file_entry -> file_entry) : string :=
  match files r with
  | x :: rest =>
      let chosen := pick x rest in
      "The " +:+ word +:+ " file in the '" +:+ folder_name r
      +:+ "' folder is '" +:+ name chosen +:+ "' at "
      +:+ format_1f fl (size chosen) +:+ " KB."
  | [] => "No files found to analyze."
  end.

Fixpoint listing_lines (i : nat) (l : list file_entry) : string :=
  match l with
  | [] => ""
  | file_info :: rest =>
      str_of_nat i +:+ ". " +:+ name file_info +:+ " ("
      +:+ format_1f fl (size file_info) +:+ " KB)" +:+ NL
      +:+ listing_lines (S i) rest
  end.

Definition listing_answer (r : folder_report) : string :=
  "The '" +:+ folder_name r +:+ "' folder contains "
  +:+ str_of_int (total_files r) +:+ " files:" +:+ NL +:+ NL
  +:+ listing_lines 1 (files r).

Definition count_answer (r : folder_report) : string :=
  "The '" +:+ folder_name r +:+ "' folder contains "
  +:+ str_of_int (total_files r) +:+ " files.".

Definition default_answer (r : folder_report) (folder_data : string)
  : string :=
  "The '" +:+ folder_name r +:+ "' folder contains "
  +:+ str_of_int (total_files r) +:+ " files. Here are the details:"
  +:+ NL +:+ NL +:+ folder_data.

(** The [if]/[elif] chain over the lowered question. *)
Definition route (user_message : string) (r : folder_report)
    (folder_data : string) : string :=
  let user_lower := lower user_message in
  if contains "duplicate" user_lower then duplicate_answer r
  else if contains "largest" user_lower || contains "biggest" user_lower
  then extreme_answer "largest" r max_by_size
  else if contains "smallest" user_lower
  then extreme_answer "smallest" r min_by_size
  else if contains "list" user_lower || contains "files" user_lower
  then listing_answer r
  else if contains "count" user_lower || contains "how many" user_lower
  then count_answer r
  else default_answer r folder_data.

Definition _analyze_tool_results_and_respond (user_message : string)
    (tool_results : list string) : string :=
  match find_folder_data tool_results with
  | None => "Tool execution completed but no folder data was returned."
  | Some folder_data =>
      match parse_folder_data folder_data with
      | Raise exc => "Error analyzing tool results: " +:+ exc
      | Ok r => route user_message r folder_data
      end
  end.

(** *** [_process_tool_calls] *)

Inductive role := System | User | Assistant | Tool.

Record chat_entry := {
  entry_role : role;
  entry_content : string
}.

(** A tool call of the reply; [arguments] is [json.loads] of its
    argument text as its integer members, or the exception it raises. *)
Record tool_call := {
  call_id : string;
  function_name : string;
  arguments : result (list (string * Z))
}.

Definition same_call (a b : string * list (string * Z)) : bool :=
  bool_decide (a = b).

(** The loop over the tool calls: a repeated call is skipped, the others
    run and add a message of role [Tool]. *)
Fixpoint run_tool_calls (ts : tool_state) (tool_calls : list tool_call)
    (executed_tools : list (string * list (string * Z)))
    (messages : list chat_entry) : result (list chat_entry) :=
  match tool_calls with
  | [] => Ok messages
  | tc :: rest =>
      match arguments tc with
      | Raise exc => Raise exc
      | Ok function_args =>
          let tool_key := (function_name tc, function_args) in
          if existsb (same_call tool_key) executed_tools
          then run_tool_calls ts rest executed_tools messages
          else
            let tool_result := _execute_tool ts (function_name tc) function_args in
            run_tool_calls ts rest (tool_key :: executed_tools)
              (messages ++ [{| entry_role := Tool;
                               entry_content := tool_result |}])
      end
  end.

(** The messages that [_call_tool_use_api] sends: the system prompt and
    the question of the user. *)
Definition api_messages (system_message question : string)
  : list chat_entry :=
  [{| entry_role := System; entry_content := system_message |};
   {| entry_role := User; entry_content := question |}].

Definition assistant_entry : chat_entry :=
  {| entry_role := Assistant; entry_content := "" |}.

Definition is_tool (m : chat_entry) : bool :=
  match entry_role m with Tool => true | _ => false end.

Definition is_question (m : chat_entry) : bool :=
  match entry_role m with
  | User => negb (startswith "Please provide a clear response" (entry_content m))
  | _ => false
  end.

(** The answer comes from the tool results and the first question among
    the messages; the model is not called again. *)
Definition _process_tool_calls (ts : tool_state) (tool_calls : list tool_call)
    (messages : list chat_entry) : string :=
  let messages := messages ++ [assistant_entry] in
  match run_tool_calls ts tool_calls [] messages with
  | Raise exc => "Error processing tools: " +:+ exc
  | Ok messages =>
      let tool_results := map entry_content (List.filter is_tool messages) in
      match tool_results with
      | [] => "Tool execution completed but no results were returned."
      | _ :: _ =>
          let user_message :=
            match List.find is_question messages with
            | Some m => entry_content m
            | None => ""
            end in
          _analyze_tool_results_and_respond user_message tool_results
      end
  end.

End Tools.

Arguments chat_folder_images {fl} _.
Arguments chat_folder_path_str {fl} _.
Arguments chat_current_image_index {fl} _.
Arguments getsize_kb {fl} _ _.
Arguments name {fl} _.
Arguments size {fl} _.
Arguments folder_name {fl} _.
Arguments total_files {fl} _.
Arguments files {fl} _.

End Router.

(** ** Concrete surroundings for the examples *)

Module Fixtures.
Import PyStr Codec Store.

(** The external metadata tool as the specification describes its
    invocation, [<tool> -overwrite_original <-TAGNAME value> ... <file>]:
    each value goes under its tag among the XMP properties of the file,
    and nothing else in the file changes.  Only the bare command name
    [exiftool] is installed. *)
Fixpoint tool_arguments (args : list string) (x : gmap string string)
  : option (gmap string string * string) :=
  match args with
  | [] => None
  | [file] => Some (x, file)
  | tag :: value :: rest => tool_arguments rest (<[tag := value]> x)
  end.

Definition exiftool_run (cmd : list string) (f : gmap string content)
  : result Z * gmap string content :=
  match cmd with
  | tool :: option :: args =>
      if negb (String.eqb tool "exiftool") then (Raise "FileNotFoundError", f)
      else if String.eqb option "-ver" then (Ok 0%Z, f)
      else if String.eqb option "-overwrite_original" then
        match tool_arguments args ∅ with
        | Some (x, file) =>
            match f !! file with
            | Some (Image i) =>
                (Ok 0%Z,
                 <[file := Image {| exif := exif i; xmp := x ∪ xmp i;
                                    payload := payload i |}]> f)
            | _ => (Ok 1%Z, f)
            end
        | None => (Ok 1%Z, f)
        end
      else (Ok 1%Z, f)
  | _ => (Raise "FileNotFoundError", f)
  end.

(** No write fault, a lossless encoder, a strict [piexif]. *)
Definition quiet_env : env :=
  {| write_fault := fun _ => None;
     reencode := fun i => i;
     piexif_load_empty := Raise "FileNotFoundError";
     piexif_dump_ok := fun _ => true;
     run := exiftool_run |}.

(** The same, on a full disk: a write leaves an empty file. *)
Definition full_disk_env : env :=
  {| write_fault := fun _ => Some [];
     reencode := fun i => i;
     piexif_load_empty := Raise "FileNotFoundError";
     piexif_dump_ok := fun _ => true;
     run := exiftool_run |}.

Definition photo : image_file :=
  {| exif := Some {[ Make := utf8_encode "Canon" ]};
     xmp := ∅; payload := 7 |}.

Definition plain_image : image_file :=
  {| exif := None; xmp := ∅; payload := 9 |}.

Definition disk : world :=
  {| fs := {[ "/in/photo.jpg" := Image photo;
              "/in/picture.webp" := Image plain_image ]};
     log := [] |}.

(** A fixed-point stand-in for the floats: sizes in whole tenths. *)
Definition tenths_of_str (s : string) : option Z :=
  match split_once "." (strip s) with
  | [ip; String c ""] =>
      match int_digits 0 false ip, decimal_value c with
      | Some a, Some b => Some (Z.of_N (10 * a + b))
      | _, _ => None
      end
  | [ip] => option_map (fun a => Z.of_N (10 * a)) (int_digits 0 false ip)
  | _ => None
  end.

Definition tenths_format (z : Z) : string :=
  str_of_nat (Z.to_nat (z / 10)) +:+ "." +:+ str_of_nat (Z.to_nat (z mod 10)).

Definition tenths : Router.float_ops :=
  {| Router.float := Z;
     Router.float_of_str := tenths_of_str;
     Router.format_1f := tenths_format;
     Router.float_ltb := Z.ltb;
     Router.float_zero := 0%Z |}.

(** A folder whose two files differ by a leading space. *)
Definition spaced_folder : Router.tool_state tenths :=
  Router.Build_tool_state tenths ["/d/a.jpg"; "/d/ a.jpg"] "/d" 0
    (fun _ => Ok 10%Z).

(** A folder of three files of 1.5, 20.0 and 0.7 kilobytes. *)
Definition sized_folder : Router.tool_state tenths :=
  Router.Build_tool_state tenths ["/k/b.jpg"; "/k/a.jpg"; "/k/c.webp"] "/k" 0
    (fun p =>
       if String.eqb p "/k/a.jpg" then Ok 15%Z
       else if String.eqb p "/k/b.jpg" then Ok 200%Z
       else Ok 7%Z).

Definition list_call : Router.tool_call :=
  {| Router.call_id := "call_1";
     Router.function_name := "list_folder_contents";
     Router.arguments := Ok [] |}.

Definition current_image_call : Router.tool_call :=
  {| Router.call_id := "call_1";
     Router.function_name := "get_current_image";
     Router.arguments := Ok [] |}.

(** The messages that [_call_tool_use_api] builds around a question. *)
Definition conversation (question : string) : list Router.chat_entry :=
  Router.api_messages
    "You are an AI assistant with access to tools for analyzing image folders and files."
    question.

(** An instance on which a run is in progress and every guard of the
    start entry point is satisfied. *)
Definition busy_app : Batch.app :=
  {| Batch.batch_folder := Some "/in";
     Batch.ai_enabled := true;
     Batch.chat_messages :=
       [{| Batch.sender := "user";
           Batch.message := "Always use the product code as Make" |}];
     Batch.image_files := ["/in/photo.jpg"; "/in/picture.webp"];
     Batch.ai_processing := true;
     Batch.current_filename_data := None;
     Batch.attrs := {[ "vision_model" := "qwen" ]} |}.

End Fixtures.

(** ** Interactive path: saving through a temporary copy *)

Module Interactive.
Import PyStr Codec Store Simple.

Fixpoint last_char (s : string) : option ascii :=
  match s with
  | "" => None
  | String c "" => Some c
  | String _ s' => last_char s'
  end.

(** [os.path.join(a, b)] on POSIX paths. *)
Definition path_join (a b : string) : string :=
  if startswith "/" b then b
  else match last_char a with
       | None => b
       | Some c => if Ascii.eqb c "/" then a +:+ b else a +:+ "/" +:+ b
       end.

(** [shutil.copy2(src, dst)] *)
Definition copy2 (e : env) (w : world) (src dst : string)
  : result unit * world :=
  match fs w !! src with
  | None => (Raise "FileNotFoundError", w)
  | Some c =>
      if String.eqb src dst then (Raise "SameFileError", w)
      else match write_fault e dst with
           | Some junk => (Raise "OSError", set_file w dst (Junk junk))
           | None => (Ok tt, set_file w dst c)
           end
  end.

(** [shutil.move(src, dst)] onto an existing file: a rename, or across
    file systems a copy that a write fault can interrupt, after which the
    source is removed. *)
Definition move (e : env) (w : world) (src dst : string)
  : result unit * world :=
  match fs w !! src with
  | None => (Raise "FileNotFoundError", w)
  | Some c =>
      match write_fault e dst with
      | Some junk => (Raise "OSError", set_file w dst (Junk junk))
      | None => (Ok tt, set_fs w (delete src (<[dst := c]> (fs w))))
      end
  end.

(** [if os.path.exists(path): os.remove(path)] inside [try] with
    [except: pass]: where the file cannot be removed, as a file that is
    still open on Windows, it stays and nothing is reported. *)
Definition remove_if_exists (removable : string -> bool) (w : world)
    (path : string) : world :=
  if removable path then set_fs w (delete path (fs w)) else w.

(** The dialog that ends a save. *)
Inductive outcome :=
| NoFile
| Unsupported (file_ext : string)
| Saved
| Failed (exc : string).

(** [value = field_info['var'].get().strip()], kept [if value]. *)
Definition entered (value : string) : option string :=
  let value := strip value in
  if String.eqb value "" then None else Some value.

(** The record that [save_simple_metadata] collects from the form: one
    entry for each field whose text is not blank. *)
Definition collect_simple (simple_fields : gmap string string)
  : gmap string string :=
  omap entered simple_fields.

Definition simple_temp_path (temp_dir original_file_path : string) : string :=
  path_join temp_dir ("simple_temp_" +:+ PyPath.basename original_file_path).

(** [save_simple_metadata]; [temp_dir] is [tempfile.gettempdir()].  An
    exception ends in the error dialog and the temporary copy stays. *)
Definition save_simple_metadata (e : env) (temp_dir : string) (w : world)
    (simple_file_path : string) (simple_fields : gmap string string)
  : outcome * world :=
  if String.eqb simple_file_path "" then (NoFile, w)
  else
    let original_file_path := simple_file_path in
    let file_ext := lower (PyPath.suffix original_file_path) in
    let temp_file_path := simple_temp_path temp_dir original_file_path in
    match copy2 e w original_file_path temp_file_path with
    | (Raise exc, w) => (Failed exc, w)
    | (Ok _, w) =>
        match image_open w temp_file_path with
        | Raise exc => (Failed exc, w)
        | Ok image =>
            let metadata_dict := collect_simple simple_fields in
            let written :=
              if String.eqb file_ext ".jpg" || String.eqb file_ext ".jpeg"
              then Some (save_simple_jpeg_metadata e w image temp_file_path
                           metadata_dict)
              else if String.eqb file_ext ".webp"
              then Some (save_simple_webp_metadata e w temp_file_path
                           metadata_dict)
              else None in
            match written with
            | None => (Unsupported file_ext, w)
            | Some (Raise exc, w) => (Failed exc, w)
            | Some (Ok _, w) =>
                match move e w temp_file_path original_file_path with
                | (Raise exc, w) => (Failed exc, w)
                | (Ok _, w) => (Saved, w)
                end
            end
        end
    end.

Definition essential_fields : list string :=
  ["XPTitle"; "ImageDescription"; "XPKeywords"; "Artist"; "Make"; "Model"].

(** The loop of [save_metadata] over [essential_fields]. *)
Definition collect_essential (metadata_fields : gmap string string)
  : gmap string string :=
  foldl (fun metadata_dict field_name =>
           match metadata_fields !! field_name with
           | Some value =>
               match entered value with
               | Some value => <[field_name := value]> metadata_dict
               | None => metadata_dict
               end
           | None => metadata_dict
           end)
        ∅ essential_fields.

Definition main_temp_path (temp_dir original_file_path : string) : string :=
  path_join temp_dir ("temp_metadata_" +:+ PyPath.basename original_file_path).

(** [save_metadata] of the main tab.  [config] is what
    [get_metadata_config] gives for the file, which the function only
    prints and which raises [KeyError] when the format override names no
    configuration.  The two JPEG writers and the two WebP writers of the
    class have the same body.  An exception leads to an attempt to
    remove the temporary copy, then to the error dialog; [removable]
    tells of a path whether [os.remove] goes through. *)
Definition save_metadata (e : env) (temp_dir : string) (config : result unit)
    (removable : string -> bool)
    (w : world) (metadata_image_path : string)
    (metadata_fields : gmap string string) : outcome * world :=
  if String.eqb metadata_image_path "" then (NoFile, w)
  else
    let original_file_path := metadata_image_path in
    let file_ext := lower (PyPath.suffix original_file_path) in
    let temp_file_path := main_temp_path temp_dir original_file_path in
    let failed exc w :=
      (Failed exc, remove_if_exists removable w temp_file_path) in
    match copy2 e w original_file_path temp_file_path with
    | (Raise exc, w) => failed exc w
    | (Ok _, w) =>
        match image_open w temp_file_path with
        | Raise exc => failed exc w
        | Ok image =>
            match config with
            | Raise exc => failed exc w
            | Ok _ =>
                let metadata_dict := collect_essential metadata_fields in
                let written :=
                  if String.eqb file_ext ".jpg" || String.eqb file_ext ".jpeg"
                  then Some (save_simple_jpeg_metadata e w image temp_file_path
                               metadata_dict)
                  else if String.eqb file_ext ".webp"
                  then Some (save_simple_webp_metadata e w temp_file_path
                               metadata_dict)
                  else None in
                match written with
                | None => (Unsupported file_ext, w)
                | Some (Raise exc, w) => failed exc w
                | Some (Ok _, w) =>
                    match move e w temp_file_path original_file_path with
                    | (Raise exc, w) => failed exc w
                    | (Ok _, w) => (Saved, w)
                    end
                end
            end
        end
    end.

Definition is_jpeg (path : string) : bool :=
  let file_ext := lower (PyPath.suffix path) in
  String.eqb file_ext ".jpg" || String.eqb file_ext ".jpeg".

End Interactive.

(** ** Further surroundings for the examples *)

Module Samples.
Import PyStr Codec Store.

(** A machine whose temporary folder is full: a write below [/tmp]
    leaves an empty file, every other write goes through. *)
Definition tmp_full_env : env :=
  {| write_fault := fun p => if startswith "/tmp/" p then Some [] else None;
     reencode := fun i => i;
     piexif_load_empty := Raise "FileNotFoundError";
     piexif_dump_ok := fun _ => true;
     run := Fixtures.exiftool_run |}.

(** A vision model that gives the same reply for every image. *)
Definition answering (reply : string) : Batch.services :=
  {| Batch.store := Fixtures.quiet_env;
     Batch.image_data_of := fun _ => "aW1hZ2U=";
     Batch.vision_api := fun _ _ => Some reply;
     Batch.tk_after := fun _ => Ok tt;
     Batch.tk_reset := Ok tt |}.


(** An instance whose chat tab last showed a product image, while the
    batch list holds other files. *)
Definition chat_app : Batch.app :=
  {| Batch.batch_folder := Some "/in";
     Batch.ai_enabled := true;
     Batch.chat_messages :=
       [{| Batch.sender := "user";
           Batch.message := "Always use the product code as Make" |}];
     Batch.image_files := ["/in/photo.jpg"];
     Batch.ai_processing := false;
     Batch.current_filename_data :=
       Some (Context.parse_filename_data
               "F032_ST78_Grey_Cascia_Granite_room_images_000.jpg");
     Batch.attrs := {[ "vision_model" := "qwen" ]} |}.

(** The form of the simple tab after the user typed a title and left
    the keywords blank. *)
Definition form : gmap string string :=
  {[ "XPTitle" := " Oak kitchen "; "XPKeywords" := "  "; "Make" := "F032" ]}.

End Samples.

(** ** Loading the images of a folder *)

Module Folder.
Import PyStr Store.

(** [str.upper] on one character of an extension. *)
Definition upper_char (c : ascii) : ascii :=
  let n := N_of_ascii c in
  if ((97 <=? n) && (n <=? 122))%N then ascii_of_N (n - 32) else c.

Fixpoint upper (s : string) : string :=
  match s with
  | "" => ""
  | String c s' => String (upper_char c) (upper s')
  end.

Definition image_extensions : list string :=
  [".png"; ".jpg"; ".jpeg"; ".bmp"; ".tiff"; ".webp"; ".avif"].

(** The loop over the extensions; [glob pattern] is the list of
    [str(f)] for [f] in [Path(folder_path).glob(pattern)].  The source
    keeps the extensions in a set: the order of the visits is not fixed,
    and the sorted list of distinct paths does not depend on it. *)
Fixpoint glob_extensions (glob : string -> result (list string))
    (extensions : list string) : result (list string) :=
  match extensions with
  | [] => Ok []
  | ext :: rest =>
      match glob ("*" +:+ ext) with
      | Raise exc => Raise exc
      | Ok lower_case =>
          match glob ("*" +:+ upper ext) with
          | Raise exc => Raise exc
          | Ok upper_case =>
              match glob_extensions glob rest with
              | Raise exc => Raise exc
              | Ok others => Ok (lower_case ++ upper_case ++ others)
              end
          end
      end
  end.

(** [_load_images_from_folder(folder_path)] *)
Definition _load_images_from_folder
    (glob : string -> string -> result (list string)) (w : world)
    (folder_path : string) : list string * world :=
  match glob_extensions (glob folder_path) image_extensions with
  | Ok image_files =>
      let image_files := Router.sorted_unique image_files in
      (image_files,
       log_message w ("Loaded " +:+ str_of_nat (length image_files)
                      +:+ " unique images from folder"))
  | Raise exc =>
      ([], log_message w ("Error loading images from folder: " +:+ exc))
  end.

(** A list in the order of [list.sort]. *)
Fixpoint ascending (l : list string) : bool :=
  match l with
  | a :: (b :: _) as rest => String.leb a b && ascending rest
  | _ => true
  end.

End Folder.

(** ** Moving through the images of the chat folder *)

Module Navigation.
Import PyStr Router.

Section Buttons.
Variable fl : float_ops.

Definition set_index (ts : tool_state fl) (i : nat) : tool_state fl :=
  Build_tool_state fl (chat_folder_images ts) (chat_folder_path_str ts) i
    (getsize_kb ts).

(** [select_chat_folder] once a folder is chosen; [loaded] is what
    [_load_images_from_folder] returns for it. *)
Definition select_chat_folder (ts : tool_state fl) (folder : string)
    (loaded : list string) : tool_state fl :=
  Build_tool_state fl loaded folder 0 (getsize_kb ts).

Definition previous_chat_image (ts : tool_state fl) : tool_state fl :=
  match chat_folder_images ts with
  | [] => ts
  | _ :: _ =>
      if 0 <? chat_current_image_index ts
      then set_index ts (chat_current_image_index ts - 1)
      else ts
  end.

Definition next_chat_image (ts : tool_state fl) : tool_state fl :=
  match chat_folder_images ts with
  | [] => ts
  | _ :: _ =>
      if chat_current_image_index ts <? length (chat_folder_images ts) - 1
      then set_index ts (chat_current_image_index ts + 1)
      else ts
  end.

(** The text of the counter label. *)
Definition update_chat_image_counter (ts : tool_state fl) : string :=
  match chat_folder_images ts with
  | [] => ""
  | _ :: _ =>
      "Image " +:+ str_of_nat (chat_current_image_index ts + 1) +:+ " of "
      +:+ str_of_nat (length (chat_folder_images ts))
  end.

Inductive button := Previous | Next.

Definition press (ts : tool_state fl) (b : button) : tool_state fl :=
  match b with
  | Previous => previous_chat_image ts
  | Next => next_chat_image ts
  end.

End Buttons.

End Navigation.

(** ** Target size of a compressed image *)

Module Resize.

(** The float arithmetic of [calculate_new_size], kept abstract:
    [width / height], [int(n / ratio)] and [int(n * ratio)]; the last
    two may raise. *)
Record ratio_ops := {
  ratio : Type;
  divide : Z -> Z -> ratio;
  int_quotient : Z -> ratio -> result Z;
  int_product : Z -> ratio -> result Z
}.

Definition scaled (r : result Z) (pair : Z -> Z * Z) : result (Z * Z) :=
  match r with
  | Ok n => Ok (pair n)
  | Raise exc => Raise exc
  end.

(** [calculate_new_size(width, height)]; a limit of [0] is not set. *)
Definition calculate_new_size (ops : ratio_ops) (max_width max_height : Z)
    (width height : Z) : result (Z * Z) :=
  if (max_width =? 0)%Z && (max_height =? 0)%Z then Ok (width, height)
  else if (height =? 0)%Z then Raise "ZeroDivisionError"
  else
    let ratio := divide ops width height in
    if negb (max_width =? 0)%Z && negb (max_height =? 0)%Z then
      match (if (max_width <? width)%Z
             then scaled (int_quotient ops max_width ratio)
                         (fun new_height => (max_width, new_height))
             else Ok (width, height)) with
      | Raise exc => Raise exc
      | Ok (new_width, new_height) =>
          if (max_height <? new_height)%Z
          then scaled (int_product ops max_height ratio)
                      (fun new_width => (new_width, max_height))
          else Ok (new_width, new_height)
      end
    else if negb (max_width =? 0)%Z && (max_width <? width)%Z then
      scaled (int_quotient ops max_width ratio)
             (fun new_height => (max_width, new_height))
    else if negb (max_height =? 0)%Z && (max_height <? height)%Z then
      scaled (int_product ops max_height ratio)
             (fun new_width => (new_width, max_height))
    else Ok (width, height).

End Resize.

(** ** Surroundings for the examples of the folder tools *)

Module Shelf.
Import PyStr Store.

(** A folder listing in which [*.jpg] and [*.JPG] match the same two
    files, as on a file system that ignores case. *)
Definition folded_glob (folder_path pattern : string)
  : result (list string) :=
  if String.eqb pattern "*.jpg" || String.eqb pattern "*.JPG"
  then Ok [folder_path +:+ "/b.jpg"; folder_path +:+ "/a.jpg"]
  else Ok [].

(** Rational arithmetic in place of the floats. *)
Definition exact : Resize.ratio_ops :=
  {| Resize.ratio := Z * Z;
     Resize.divide := fun w h => (w, h);
     Resize.int_quotient := fun n r =>
       if (r.1 =? 0)%Z then Raise "ZeroDivisionError"
       else Ok (Z.quot (n * r.2) r.1);
     Resize.int_product := fun n r => Ok (Z.quot (n * r.1) r.2) |}.

End Shelf.

(** ** The batch thread on a log that can fail *)

Module Worker.
Import PyStr Store Batch.

(** [self.log_message(message)] called from the worker thread.  The call
    writes to a widget of the main window and can raise there;
    [faults message] is the exception, if any, and nothing is written
    then. *)
Definition log_message (faults : string -> option string) (w : world)
    (message : string) : result unit * world :=
  match faults message with
  | Some exc => (Raise exc, w)
  | None => (Ok tt, Store.log_message w message)
  end.

(** [except Exception as e: self.log_message(prefix + str(e)); return
    False]: an exception of the message leaves the function. *)
Definition handler (faults : string -> option string) (prefix exc : string)
    (w : world) : result bool * world :=
  match log_message faults w (prefix +:+ exc) with
  | (Ok _, w) => (Ok false, w)
  | (Raise exc', w) => (Raise exc', w)
  end.

(** [_save_jpeg_metadata_direct] with the log of the thread. *)
Definition _save_jpeg_metadata_direct (faults : string -> option string)
    (e : env) (w : world) (image_path : string)
    (metadata_dict : gmap string string) : result bool * world :=
  let failed := handler faults "Error saving JPEG metadata: " in
  match image_open w image_path with
  | Raise exc => failed exc w
  | Ok image =>
      match (match exif image with
             | Some d => Ok d
             | None => piexif_load_empty e
             end) with
      | Raise exc => failed exc w
      | Ok ifd =>
          let exif_dict := direct_exif metadata_dict ifd in
          if piexif_dump_ok e exif_dict then
            match image_save e w image_path image exif_dict with
            | (Raise exc, w') => failed exc w'
            | (Ok _, w') => (Ok true, w')
            end
          else failed "ValueError" w
      end
  end.

(** [_save_webp_metadata_direct] with the log of the thread: the
    message about the return code is written inside the [try] block. *)
Definition _save_webp_metadata_direct (faults : string -> option string)
    (e : env) (attrs : gmap string string) (w : world)
    (image_path : string) (metadata_dict : gmap string string)
  : result bool * world :=
  let failed := handler faults "Error saving WebP metadata: " in
  match getattr attrs "exiftool_path" with
  | Raise exc => failed exc w
  | Ok exiftool_path =>
      let cmd := direct_cmd exiftool_path image_path metadata_dict in
      match run e cmd (fs w) with
      | (Raise exc, f') => failed exc (set_fs w f')
      | (Ok returncode, f') =>
          if (returncode =? 0)%Z then (Ok true, set_fs w f')
          else
            match log_message faults (set_fs w f') "ExifTool error" with
            | (Ok _, w') => (Ok false, w')
            | (Raise exc, w') => failed exc w'
            end
      end
  end.

(** [_save_metadata_to_file] with the log of the thread: what the two
    writers let through reaches its own [except] clause. *)
Definition _save_metadata_to_file (faults : string -> option string)
    (e : env) (attrs : gmap string string) (w : world)
    (image_path : string) (metadata_dict : gmap string string)
  : result bool * world :=
  let file_ext := PyStr.lower (PyPath.suffix image_path) in
  let failed :=
    handler faults ("Error saving metadata to " +:+ image_path +:+ ": ") in
  let guarded (r : result bool * world) :=
    match r with
    | (Raise exc, w') => failed exc w'
    | (Ok b, w') => (Ok b, w')
    end in
  if String.eqb file_ext ".jpg" || String.eqb file_ext ".jpeg" then
    guarded (_save_jpeg_metadata_direct faults e w image_path metadata_dict)
  else if String.eqb file_ext ".webp" then
    guarded (_save_webp_metadata_direct faults e attrs w image_path
               metadata_dict)
  else
    match log_message faults w ("Unsupported file type: " +:+ file_ext) with
    | (Ok _, w') => (Ok false, w')
    | (Raise exc, w') => failed exc w'
    end.

(** [_process_single_image_ai] with the log of the thread. *)
Definition _process_single_image_ai (faults : string -> option string)
    (sv : services) (self : app) (w : world) (image_path : string)
    (rules : list rule) : result bool * world :=
  let filename := PyPath.name image_path in
  let filename_data := Context.parse_filename_data filename in
  let context := build_context filename filename_data rules in
  let failed :=
    handler faults ("Error processing " +:+ image_path +:+ ": ") in
  match read_image_data sv w image_path with
  | Raise exc => failed exc w
  | Ok image_data =>
      match vision_api sv image_data context with
      | Some response =>
          if String.eqb response "" then (Ok false, w)
          else
            let metadata_dict :=
              Parser._parse_ai_response_for_metadata
                (current_filename_data self) response in
            if decide (metadata_dict = ∅) then (Ok false, w)
            else
              match _save_metadata_to_file faults (store sv) (attrs self) w
                      image_path metadata_dict with
              | (Raise exc, w') => failed exc w'
              | (Ok b, w') => (Ok b, w')
              end
      | None => (Ok false, w)
      end
  end.

Definition count_success (c : counters) : counters :=
  {| processed := processed c; successful := S (successful c);
     failed := failed c |}.

Definition count_failure (c : counters) : counters :=
  {| processed := processed c; successful := successful c;
     failed := S (failed c) |}.

Definition count_processed (c : counters) : counters :=
  {| processed := S (processed c); successful := successful c;
     failed := failed c |}.

(** The [except] clause of the loop body: [failed += 1], then the
    message; an exception of the message leaves the loop. *)
Definition image_handler (faults : string -> option string)
    (image_path exc : string) (c : counters) (w : world)
  : option string * counters * world :=
  let c := count_failure c in
  match log_message faults w
          ("Error processing " +:+ PyPath.basename image_path
           +:+ ": " +:+ exc) with
  | (Ok _, w) => (None, c, w)
  | (Raise exc', w) => (Some exc', c, w)
  end.

(** The body of the loop for the image at index [i]: the counters and
    the world after it, and the exception that leaves the loop, if
    any. *)
Definition loop_body (faults : string -> option string) (sv : services)
    (self : app) (rules : list rule) (i : nat) (image_path : string)
    (c : counters) (w : world) : option string * counters * world :=
  match tk_after sv i with
  | Raise exc => image_handler faults image_path exc c w
  | Ok _ =>
      match _process_single_image_ai faults sv self w image_path rules with
      | (Raise exc, w) => image_handler faults image_path exc c w
      | (Ok success, w) =>
          let c := if success then count_success c else count_failure c in
          match log_message faults w
                  ((if success then "Processed: " else "Failed: ")
                   +:+ PyPath.basename image_path) with
          | (Raise exc, w) => image_handler faults image_path exc c w
          | (Ok _, w) => (None, count_processed c, w)
          end
      end
  end.

(** [for i, image_path in enumerate(self.image_files)] *)
Fixpoint batch_loop (faults : string -> option string) (sv : services)
    (self : app) (rules : list rule) (i : nat) (images : list string)
    (c : counters) (w : world) : option string * counters * world :=
  match images with
  | [] => (None, c, w)
  | image_path :: rest =>
      match loop_body faults sv self rules i image_path c w with
      | (Some exc, c, w) => (Some exc, c, w)
      | (None, c, w) => batch_loop faults sv self rules (S i) rest c w
      end
  end.

(** How a run of the thread ends: the instance, the counters as they
    stand (zero when the run ends before they are set), the exception
    that reached the outer [except] clause, the exception that left the
    function, and the world. *)
Record thread_end := {
  self_after : app;
  counts : counters;
  interrupted : option string;
  escaped : option string;
  world_after : world
}.

(** The outer [except] clause, then [finally]. *)
Definition outer_handler (faults : string -> option string) (self : app)
    (c : counters) (exc : string) (w : world) : thread_end :=
  match log_message faults w ("Batch processing error: " +:+ exc) with
  | (Ok _, w) =>
      {| self_after := set_ai_processing false self; counts := c;
         interrupted := Some exc; escaped := None; world_after := w |}
  | (Raise exc', w) =>
      {| self_after := set_ai_processing false self; counts := c;
         interrupted := Some exc; escaped := Some exc'; world_after := w |}
  end.

Definition _process_batch_ai_thread (faults : string -> option string)
    (sv : services) (self : app) (w : world) : thread_end :=
  let zero := {| processed := 0; successful := 0; failed := 0 |} in
  match log_message faults w "Starting batch AI processing..." with
  | (Raise exc, w) => outer_handler faults self zero exc w
  | (Ok _, w) =>
      let self := set_ai_processing true self in
      let rules := _extract_chat_rules self in
      match log_message faults w
              ("Extracted " +:+ str_of_nat (length rules)
               +:+ " rules from chat") with
      | (Raise exc, w) => outer_handler faults self zero exc w
      | (Ok _, w) =>
          let total_images := length (image_files self) in
          match batch_loop faults sv self rules 0 (image_files self)
                  zero w with
          | (Some exc, c, w) => outer_handler faults self c exc w
          | (None, c, w) =>
              match log_message faults w "Batch processing complete!" with
              | (Raise exc, w) => outer_handler faults self c exc w
              | (Ok _, w) =>
                  match log_message faults w (summary c total_images) with
                  | (Raise exc, w) => outer_handler faults self c exc w
                  | (Ok _, w) =>
                      match tk_reset sv with
                      | Raise exc => outer_handler faults self c exc w
                      | Ok _ =>
                          {| self_after := set_ai_processing false self;
                             counts := c; interrupted := None;
                             escaped := None; world_after := w |}
                      end
                  end
              end
          end
      end
  end.

End Worker.

(** ** The reader of the simple tab with the fields of [image.info] *)

Module Reader.
Import Codec Store Simple.

(** One iteration of [for key, value in image.info.items()]: a key that
    is no field yet gives the field [INFO_<key>]. *)
Definition add_info (all_fields : gmap string pytext)
    (item : string * pytext) : gmap string pytext :=
  match all_fields !! item.1 with
  | Some _ => all_fields
  | None => <["INFO_" +:+ item.1 := item.2]> all_fields
  end.

(** [load_simple_metadata] with all the fields it creates;
    [image_info image] is [image.info.items()], each value as the text
    that the loop stores. *)
Definition load_simple_metadata
    (image_info : image_file -> list (string * pytext)) (w : world)
    (path : string) : result (gmap string pytext) :=
  match image_open w path with
  | Raise exc => Raise exc
  | Ok image =>
      Ok (foldl add_info
                (map_fold read_tag empty_fields (getexif image))
                (image_info image))
  end.

End Reader.

(** ** The start of a compression run *)

Module Compressor.

Record settings := {
  input_dir : string;
  single_file : string;
  output_dir : string;
  is_processing : bool
}.

Inductive start :=
| Refused (text : string)
| Started.

(** [start_compression], up to the launch of the thread. *)
Definition start_compression (self : settings) : start :=
  if String.eqb (input_dir self) "" && String.eqb (single_file self) ""
  then Refused "Please select an input directory or single file"
  else if String.eqb (output_dir self) ""
  then Refused "Please select an output directory"
  else if is_processing self
  then Refused "Compression is already in progress"
  else Started.

End Compressor.

(** ** Surroundings for the examples of the worker thread and the reader *)

Module Cases.
Import PyStr Codec Store.




(** What [image.info] holds for a JPEG file. *)
Definition jfif_info (image : image_file) : list (string * pytext) :=
  [("jfif", codepoints "257"); ("dpi", codepoints "(72, 72)")].

(** A compression run in progress with both folders chosen. *)
Definition compressing : Compressor.settings :=
  {| Compressor.input_dir := "/in"; Compressor.single_file := "";
     Compressor.output_dir := "/out"; Compressor.is_processing := true |}.

End Cases.

(** * Properties *)

(** C8. For every filename, with [parts] the underscore-separated tokens
    of its stem: when there are at least six tokens, code, type, color,
    name and category are the tokens at positions 0 to 4; otherwise all
    five are empty. The filename of the specification yields F032, ST78,
    Grey, Cascia, Granite. *)
Theorem parse_filename_data_positions :
  (forall fname : string,
      let parts := PyStr.split_char "_" (PyPath.stem fname) in
      let d := Context.parse_filename_data fname in
      if 6 <=? length parts
      then Context.code d = nth 0 parts "" /\ Context.type d = nth 1 parts "" /\
           Context.color d = nth 2 parts "" /\ Context.name d = nth 3 parts "" /\
           Context.category d = nth 4 parts ""
      else Context.code d = "" /\ Context.type d = "" /\ Context.color d = "" /\
           Context.name d = "" /\ Context.category d = "") /\
  (let d := Context.parse_filename_data
              "F032_ST78_Grey_Cascia_Granite_room_images_000.jpg" in
   Context.code d = "F032" /\ Context.type d = "ST78" /\ Context.color d = "Grey" /\
   Context.name d = "Cascia" /\ Context.category d = "Granite") /\
  (let d := Context.parse_filename_data "F032_ST78_Grey_Cascia_Granite.jpg" in
   Context.code d = "" /\ Context.type d = "" /\ Context.color d = "" /\
   Context.name d = "" /\ Context.category d = "").
Proof.
  split; [|split].
  - intros fname parts d. subst d. unfold Context.parse_filename_data.
    fold parts. destruct (6 <=? length parts); simpl; auto.
  - vm_compute. auto.
  - vm_compute. auto.
Qed.

(** ** The embedded-tag codec *)

Section JpegCodec.
Import Codec Store Simple.

Lemma field_mapping_inj f1 f2 tag enc1 enc2 :
  field_mapping f1 = Some (tag, enc1) ->
  field_mapping f2 = Some (tag, enc2) -> f1 = f2.
Proof.
  unfold field_mapping; intros H1 H2.
  repeat match type of H1 with
         | context [String.eqb ?a ?b] =>
             destruct (String.eqb_spec a b); [subst|]
         end; simplify_eq;
  repeat match type of H2 with
         | context [String.eqb ?a ?b] =>
             destruct (String.eqb_spec a b); [subst|]
         end; simplify_eq; reflexivity.
Qed.

(** The loop of [save_simple_jpeg_metadata] in closed form. *)
Lemma add_fields_lookup (md : gmap string string) (ifd : gmap N bytes)
    field tag enc :
  field_mapping field = Some (tag, enc) ->
  map_fold add_field ifd md !! tag =
    match md !! field with
    | Some v => Some (encode_value enc v)
    | None => ifd !! tag
    end.
Proof.
  intros Hf. revert field tag enc Hf.
  apply (map_fold_weak_ind
           (fun r (m : gmap string string) =>
              forall field tag enc, field_mapping field = Some (tag, enc) ->
                r !! tag = match m !! field with
                           | Some v => Some (encode_value enc v)
                           | None => ifd !! tag
                           end)).
  - intros field tag enc _. by rewrite lookup_empty.
  - intros i x m r Hi IH field tag enc Hf.
    unfold add_field. destruct (decide (i = field)) as [->|Hne].
    + rewrite Hf, !lookup_insert_eq. reflexivity.
    + rewrite (lookup_insert_ne m) by done.
      destruct (field_mapping i) as [[tag' enc']|] eqn:Hi'; [|by apply IH].
      destruct (decide (tag' = tag)) as [->|Ht].
      * exfalso. apply Hne. eapply field_mapping_inj; eauto.
      * rewrite lookup_insert_ne by done. by apply IH.
Qed.

Lemma TAGS_inj t1 t2 name :
  TAGS t1 = Some name -> TAGS t2 = Some name -> t1 = t2.
Proof.
  unfold TAGS; intros H1 H2.
  repeat match type of H1 with
         | context [N.eqb ?a ?b] => destruct (N.eqb_spec a b); [subst|]
         end; simplify_eq;
  repeat match type of H2 with
         | context [N.eqb ?a ?b] => destruct (N.eqb_spec a b); [subst|]
         end; simplify_eq; reflexivity.
Qed.

(** The loop of [load_simple_metadata] in closed form. *)
Lemma read_tags_lookup (x : gmap N exif_value) (init : gmap string pytext)
    tag name :
  TAGS tag = Some name ->
  map_fold read_tag init x !! name =
    match x !! tag with
    | Some d => Some (decode_data tag d)
    | None => init !! name
    end.
Proof.
  intros Ht. revert tag name Ht.
  apply (map_fold_weak_ind
           (fun r (m : gmap N exif_value) =>
              forall tag name, TAGS tag = Some name ->
                r !! name = match m !! tag with
                            | Some d => Some (decode_data tag d)
                            | None => init !! name
                            end)).
  - intros tag name _. by rewrite lookup_empty.
  - intros i d m r Hi IH tag name Ht.
    unfold read_tag. destruct (decide (i = tag)) as [->|Hne].
    + rewrite Ht, !lookup_insert_eq. reflexivity.
    + rewrite (lookup_insert_ne m) by done.
      destruct (TAGS i) as [name'|] eqn:Hi'; [|by apply IH].
      destruct (decide (name' = name)) as [->|Hn].
      * exfalso. apply Hne. eapply TAGS_inj; eauto.
      * rewrite lookup_insert_ne by done. by apply IH.
Qed.

Lemma utf8_encode_ascii s :
  ascii_text s -> utf8_encode s = codepoints s.
Proof.
  unfold ascii_text, utf8_encode, codepoints.
  induction (list_ascii_of_string s) as [|c l IH]; intros H; [done|].
  inversion H as [|? ? Hc Hl]; subst. simpl. unfold utf8_char.
  apply N.ltb_lt in Hc. rewrite Hc. simpl. f_equal. by apply IH.
Qed.

Lemma latin1_decode_codepoints s : latin1_decode (codepoints s) = s.
Proof.
  unfold latin1_decode, codepoints.
  rewrite map_map.
  rewrite (map_ext _ (fun c => c)) by (intros c; apply ascii_N_embedding).
  rewrite map_id. apply string_of_list_ascii_of_string.
Qed.

Lemma utf16le_decode_encode_ascii s :
  ascii_text s -> utf16le_decode_ignore (utf16le_encode s) = codepoints s.
Proof.
  unfold ascii_text, utf16le_decode_ignore, utf16le_encode, codepoints.
  induction (list_ascii_of_string s) as [|c l IH]; intros H; [done|].
  inversion H as [|? ? Hc Hl]; subst.
  cbn [map flat_map utf16le_char app utf16le_units].
  rewrite N.mod_small, N.div_small by lia.
  rewrite N.mul_0_r, N.add_0_r. cbn [utf16_combine].
  assert (is_high_surrogate (N_of_ascii c) = false) as ->.
  { unfold is_high_surrogate. apply andb_false_iff. left.
    apply N.leb_gt. lia. }
  assert (is_low_surrogate (N_of_ascii c) = false) as ->.
  { unfold is_low_surrogate. apply andb_false_iff. left.
    apply N.leb_gt. lia. }
  f_equal. by apply IH.
Qed.

Lemma utf16le_encode_no_bom_ascii s :
  ascii_text s -> starts_with_bom (utf16le_encode s) = false.
Proof.
  unfold ascii_text, utf16le_encode, codepoints.
  destruct (list_ascii_of_string s) as [|c l]; intros H; [done|].
  inversion H as [|? ? Hc Hl]; subst.
  cbn [map flat_map utf16le_char app]. rewrite N.mod_small by lia.
  unfold starts_with_bom.
  destruct (N_of_ascii c) as [|p] eqn:E; [done|].
  repeat (destruct p as [p|p|]; try done); lia.
Qed.

(** Writing then reading one value of an ASCII text. *)
Lemma decode_encode_value_ascii field tag enc v :
  field_mapping field = Some (tag, enc) -> ascii_text v ->
  decode_data tag (pil_value tag (encode_value enc v)) = codepoints v.
Proof.
  intros Hf Hv. unfold field_mapping in Hf.
  repeat match type of Hf with
         | context [String.eqb ?a ?b] =>
             destruct (String.eqb_spec a b); [subst|]
         end; simplify_eq;
    unfold pil_value, encode_value; cbn [ascii_typed N.eqb orb Pos.eqb decode_data].
  all: try (rewrite utf16le_encode_no_bom_ascii by done;
            cbn [BOM app starts_with_bom drop];
            by apply utf16le_decode_encode_ascii).
  all: rewrite utf8_encode_ascii by done;
       by rewrite latin1_decode_codepoints.
Qed.

End JpegCodec.

Section JpegRoundTrip.
Import Codec Store Simple.

Lemma empty_fields_lookup name :
  name ∈ simple_standard_fields -> empty_fields !! name = Some [].
Proof.
  unfold simple_standard_fields. rewrite !elem_of_cons, elem_of_nil.
  intros H; repeat destruct H as [->|H]; done.
Qed.

Lemma standard_field_tag name :
  name ∈ simple_standard_fields ->
  exists tag enc, field_mapping name = Some (tag, enc) /\ TAGS tag = Some name.
Proof.
  unfold simple_standard_fields. rewrite !elem_of_cons, elem_of_nil.
  intros H; repeat destruct H as [->|H]; try done; eauto.
Qed.

(** C3 (as amended, embedded tags). A record of ASCII texts written by
    [save_simple_jpeg_metadata] and read again by [load_simple_metadata]
    from the same path comes back unchanged: whenever the write reports
    success, the read succeeds and each of the six fields present in the
    record holds the text that was written. *)
Theorem jpeg_persist_read_roundtrip
    (e : env) (w w' : world) (image : image_file) (file_path : string)
    (metadata_dict : gmap string string) :
  (forall k v, metadata_dict !! k = Some v -> ascii_text v) ->
  save_simple_jpeg_metadata e w image file_path metadata_dict = (Ok tt, w') ->
  exists all_fields,
    load_simple_metadata w' file_path = Ok all_fields /\
    forall k v, k ∈ simple_standard_fields ->
      metadata_dict !! k = Some v -> all_fields !! k = Some (codepoints v).
Proof.
  intros Hascii Hsave.
  unfold save_simple_jpeg_metadata, image_save in Hsave.
  destruct (piexif_dump_ok e _); [|done].
  destruct (write_fault e file_path); [done|].
  injection Hsave as <-.
  unfold load_simple_metadata, image_open, set_file; cbn [fs].
  rewrite lookup_insert_eq. eexists; split; [reflexivity|].
  intros k v Hk Hv.
  destruct (standard_field_tag k Hk) as (tag & enc & Hf & Ht).
  rewrite (read_tags_lookup _ _ tag k Ht).
  unfold getexif; cbn [exif]. rewrite map_lookup_imap.
  rewrite (add_fields_lookup _ _ k tag enc Hf), Hv. cbn.
  f_equal. eapply decode_encode_value_ascii; eauto.
Qed.

End JpegRoundTrip.

(** ** The batch persistence functions *)

Section BatchPersistence.
Import Codec Store.

(** No Latin-1 text encodes to bytes that start with the byte-order
    mark: the second byte of the first unit is zero. *)
Lemma utf16le_encode_no_bom (s : string) :
  starts_with_bom (utf16le_encode s) = false.
Proof.
  unfold utf16le_encode, codepoints.
  destruct (list_ascii_of_string s) as [|c l]; [done|].
  cbn [map flat_map utf16le_char app].
  assert (N_of_ascii c < 256)%N as Hc by apply N_ascii_bounded.
  rewrite N.mod_small, N.div_small by lia.
  unfold starts_with_bom.
  destruct (N_of_ascii c) as [|p]; [done|].
  repeat (destruct p as [p|p|]; try done).
Qed.

Lemma direct_exif_title (md : gmap string string) (ifd : gmap N bytes) v :
  md !! "XPTitle" = Some v ->
  direct_exif md ifd !! XPTitle = Some (utf16le_encode v).
Proof.
  intros Hv. unfold direct_exif, set_if_present. rewrite Hv.
  repeat match goal with
         | |- context [md !! ?k] => destruct (md !! k)
         end;
    repeat (rewrite lookup_insert_ne by done); by rewrite lookup_insert_eq.
Qed.

Lemma direct_exif_keywords (md : gmap string string) (ifd : gmap N bytes) v :
  md !! "XPKeywords" = Some v ->
  direct_exif md ifd !! XPKeywords = Some (utf16le_encode v).
Proof.
  intros Hv. unfold direct_exif, set_if_present. rewrite Hv.
  repeat match goal with
         | |- context [md !! ?k] => destruct (md !! k)
         end;
    repeat (rewrite lookup_insert_ne by done); by rewrite lookup_insert_eq.
Qed.

(** The interactive writer puts the mark in front of every UTF-16LE
    value and writes the other four fields as UTF-8, each at its tag. *)
Lemma simple_field_encoding (md : gmap string string) (ifd : gmap N bytes) v :
  (md !! "XPTitle" = Some v ->
   map_fold Simple.add_field ifd md !! 40091%N = Some (BOM ++ utf16le_encode v)) /\
  (md !! "XPKeywords" = Some v ->
   map_fold Simple.add_field ifd md !! 40094%N = Some (BOM ++ utf16le_encode v)) /\
  (md !! "ImageDescription" = Some v ->
   map_fold Simple.add_field ifd md !! 270%N = Some (utf8_encode v)) /\
  (md !! "Artist" = Some v ->
   map_fold Simple.add_field ifd md !! 315%N = Some (utf8_encode v)) /\
  (md !! "Make" = Some v ->
   map_fold Simple.add_field ifd md !! 271%N = Some (utf8_encode v)) /\
  (md !! "Model" = Some v ->
   map_fold Simple.add_field ifd md !! 272%N = Some (utf8_encode v)).
Proof.
  pose proof (add_fields_lookup md ifd "XPTitle" 40091%N Simple.Utf16le eq_refl) as H1.
  pose proof (add_fields_lookup md ifd "XPKeywords" 40094%N Simple.Utf16le eq_refl) as H2.
  pose proof (add_fields_lookup md ifd "ImageDescription" 270%N Simple.Utf8 eq_refl) as H3.
  pose proof (add_fields_lookup md ifd "Artist" 315%N Simple.Utf8 eq_refl) as H4.
  pose proof (add_fields_lookup md ifd "Make" 271%N Simple.Utf8 eq_refl) as H5.
  pose proof (add_fields_lookup md ifd "Model" 272%N Simple.Utf8 eq_refl) as H6.
  split_and!; intros Hv;
    [rewrite H1|rewrite H2|rewrite H3|rewrite H4|rewrite H5|rewrite H6];
    rewrite Hv; cbn [Simple.encode_value];
    rewrite ?utf16le_encode_no_bom; reflexivity.
Qed.

(** The batch JPEG writer touches no path but the image itself: it
    makes no copy and leaves no temporary file. *)
Lemma jpeg_direct_other_paths (e : env) (w : world) (image_path : string)
    (md : gmap string string) :
  delete image_path (fs (_save_jpeg_metadata_direct e w image_path md).2)
  = delete image_path (fs w).
Proof.
  unfold _save_jpeg_metadata_direct, image_save.
  destruct (image_open w image_path) as [image|]; [|done].
  destruct (match exif image with Some d => Ok d | None => _ end); [|done].
  destruct (piexif_dump_ok e _); [|done].
  destruct (write_fault e image_path); cbn; by rewrite delete_insert_eq.
Qed.

(** C1. [_save_jpeg_metadata_direct] writes the image file in place:
    whatever the inputs, every other path is left as it was, so no
    temporary copy exists at any point; and on a disk without room the
    call reports failure after the original, a readable image before the
    call, has been replaced by an empty file. *)
Theorem jpeg_direct_write_is_in_place :
  (forall (e : env) (w : world) (image_path : string)
          (md : gmap string string),
      delete image_path (fs (_save_jpeg_metadata_direct e w image_path md).2)
      = delete image_path (fs w)) /\
  (let r := _save_jpeg_metadata_direct Fixtures.full_disk_env Fixtures.disk
              "/in/photo.jpg" {[ "Artist" := "Me" ]} in
   r.1 = false /\
   fs Fixtures.disk !! "/in/photo.jpg" = Some (Image Fixtures.photo) /\
   fs r.2 !! "/in/photo.jpg" = Some (Junk [])).
Proof.
  split; [apply jpeg_direct_other_paths|]. vm_compute. auto.
Qed.



End BatchPersistence.

(** ** The external-tool codec against the reader *)

Section WebpCodec.
Import Codec Store Simple.

(** The reader looks at the EXIF block of a file and at nothing else. *)
Lemma load_simple_metadata_exif_only (w1 w2 : world) (path : string)
    (i1 i2 : image_file) :
  fs w1 !! path = Some (Image i1) -> fs w2 !! path = Some (Image i2) ->
  exif i1 = exif i2 ->
  load_simple_metadata w1 path = load_simple_metadata w2 path.
Proof.
  intros H1 H2 He. unfold load_simple_metadata, image_open, getexif.
  by rewrite H1, H2, He.
Qed.

Lemma jpeg_persist_read_roundtrip_witness :
  let metadata_dict : gmap string string :=
    {[ "XPTitle" := "Oak"; "Artist" := "Me" ]} in
  exists all_fields,
    load_simple_metadata
      (save_simple_jpeg_metadata Fixtures.quiet_env Fixtures.disk
         Fixtures.photo "/in/photo.jpg" metadata_dict).2 "/in/photo.jpg"
      = Ok all_fields /\
    forall k v, k ∈ simple_standard_fields ->
      metadata_dict !! k = Some v -> all_fields !! k = Some (codepoints v).
Proof.
  intros metadata_dict.
  apply (jpeg_persist_read_roundtrip Fixtures.quiet_env Fixtures.disk _
           Fixtures.photo "/in/photo.jpg" metadata_dict).
  - intros k v Hk. subst metadata_dict.
    apply lookup_insert_Some in Hk as [[_ <-]|[_ Hk]].
    + repeat constructor.
    + apply lookup_singleton_Some in Hk as [_ <-]. repeat constructor.
  - reflexivity.
Defined.

(** C3, the external-tool backend. The title [Oak] written to a WebP
    file by [save_simple_webp_metadata] does not come back: the argument
    handed to the tool is the text between two quote characters, the tool
    stores that among the XMP properties, and [load_simple_metadata],
    which reads the EXIF block, returns the empty title. *)
Lemma webp_persist_read_loses_title :
  let metadata_dict : gmap string string := {[ "XPTitle" := "Oak" ]} in
  let r := save_simple_webp_metadata Fixtures.quiet_env Fixtures.disk
             "/in/picture.webp" metadata_dict in
  r.1 = Ok tt /\
  webp_cmd "exiftool" "/in/picture.webp" metadata_dict
    = ["exiftool"; "-overwrite_original"; "-XMP:Title";
       dquote +:+ "Oak" +:+ dquote; "/in/picture.webp"] /\
  fs r.2 !! "/in/picture.webp"
    = Some (Image {| exif := None;
                     xmp := {[ "-XMP:Title" := dquote +:+ "Oak" +:+ dquote ]};
                     payload := 9 |}) /\
  (exists all_fields,
      load_simple_metadata r.2 "/in/picture.webp" = Ok all_fields /\
      all_fields !! "XPTitle" = Some [] /\
      all_fields !! "XPTitle" <> Some (codepoints "Oak")).
Proof.
  cbv zeta. split_and!.
  - vm_compute. reflexivity.
  - vm_compute. reflexivity.
  - vm_compute. reflexivity.
  - exists empty_fields. split_and!.
    + vm_compute. reflexivity.
    + vm_compute. reflexivity.
    + vm_compute. congruence.
Qed.

End WebpCodec.

(** ** The batch orchestrator *)

Section Orchestrator.
Import Store Batch.



(** Each way in which one image can fail makes its outcome [false]. *)
Lemma single_image_failures (sv : services) (self : app) (w : world)
    (image_path : string) (rules : list rule) :
  let r := _process_single_image_ai sv self w image_path rules in
  (fs w !! image_path = None -> r.1 = false) /\
  ((forall image_data context, vision_api sv image_data context = None) ->
   r.1 = false) /\
  ((forall response,
       Parser._parse_ai_response_for_metadata
         (current_filename_data self) response = ∅) -> r.1 = false) /\
  ((forall md, (_save_metadata_to_file (store sv) (attrs self) w
                  image_path md).1 = false) -> r.1 = false).
Proof.
  unfold _process_single_image_ai, read_image_data. split_and!.
  - by intros ->.
  - intros H. destruct (fs w !! image_path); [|done]. by rewrite H.
  - intros H. destruct (fs w !! image_path); [|done].
    destruct (vision_api sv _ _); [|done].
    destruct (String.eqb _ ""); [done|]. rewrite H. by rewrite decide_True.
  - intros H. destruct (fs w !! image_path); [|done].
    destruct (vision_api sv _ _); [|done].
    destruct (String.eqb _ ""); [done|]. destruct (decide _); [done|]. apply H.
Qed.

Lemma process_one_raised (sv : services) (self : app) (rules : list rule)
    (i : nat) (image_path : string) (w : world) exc :
  tk_after sv i = Raise exc ->
  (process_one sv self rules i image_path w).1 = (false, false).
Proof. unfold process_one. by intros ->. Qed.


End Orchestrator.

(** ** The response parser *)

Section ResponseParser.
Import PyStr Re Parser.

Lemma all_chars_suffix ok c s : all_chars ok (String c s) = true ->
  ok c = true /\ all_chars ok s = true.
Proof. cbn. by intros [? ?]%andb_true_iff. Qed.

(** A pattern with a dead item matches nowhere in a text of allowed
    characters. *)
Lemma match_here_dead ok (pat : list item) :
  Exists (dead ok) pat ->
  forall s, all_chars ok s = true -> match_here pat s = None.
Proof.
  induction pat as [|it rest IH]; intros Hex; [by apply Exists_nil in Hex|].
  apply Exists_cons in Hex as [Hdead|Hex].
  - intros s Hs. destruct it; cbn in Hdead; try done; cbn;
      (destruct s as [|a s']; [done|]);
      apply all_chars_suffix in Hs as [Ha _]; by rewrite (Hdead a Ha).
  - specialize (IH Hex). intros s Hs. destruct it; cbn.
    + destruct s as [|a s']; [done|].
      apply all_chars_suffix in Hs as [_ Hs]. destruct (Ascii.eqb _ _); auto.
    + destruct s as [|a s']; [done|].
      apply all_chars_suffix in Hs as [_ Hs]. destruct (p a); auto.
    + destruct s as [|a s']; [by apply IH|].
      pose proof Hs as Hs0. apply all_chars_suffix in Hs as [_ Hs].
      destruct (p a); rewrite ?(IH s' Hs); by apply IH.
    + induction s as [|a s' IHs]; [by apply IH|].
      pose proof Hs as Hs0. apply all_chars_suffix in Hs as [_ Hs].
      destruct (p a); [rewrite (IHs Hs)|]; by apply IH.
    + generalize ("" : string) as acc.
      induction s as [|a s' IHs]; intros acc; [done|].
      apply all_chars_suffix in Hs as [_ Hs].
      destruct (p a); [|done]. rewrite (IH s' Hs). by apply IHs.
    + generalize ("" : string) as acc.
      induction s as [|a s' IHs]; intros acc; [done|].
      apply all_chars_suffix in Hs as [_ Hs].
      destruct (p a); [|done]. rewrite (IHs Hs), (IH s' Hs). done.
    + destruct s as [|a s']; [by apply IH|].
      pose proof Hs as Hs0. apply all_chars_suffix in Hs as [_ Hs].
      destruct (Ascii.eqb a nl); [|done]. rewrite (IH s' Hs). by apply IH.
Qed.

Lemma search_dead ok (pat : list item) :
  Exists (dead ok) pat ->
  forall s, all_chars ok s = true -> search pat s = None.
Proof.
  intros Hex s. induction s as [|a s' IHs]; intros Hs; cbn.
  - by rewrite (match_here_dead ok pat Hex "" Hs).
  - rewrite (match_here_dead ok pat Hex _ Hs).
    apply all_chars_suffix in Hs as [_ Hs]. by apply IHs.
Qed.

Lemma dead_colon : dead plain_char (Cls (char_is ":"%char)).
Proof.
  intros c. unfold plain_char, char_is.
  destruct (Ascii.eqb c ":"); [done|reflexivity].
Qed.

Lemma dead_colon_or_equals : dead plain_char (Cls colon_or_equals).
Proof.
  intros c. unfold plain_char, colon_or_equals.
  destruct (Ascii.eqb c ":"), (Ascii.eqb c "="); done.
Qed.

Lemma dead_lt : dead plain_char (Lit "<"%char).
Proof.
  intros [[] [] [] [] [] [] [] []]; vm_compute; congruence.
Qed.

Lemma structured_dead key : Exists (dead plain_char) (structured key).
Proof.
  unfold structured. apply Exists_app. right.
  apply Exists_cons_tl, Exists_cons_hd, dead_colon.
Qed.

Lemma quoted_dead key : Exists (dead plain_char) (quoted key).
Proof.
  unfold quoted. apply Exists_app. right.
  do 2 apply Exists_cons_tl. apply Exists_cons_hd, dead_colon_or_equals.
Qed.

Lemma title_element_dead : Exists (dead plain_char) title_element.
Proof. apply Exists_cons_hd, dead_lt. Qed.

Lemma first_match_dead (patterns : list (list item)) s :
  Forall (Exists (dead plain_char)) patterns ->
  all_chars plain_char s = true -> first_match patterns s = None.
Proof.
  intros Hp Hs. induction Hp as [|pat rest Hpat _ IH]; [done|].
  cbn. by rewrite (search_dead _ _ Hpat s Hs).
Qed.

(** [c not in s], character by character. *)
Lemma contains_char_false c s :
  contains (String c "") s = false ->
  all_chars (fun a => negb (Ascii.eqb a c)) s = true.
Proof.
  induction s as [|a s' IH]; [done|]. cbn.
  destruct (ascii_dec c a) as [->|Hne].
  - destruct s'; cbn; done.
  - intros H. apply IH in H. rewrite H, andb_true_r.
    apply negb_true_iff, Ascii.eqb_neq. congruence.
Qed.

Lemma plain_text_chars s :
  contains ":" s = false -> contains "=" s = false ->
  contains "<" s = false -> all_chars plain_char s = true.
Proof.
  intros H1%contains_char_false H2%contains_char_false
         H3%contains_char_false.
  induction s as [|a s' IH]; [done|].
  apply all_chars_suffix in H1 as [A1 H1].
  apply all_chars_suffix in H2 as [A2 H2].
  apply all_chars_suffix in H3 as [A3 H3].
  cbn. unfold plain_char at 1. rewrite A1, A2, A3. cbn. by apply IH.
Qed.

(** C5, as stated, fails: the response of the specification yields four
    fields, not two, and a text without any colon can yield a record
    that is not empty. *)
Lemma parser_example_has_more_fields :
  _parse_ai_response_for_metadata None
    ("Title: Modern Oak Kitchen" +:+ NL +:+ "Make: F032")
  <> {[ "Title" := "Modern Oak Kitchen"; "Make" := "F032" ]} /\
  contains ":" "A modern kitchen with granite worktop" = false /\
  _parse_ai_response_for_metadata None "A modern kitchen with granite worktop"
  <> ∅.
Proof.
  split_and!.
  - intros H. apply (f_equal (lookup "Description")) in H.
    vm_compute in H. discriminate.
  - reflexivity.
  - intros H. apply (f_equal (lookup "Description")) in H.
    vm_compute in H. discriminate.
Qed.

(** C5, as amended. The response of the specification yields Title and
    Make as stated and, besides, its longest line as Description and the
    whitelist terms it contains as Keywords.  A response with no colon,
    no equals sign and no [<], parsed without filename context, yields
    only what [plain_record] takes from it, and the empty record when it
    has no line of more than 20 characters, no whitelist term and no
    mention of [egger]. *)
Theorem parser_record_of_response :
  (forall cfd,
      _parse_ai_response_for_metadata cfd
        ("Title: Modern Oak Kitchen" +:+ NL +:+ "Make: F032")
      = {[ "Title" := "Modern Oak Kitchen"; "Make" := "F032";
           "Description" := "Title: Modern Oak Kitchen";
           "Keywords" := "kitchen, modern" ]}) /\
  (forall r,
      contains ":" r = false -> contains "=" r = false ->
      contains "<" r = false ->
      _parse_ai_response_for_metadata None r = plain_record r /\
      (description_parts r = [] -> keywords r = [] ->
       contains "egger" (lower r) = false ->
       _parse_ai_response_for_metadata None r = ∅)).
Proof.
  split.
  - intros cfd. vm_compute. reflexivity.
  - intros r H1 H2 H3.
    pose proof (plain_text_chars r H1 H2 H3) as Hr.
    assert (_parse_ai_response_for_metadata None r = plain_record r) as Heq.
    { unfold _parse_ai_response_for_metadata, plain_record, extract.
      assert (forall pats, Forall (Exists (dead plain_char)) pats ->
                           first_match pats r = None) as Hf
        by (intros pats Hp; by apply first_match_dead).
      rewrite !(search_dead _ _ (structured_dead _) r Hr).
      rewrite (Hf [quoted "title"; title_element; quoted "name"])
        by (constructor; [apply quoted_dead|];
            constructor; [apply title_element_dead|];
            constructor; [apply quoted_dead|constructor]).
      rewrite (Hf [quoted "artist"; quoted "company"; quoted "brand"]),
        (Hf [quoted "make"; quoted "product code"; quoted "code"]),
        (Hf [quoted "model"; quoted "type"; quoted "product type"])
        by (repeat (constructor; [apply quoted_dead|]); constructor).
      cbn [set_opt].
      destruct (contains "title" (lower r) || contains "name" (lower r)),
        (keywords r), (description_parts r),
        (contains "egger" (lower r));
        unfold missing;
        repeat (rewrite ?lookup_insert_eq, ?lookup_empty;
                rewrite ?lookup_insert_ne by done);
        reflexivity. }
    split; [exact Heq|].
    intros Hd Hk He. rewrite Heq. unfold plain_record.
    by rewrite Hd, Hk, He.
Qed.

Lemma parser_record_of_response_witness :
  Parser._parse_ai_response_for_metadata None "hello world" = ∅.
Proof.
  apply (proj2 parser_record_of_response "hello world");
    vm_compute; reflexivity.
Defined.

End ResponseParser.

(** ** The local answer router *)

Section AnswerRouter.
Import PyStr Router.
Variable fl : float_ops.

Lemma run_tool_calls_appends (ts : tool_state fl)
    (tool_calls : list (tool_call)) :
  forall executed messages messages',
    run_tool_calls fl ts tool_calls executed messages = Ok messages' ->
    exists extra, messages' = messages ++ extra /\
                  Forall (fun m => is_tool m = true) extra.
Proof.
  induction tool_calls as [|tc rest IH]; intros executed messages messages' H.
  - cbn in H. simplify_eq. exists []. by rewrite app_nil_r.
  - cbn in H. destruct (arguments tc) as [args|]; [|done].
    destruct (existsb _ executed).
    + by apply IH in H.
    + apply IH in H as (extra & -> & Hextra).
      eexists (_ :: extra). rewrite <- app_assoc. split; [reflexivity|].
      by constructor.
Qed.

Lemma filter_is_tool_extra (extra : list chat_entry) :
  Forall (fun m => is_tool m = true) extra ->
  List.filter is_tool extra = extra.
Proof.
  induction 1 as [|m l Hm _ IH]; [done|]. cbn. by rewrite Hm, IH.
Qed.

(** With a question of the user in second place, the answer of
    [_process_tool_calls] is that of the router on this question and on
    the results of the tools that ran. *)
Lemma process_tool_calls_routes_question (ts : tool_state fl)
    (tool_calls : list tool_call) (system_message question : string)
    (messages : list chat_entry) :
  startswith "Please provide a clear response" question = false ->
  run_tool_calls fl ts tool_calls []
    (api_messages system_message question ++ [assistant_entry]) = Ok messages ->
  map entry_content (List.filter is_tool messages) <> [] ->
  _process_tool_calls fl ts tool_calls (api_messages system_message question)
  = _analyze_tool_results_and_respond fl question
      (map entry_content (List.filter is_tool messages)).
Proof.
  intros Hq Hrun Hne. unfold _process_tool_calls. rewrite Hrun.
  destruct (map entry_content (List.filter is_tool messages)) eqn:Hres; [done|].
  apply run_tool_calls_appends in Hrun as (extra & -> & Hextra).
  cbn. unfold startswith in Hq. by rewrite Hq.
Qed.

(** Without a folder listing among the results there is nothing to
    route: the answer is a fixed message. *)
Lemma no_listing_fixed_answer (user_message : string)
    (tool_results : list string) :
  find_folder_data tool_results = None ->
  _analyze_tool_results_and_respond fl user_message tool_results
  = "Tool execution completed but no folder data was returned.".
Proof. unfold _analyze_tool_results_and_respond. by intros ->. Qed.

Section Order.
Hypothesis ltb_irrefl : forall a, float_ltb fl a a = false.
Hypothesis ltb_trans : forall a b c,
  float_ltb fl a b = true -> float_ltb fl b c = true -> float_ltb fl a c = true.

Lemma not_ltb_through a b c :
  float_ltb fl a b = true -> float_ltb fl a c = false ->
  float_ltb fl b c = false.
Proof.
  intros Hab Hac. destruct (float_ltb fl b c) eqn:Hbc; [|done].
  by rewrite (ltb_trans a b c Hab Hbc) in Hac.
Qed.

Lemma ltb_not_through a b c :
  float_ltb fl b a = true -> float_ltb fl c a = false ->
  float_ltb fl c b = false.
Proof.
  intros Hba Hca. destruct (float_ltb fl c b) eqn:Hcb; [|done].
  by rewrite (ltb_trans c b a Hcb Hba) in Hca.
Qed.

(** The file that [max] picks is one of the files, and none is larger. *)
Lemma max_by_size_maximal (l : list (file_entry fl)) :
  forall best seen,
    best ∈ seen ->
    (forall x, x ∈ seen -> float_ltb fl (size best) (size x) = false) ->
    let m := max_by_size fl best l in
    m ∈ seen ++ l /\
    forall x, x ∈ seen ++ l -> float_ltb fl (size m) (size x) = false.
Proof.
  induction l as [|y l IH]; intros best seen Hin Hmax; cbn.
  - rewrite app_nil_r. done.
  - replace (seen ++ y :: l) with ((seen ++ [y]) ++ l)
      by (by rewrite <- app_assoc).
    destruct (float_ltb fl (size best) (size y)) eqn:Hlt; apply IH.
    + apply elem_of_app. right. by apply list_elem_of_singleton.
    + intros x [Hx| ->%list_elem_of_singleton]%elem_of_app.
      * eapply not_ltb_through; eauto.
      * apply ltb_irrefl.
    + apply elem_of_app. by left.
    + intros x [Hx| ->%list_elem_of_singleton]%elem_of_app; auto.
Qed.

(** The file that [min] picks is one of the files, and none is smaller. *)
Lemma min_by_size_minimal (l : list (file_entry fl)) :
  forall best seen,
    best ∈ seen ->
    (forall x, x ∈ seen -> float_ltb fl (size x) (size best) = false) ->
    let m := min_by_size fl best l in
    m ∈ seen ++ l /\
    forall x, x ∈ seen ++ l -> float_ltb fl (size x) (size m) = false.
Proof.
  induction l as [|y l IH]; intros best seen Hin Hmin; cbn.
  - rewrite app_nil_r. done.
  - replace (seen ++ y :: l) with ((seen ++ [y]) ++ l)
      by (by rewrite <- app_assoc).
    destruct (float_ltb fl (size y) (size best)) eqn:Hlt; apply IH.
    + apply elem_of_app. right. by apply list_elem_of_singleton.
    + intros x [Hx| ->%list_elem_of_singleton]%elem_of_app.
      * eapply ltb_not_through; eauto.
      * apply ltb_irrefl.
    + apply elem_of_app. by left.
    + intros x [Hx| ->%list_elem_of_singleton]%elem_of_app; auto.
Qed.

End Order.

End AnswerRouter.

Section AnswerRouterExamples.
Import PyStr Router Fixtures.

(** C7, as stated, fails. A question that contains [how many] and also
    [files] gets the listing, not the count; and when the model asked
    for the current image, a question without any keyword gets a fixed
    message instead of the result of the tool. *)
Lemma router_question_gets_other_answer :
  contains "how many" (lower "how many files are there") = true /\
  _process_tool_calls tenths sized_folder [list_call]
    (conversation "how many files are there")
  = join NL ["The 'k' folder contains 3 files:"; "";
             "1. a.jpg (1.5 KB)"; "2. b.jpg (20.0 KB)";
             "3. c.webp (0.7 KB)"; ""] /\
  count_answer tenths
    {| folder_name := "k"; total_files := 3; files := [] |}
  = "The 'k' folder contains 3 files." /\
  startswith "Image 1:" (_execute_tool tenths sized_folder "get_current_image" [])
  = true /\
  _process_tool_calls tenths sized_folder [current_image_call]
    (conversation "describe the current image")
  = "Tool execution completed but no folder data was returned.".
Proof. split_and!; reflexivity. Qed.

End AnswerRouterExamples.

(** ** Facts about the string primitives *)

Section StringFacts.
Import PyStr.

Lemma app_cons a s t : String a s +:+ t = String a (s +:+ t).
Proof. reflexivity. Qed.

Lemma app_empty_l t : "" +:+ t = t.
Proof. reflexivity. Qed.

Lemma app_empty_r s : s +:+ "" = s.
Proof. induction s as [|a s IH]; [done|]. by rewrite app_cons, IH. Qed.

Lemma app_assoc_s s t u : (s +:+ t) +:+ u = s +:+ (t +:+ u).
Proof. induction s as [|a s IH]; [done|]. by rewrite !app_cons, IH. Qed.

Lemma all_chars_app ok s t :
  Re.all_chars ok (s +:+ t) = Re.all_chars ok s && Re.all_chars ok t.
Proof.
  induction s as [|a s IH]; [done|].
  rewrite app_cons. cbn. by rewrite IH, andb_assoc.
Qed.

Lemma all_chars_impl (ok ok' : ascii -> bool) s :
  (forall c, ok c = true -> ok' c = true) ->
  Re.all_chars ok s = true -> Re.all_chars ok' s = true.
Proof.
  intros Himpl. induction s as [|a s IH]; [done|]. cbn.
  intros [Ha Hs]%andb_true_iff. by rewrite (Himpl a Ha), IH.
Qed.

(** *** [split] on a character *)

Lemma split_char_absent c s :
  Re.all_chars (Re.is_not c) s = true -> split_char c s = [s].
Proof.
  induction s as [|a s IH]; [done|]. cbn. unfold Re.is_not at 1.
  intros [Ha Hs]%andb_true_iff. apply negb_true_iff in Ha.
  by rewrite Ha, (IH Hs).
Qed.

Lemma split_char_app c s t :
  Re.all_chars (Re.is_not c) s = true ->
  split_char c (s +:+ String c t) = s :: split_char c t.
Proof.
  induction s as [|a s IH]; intros H.
  - rewrite app_empty_l. cbn. by rewrite Ascii.eqb_refl.
  - rewrite app_cons. cbn in *. unfold Re.is_not at 1 in H.
    apply andb_true_iff in H as [Ha Hs]. apply negb_true_iff in Ha.
    by rewrite Ha, (IH Hs).
Qed.

Lemma split_char_join c (lines : list string) :
  lines <> [] ->
  Forall (fun l => Re.all_chars (Re.is_not c) l = true) lines ->
  split_char c (join (String c "") lines) = lines.
Proof.
  intros Hne Hall. induction Hall as [|l rest Hl Hrest IH]; [done|].
  destruct rest as [|l' rest'].
  - cbn. by apply split_char_absent.
  - change (join (String c "") (l :: l' :: rest'))
      with (l +:+ String c "" +:+ join (String c "") (l' :: rest')).
    change (String c "" +:+ ?x) with (String c x).
    rewrite split_char_app by done. f_equal. by apply IH.
Qed.

Lemma split_once_app c s t :
  Re.all_chars (Re.is_not c) s = true ->
  split_once c (s +:+ String c t) = [s; t].
Proof.
  induction s as [|a s IH]; intros H.
  - rewrite app_empty_l. cbn. by rewrite Ascii.eqb_refl.
  - rewrite app_cons. cbn in *. unfold Re.is_not at 1 in H.
    apply andb_true_iff in H as [Ha Hs]. apply negb_true_iff in Ha.
    by rewrite Ha, (IH Hs).
Qed.

Lemma all_chars_split_char ok c s :
  Re.all_chars ok s = true ->
  Forall (fun x => Re.all_chars ok x = true) (split_char c s).
Proof.
  induction s as [|a s IH]; intros H; [by repeat constructor|].
  cbn in *. apply andb_true_iff in H as [Ha Hs]. specialize (IH Hs).
  destruct (Ascii.eqb a c); [by constructor|].
  destruct (split_char c s) as [|x xs]; [by repeat constructor; cbn; rewrite Ha|].
  inversion IH; subst. constructor; [|done]. cbn. by rewrite Ha.
Qed.

Lemma all_chars_last ok (l : list string) :
  Forall (fun x => Re.all_chars ok x = true) l ->
  Re.all_chars ok (List.last l "") = true.
Proof.
  induction 1 as [|x l Hx Hl IH]; [done|].
  destruct l; [done|]. exact IH.
Qed.

Lemma all_chars_basename ok p :
  Re.all_chars ok p = true -> Re.all_chars ok (PyPath.basename p) = true.
Proof.
  intros H. unfold PyPath.basename.
  by apply all_chars_last, all_chars_split_char.
Qed.

(** *** [strip] *)

Lemma lstrip_nonspace c s :
  isspace c = false -> lstrip (String c s) = String c s.
Proof. intros H. cbn. by rewrite H. Qed.

Lemma rstrip_app_nonspace s c :
  isspace c = false -> rstrip (s +:+ String c "") = s +:+ String c "".
Proof.
  intros Hc. induction s as [|a s IH].
  - rewrite app_empty_l. cbn. by rewrite Hc.
  - rewrite app_cons. cbn. rewrite IH.
    destruct (s +:+ String c "") eqn:E; [|done].
    by destruct s.
Qed.

Lemma rstrip_nonempty c s : isspace c = false -> rstrip (String c s) <> "".
Proof. intros Hc. cbn. destruct (rstrip s); by rewrite ?Hc. Qed.

Lemma rstrip_no_space s :
  Re.all_chars (fun c => negb (isspace c)) s = true -> rstrip s = s.
Proof.
  induction s as [|a s IH]; [done|]. cbn.
  intros [Ha Hs]%andb_true_iff. apply negb_true_iff in Ha.
  rewrite (IH Hs). destruct s; by rewrite ?Ha.
Qed.

(** *** [in] and [startswith] *)

Lemma prefix_app p s : String.prefix p (p +:+ s) = true.
Proof.
  induction p as [|a p IH]; [rewrite app_empty_l; by destruct s|].
  rewrite app_cons. cbn. by destruct (ascii_dec a a).
Qed.

Lemma contains_prefix sub s :
  String.prefix sub s = true -> contains sub s = true.
Proof. intros H. destruct s; cbn [contains]; by rewrite H. Qed.

Lemma contains_app_intro sub a b : contains sub (a +:+ sub +:+ b) = true.
Proof.
  induction a as [|c a IH].
  - rewrite app_empty_l. apply contains_prefix, prefix_app.
  - rewrite app_cons. cbn. rewrite IH. apply orb_true_r.
Qed.

Lemma strip_prefix_app p s : strip_prefix p (p +:+ s) = Some s.
Proof.
  induction p as [|a p IH]; [done|].
  rewrite app_cons. cbn. by rewrite Ascii.eqb_refl, IH.
Qed.

(** *** [split] on the two characters that open the size *)

Lemma prefix_empty s : String.prefix "" s = true.
Proof. by destruct s. Qed.

Lemma strip_prefix_none p :
  forall s, String.prefix p s = false -> strip_prefix p s = None.
Proof.
  induction p as [|a p IH]; intros s H.
  - by rewrite prefix_empty in H.
  - destruct s as [|b s]; [done|]. cbn in *.
    destruct (ascii_dec a b) as [->|Hne].
    + rewrite Ascii.eqb_refl. by apply IH.
    + apply Ascii.eqb_neq in Hne. by rewrite Hne.
Qed.

Lemma prefix_open_paren_app c s rest :
  String.prefix " (" (String c s) = false ->
  String.prefix " (" (String c s +:+ " (" +:+ rest) = false.
Proof.
  rewrite app_cons. cbn [String.prefix].
  destruct (ascii_dec " " c) as [_|_]; [|done].
  destruct s as [|b s].
  - intros _. rewrite app_empty_l.
    change (" (" +:+ rest) with (String " " (String "(" rest)).
    cbn [String.prefix]. by destruct (ascii_dec "(" " ").
  - rewrite app_cons. cbn [String.prefix].
    destruct (ascii_dec "(" b) as [_|_]; [|done].
    by rewrite !prefix_empty.
Qed.

Lemma strip_prefix_open_paren c s rest :
  String.prefix " (" (String c s) = false ->
  strip_prefix " (" (String c s +:+ " (" +:+ rest) = None.
Proof. intros H. by apply strip_prefix_none, prefix_open_paren_app. Qed.

Lemma strip_prefix_open_paren_alone c s :
  String.prefix " (" (String c s) = false ->
  strip_prefix " (" (String c s) = None.
Proof. apply strip_prefix_none. Qed.

Lemma split_go_open_paren_head (name rest : string) :
  contains " (" name = false ->
  forall fuel, String.length name < fuel ->
    exists tl, split_go fuel " (" (name +:+ " (" +:+ rest) = name :: tl.
Proof.
  induction name as [|c name IH]; intros Hno fuel Hfuel.
  - destruct fuel as [|fuel]; [cbn in Hfuel; lia|].
    rewrite app_empty_l. cbn [split_go].
    rewrite (strip_prefix_app " (" rest). by eexists.
  - destruct fuel as [|fuel]; [cbn in Hfuel; lia|].
    cbn [contains] in Hno. apply orb_false_iff in Hno as [Hpre Hno].
    cbn [split_go]. rewrite (strip_prefix_open_paren c name rest Hpre).
    rewrite app_cons.
    destruct (IH Hno fuel) as [tl ->]; [cbn in Hfuel; lia|]. by eexists.
Qed.

Lemma split_go_open_paren_absent (name : string) :
  contains " (" name = false ->
  forall fuel, String.length name < fuel -> split_go fuel " (" name = [name].
Proof.
  induction name as [|c name IH]; intros Hno fuel Hfuel.
  - destruct fuel as [|fuel]; [cbn in Hfuel; lia|]. done.
  - destruct fuel as [|fuel]; [cbn in Hfuel; lia|].
    cbn [contains] in Hno. apply orb_false_iff in Hno as [Hpre Hno].
    cbn [split_go]. rewrite (strip_prefix_open_paren_alone c name Hpre).
    rewrite (IH Hno fuel); [done|cbn in Hfuel; lia].
Qed.

Lemma length_app_s s t :
  String.length (s +:+ t) = String.length s + String.length t.
Proof. induction s as [|a s IH]; [done|]. rewrite app_cons. cbn. by rewrite IH. Qed.

(** The text before the first [" ("] is the name, with or without a
    size after it. *)
Lemma split_open_paren_head (name rest : string) :
  contains " (" name = false ->
  nth 0 (split " (" (name +:+ " (" +:+ rest)) "" = name.
Proof.
  intros Hno. unfold split.
  destruct (split_go_open_paren_head name rest Hno
              (S (String.length (name +:+ " (" +:+ rest)))) as [tl ->]; [|done].
  rewrite length_app_s. lia.
Qed.

Lemma split_open_paren_absent (name : string) :
  contains " (" name = false -> nth 0 (split " (" name) "" = name.
Proof.
  intros Hno. unfold split.
  rewrite (split_go_open_paren_absent name Hno); [done|lia].
Qed.

(** *** [replace] *)

Lemma replace_go_absent a old new s :
  Re.all_chars (Re.is_not a) s = true ->
  forall fuel, replace_go fuel (String a old) new s = s.
Proof.
  induction s as [|c s IH]; intros H fuel.
  - by destruct fuel.
  - destruct fuel as [|fuel]; [done|].
    cbn in H. apply andb_true_iff in H as [Hc Hs].
    unfold Re.is_not in Hc. apply negb_true_iff in Hc.
    cbn. rewrite Ascii.eqb_sym, Hc. by rewrite (IH Hs).
Qed.

Lemma replace_prefix_absent a old s :
  Re.all_chars (Re.is_not a) s = true ->
  replace (String a old) "" (String a old +:+ s) = s.
Proof.
  intros H. unfold replace. cbn [replace_go].
  rewrite (strip_prefix_app (String a old) s), app_empty_l.
  by apply replace_go_absent.
Qed.

(** *** Decimal numbers *)

Lemma decimal_digit_char n :
  n < 10 -> decimal_value (ascii_of_nat (48 + n)) = Some (N.of_nat n).
Proof.
  intros H. do 10 (destruct n as [|n]; [reflexivity|]). lia.
Qed.

Lemma digits_spec fuel :
  forall n acc, n < fuel ->
    exists ds k,
      digits fuel n acc = ds +:+ acc /\ ds <> "" /\
      Re.all_chars is_decimal ds = true /\
      forall a b rest,
        int_digits a b (ds +:+ rest)
        = int_digits (a * 10 ^ k + N.of_nat n)%N true rest.
Proof.
  induction fuel as [|fuel IH]; intros n acc Hn; [lia|].
  cbn [digits].
  assert (n mod 10 < 10) as Hd by (apply Nat.mod_upper_bound; lia).
  pose proof (decimal_digit_char (n mod 10) Hd) as Hdec.
  pose proof (Nat.div_mod_eq n 10) as Hdm.
  destruct (n / 10 =? 0) eqn:Hq.
  - apply Nat.eqb_eq in Hq.
    exists (String (ascii_of_nat (48 + n mod 10)) ""), 1%N.
    split_and!; [done|done| |].
    + cbn [Re.all_chars]. unfold is_decimal. by rewrite Hdec.
    + intros a b rest. rewrite app_cons, app_empty_l. cbn [int_digits].
      rewrite Hdec. f_equal. rewrite Hq in Hdm. lia.
  - apply Nat.eqb_neq in Hq.
    destruct (IH (n / 10) (String (ascii_of_nat (48 + n mod 10)) acc))
      as (ds & k & Heq & Hne & Hall & Hint).
    { assert (n / 10 < n) by (apply Nat.div_lt; lia). lia. }
    exists (ds +:+ String (ascii_of_nat (48 + n mod 10)) ""), (k + 1)%N.
    split_and!.
    + by rewrite Heq, app_assoc_s.
    + by destruct ds.
    + rewrite all_chars_app, Hall. cbn [Re.all_chars andb].
      unfold is_decimal. by rewrite Hdec.
    + intros a b rest. rewrite app_assoc_s, Hint.
      rewrite app_cons, app_empty_l. cbn [int_digits]. rewrite Hdec.
      f_equal. rewrite N.pow_add_r, N.pow_1_r. lia.
Qed.

Lemma str_of_nat_spec n :
  exists ds,
    str_of_nat n = ds /\ ds <> "" /\ Re.all_chars is_decimal ds = true /\
    int_digits 0 false ds = Some (N.of_nat n).
Proof.
  unfold str_of_nat.
  destruct (digits_spec (S n) n "") as (ds & k & Heq & Hne & Hall & Hint);
    [lia|].
  exists ds. rewrite Heq, app_empty_r. split_and!; try done.
  specialize (Hint 0%N false ""). rewrite app_empty_r in Hint.
  rewrite Hint. cbn [int_digits]. f_equal; lia.
Qed.

Lemma decimal_not_space c : is_decimal c = true -> isspace c = false.
Proof. destruct c as [[] [] [] [] [] [] [] []]; vm_compute; congruence. Qed.

Lemma decimal_is_digit c : is_decimal c = true -> isdigit c = true.
Proof. destruct c as [[] [] [] [] [] [] [] []]; vm_compute; congruence. Qed.

Lemma decimal_is_not c x :
  is_decimal x = false -> is_decimal c = true -> Re.is_not x c = true.
Proof.
  intros Hx Hc. unfold Re.is_not. apply negb_true_iff, Ascii.eqb_neq.
  intros ->. congruence.
Qed.

(** [int(str(n))] is [n], also after a leading blank. *)
Lemma int_of_str_of_nat n :
  int_of_str (" " +:+ str_of_nat n) = Some (Z.of_nat n).
Proof.
  destruct (str_of_nat_spec n) as (ds & -> & Hne & Hall & Hint).
  unfold int_of_str, strip. rewrite app_cons. cbn [lstrip isspace].
  change (isspace " ") with true. cbn iota. rewrite app_empty_l.
  destruct ds as [|c ds]; [done|].
  pose proof Hall as Hall'. cbn in Hall'.
  apply andb_true_iff in Hall' as [Hc _].
  rewrite (lstrip_nonspace c ds (decimal_not_space c Hc)).
  rewrite rstrip_no_space
    by (eapply all_chars_impl; [|exact Hall];
        intros x Hx; by rewrite (decimal_not_space x Hx)).
  assert (Ascii.eqb c "-" = false) as ->.
  { apply Ascii.eqb_neq. intros ->. done. }
  assert (Ascii.eqb c "+" = false) as ->.
  { apply Ascii.eqb_neq. intros ->. done. }
  rewrite Hint. cbn. f_equal. lia.
Qed.

End StringFacts.

(** ** The duplicate branch of the router on the report of the folder tool *)

Section DuplicateBranch.
Import PyStr Router.
Variable fl : float_ops.

Lemma no_newline_chars s :
  contains NL s = false -> Re.all_chars (Re.is_not nl) s = true.
Proof. intros H. by apply contains_char_false in H. Qed.

Lemma decimal_chars_are_not x ds :
  is_decimal x = false -> Re.all_chars is_decimal ds = true ->
  Re.all_chars (Re.is_not x) ds = true.
Proof.
  intros Hx. apply all_chars_impl. intros c. by apply decimal_is_not.
Qed.

Lemma strip_blank_paren c s :
  isspace c = false ->
  strip (String " " (String c s +:+ ")")) = String c s +:+ ")".
Proof.
  intros Hc. unfold strip. cbn [lstrip].
  change (isspace " ") with true. cbn iota.
  rewrite app_cons, (lstrip_nonspace c _ Hc), <- app_cons.
  by apply rstrip_app_nonspace.
Qed.

(** One line of the listing gives one entry, and the text of its name
    before the first [" ("] is the file name. *)
Lemma parse_file_line_listing (idx : nat) (n fmt : string) :
  plain_name n = true ->
  exists e,
    parse_file_line fl
      (str_of_nat idx +:+ ". " +:+ n +:+ " (" +:+ fmt +:+ " KB)") = [e] /\
    nth 0 (split " (" (name e)) "" = n.
Proof.
  intros Hn. destruct (str_of_nat_spec idx) as (ds & -> & Hne & Hall & _).
  unfold plain_name in Hn.
  apply andb_true_iff in Hn as [[Hc Hnl]%andb_true_iff Hop].
  apply negb_true_iff in Hop. destruct n as [|c n']; [done|].
  apply negb_true_iff in Hc.
  set (X := String c n' +:+ " (" +:+ fmt +:+ " KB)").
  unfold parse_file_line.
  change (ds +:+ ". " +:+ X) with (ds +:+ String "." (String " " X)).
  rewrite split_once_app by (by apply decimal_chars_are_not).
  assert (X = String c (n' +:+ " (" +:+ fmt +:+ " KB") +:+ ")") as HX.
  { subst X.
    change (String c (n' +:+ " (" +:+ fmt +:+ " KB)")
            = String c ((n' +:+ " (" +:+ fmt +:+ " KB") +:+ ")")).
    f_equal. rewrite !app_assoc_s. reflexivity. }
  assert (strip (String " " X) = X) as ->.
  { rewrite HX. by apply strip_blank_paren. }
  assert (contains " (" X = true) as ->
      by apply (contains_app_intro " (" (String c n') (fmt +:+ " KB)")).
  assert (contains " KB)" X = true) as ->.
  { replace X with ((String c n' +:+ " (" +:+ fmt) +:+ " KB)" +:+ "").
    - apply contains_app_intro.
    - subst X. rewrite !app_assoc_s. reflexivity. }
  cbn [andb].
  assert (nth 0 (split " (" X) "" = String c n') as Hhead
      by apply (split_open_paren_head (String c n') (fmt +:+ " KB)") Hop).
  destruct (float_of_str fl _); eexists; (split; [reflexivity|]); cbn [name].
  - rewrite Hhead. by apply split_open_paren_absent.
  - exact Hhead.
Qed.

Lemma prefix_other_char a p d rest :
  a <> d -> String.prefix (String a p) (String d rest) = false.
Proof. intros Hne. cbn. by destruct (ascii_dec a d). Qed.

Lemma digit_line_checks d rest :
  is_decimal d = true ->
  startswith "Folder:" (String d rest) = false /\
  startswith "Total files:" (String d rest) = false /\
  negb (String.eqb (strip (String d rest)) "")
  && first_isdigit (String d rest) = true.
Proof.
  intros Hd. split_and!.
  - apply prefix_other_char. intros <-. done.
  - apply prefix_other_char. intros <-. done.
  - unfold strip. rewrite (lstrip_nonspace d rest (decimal_not_space d Hd)).
    apply andb_true_iff. split; [|by apply decimal_is_digit].
    apply negb_true_iff, String.eqb_neq.
    by apply rstrip_nonempty, decimal_not_space.
Qed.

Lemma parse_line_listing (idx : nat) (n fmt : string) (r : folder_report fl) :
  plain_name n = true ->
  exists e,
    parse_line fl
      (str_of_nat idx +:+ ". " +:+ n +:+ " (" +:+ fmt +:+ " KB)") r
    = Ok {| folder_name := folder_name r; total_files := total_files r;
            files := files r ++ [e] |} /\
    nth 0 (split " (" (name e)) "" = n.
Proof.
  intros Hn.
  destruct (parse_file_line_listing idx n fmt Hn) as (e & He & Hkey).
  exists e. split; [|exact Hkey]. unfold parse_line. rewrite He.
  destruct (str_of_nat_spec idx) as (ds & -> & Hne & Hall & _).
  destruct ds as [|d ds]; [done|]. rewrite app_cons.
  cbn in Hall. apply andb_true_iff in Hall as [Hd _].
  destruct (digit_line_checks d (ds +:+ ". " +:+ n +:+ " (" +:+ fmt +:+ " KB)") Hd)
    as (-> & -> & ->).
  reflexivity.
Qed.

(** The lines that the folder tool writes for its files. *)
Lemma file_lines_shape (ts : tool_state fl) (paths : list string) :
  forall i lines,
    file_lines fl ts i paths = Ok lines ->
    Forall2 (fun p line =>
               exists idx sz,
                 line = str_of_nat idx +:+ ". " +:+ PyPath.basename p
                        +:+ " (" +:+ format_1f fl sz +:+ " KB)")
            paths lines.
Proof.
  induction paths as [|p rest IH]; intros i lines H; cbn in H.
  - simplify_eq. constructor.
  - destruct (getsize_kb ts p) as [sz|]; [|done].
    destruct (file_lines fl ts (S i) rest) as [ls|] eqn:Hrest; [|done].
    simplify_eq. constructor; [by eexists _, _|]. by eapply IH.
Qed.

Lemma parse_lines_listing (paths lines : list string) :
  Forall2 (fun p line =>
             exists idx sz,
               line = str_of_nat idx +:+ ". " +:+ PyPath.basename p
                      +:+ " (" +:+ format_1f fl sz +:+ " KB)")
          paths lines ->
  Forall (fun p => plain_name (PyPath.basename p) = true) paths ->
  forall r, exists es,
    parse_lines fl lines r
    = Ok {| folder_name := folder_name r; total_files := total_files r;
            files := files r ++ es |} /\
    map (fun e => nth 0 (split " (" (name e)) "") es
    = map PyPath.basename paths.
Proof.
  induction 1 as [|p line paths lines (idx & sz & ->) _ IH]; intros Hplain r.
  - exists []. rewrite app_nil_r. by destruct r.
  - inversion Hplain as [|? ? Hp Hrest]; subst.
    destruct (parse_line_listing idx (PyPath.basename p) (format_1f fl sz) r Hp)
      as (e & He & Hkey).
    cbn [parse_lines]. rewrite He.
    destruct (IH Hrest {| folder_name := folder_name r;
                          total_files := total_files r;
                          files := files r ++ [e] |}) as (es & Hes & Hkeys).
    exists (e :: es). rewrite Hes. cbn [folder_name total_files files].
    split; [by rewrite <- app_assoc|]. cbn [map]. by rewrite Hkey, Hkeys.
Qed.

(** *** The sorted list of distinct paths *)

Lemma insert_sorted_perm x l : insert_sorted x l ≡ₚ x :: l.
Proof.
  induction l as [|y l IH]; [done|]. cbn.
  destruct (String.leb x y); [done|]. rewrite IH. apply Permutation_swap.
Qed.

Lemma sorted_unique_perm l : sorted_unique l ≡ₚ remove_dups l.
Proof.
  unfold sorted_unique. induction (remove_dups l) as [|x r IH]; [done|].
  cbn. by rewrite insert_sorted_perm, IH.
Qed.

Lemma sorted_unique_NoDup l : NoDup (sorted_unique l).
Proof. rewrite sorted_unique_perm. apply NoDup_remove_dups. Qed.

Lemma sorted_unique_elem x l : x ∈ sorted_unique l <-> x ∈ l.
Proof. rewrite sorted_unique_perm. apply elem_of_remove_dups. Qed.

Lemma sorted_unique_nonempty l : l <> [] -> sorted_unique l <> [].
Proof.
  destruct l as [|x l]; [done|]. intros _ Hnil.
  assert (x ∈ sorted_unique (x :: l)) as Hx
      by (apply sorted_unique_elem; left).
  rewrite Hnil in Hx. by apply elem_of_nil in Hx.
Qed.

(** *** The report as a whole *)

Lemma strip_decimal ds :
  Re.all_chars is_decimal ds = true -> strip ds = ds.
Proof.
  intros Hall. unfold strip. destruct ds as [|c ds]; [done|].
  pose proof Hall as Hall'. cbn in Hall'.
  apply andb_true_iff in Hall' as [Hc _].
  rewrite (lstrip_nonspace c ds (decimal_not_space c Hc)).
  apply rstrip_no_space. eapply all_chars_impl; [|exact Hall].
  intros x Hx. by rewrite (decimal_not_space x Hx).
Qed.

Lemma strip_blank_digits n : strip (" " +:+ str_of_nat n) = str_of_nat n.
Proof.
  destruct (str_of_nat_spec n) as (ds & -> & Hne & Hall & _).
  rewrite <- (strip_decimal ds Hall) at 2.
  unfold strip. rewrite app_cons. cbn [lstrip].
  change (isspace " ") with true. cbn iota. by rewrite app_empty_l.
Qed.

Lemma int_of_str_digits n : int_of_str (str_of_nat n) = Some (Z.of_nat n).
Proof.
  destruct (str_of_nat_spec n) as (ds & -> & Hne & Hall & Hint).
  unfold int_of_str. rewrite (strip_decimal ds Hall).
  destruct ds as [|c ds]; [done|].
  cbn in Hall. apply andb_true_iff in Hall as [Hc _].
  assert (Ascii.eqb c "-" = false) as ->.
  { apply Ascii.eqb_neq. intros ->. done. }
  assert (Ascii.eqb c "+" = false) as ->.
  { apply Ascii.eqb_neq. intros ->. done. }
  rewrite Hint. cbn. f_equal. lia.
Qed.

Lemma listing_line_no_newline (idx : nat) (n fmt : string) :
  plain_name n = true -> contains NL fmt = false ->
  Re.all_chars (Re.is_not nl)
    (str_of_nat idx +:+ ". " +:+ n +:+ " (" +:+ fmt +:+ " KB)") = true.
Proof.
  intros Hn Hfmt. unfold plain_name in Hn.
  apply andb_true_iff in Hn as [[_ Hnl%negb_true_iff]%andb_true_iff _].
  destruct (str_of_nat_spec idx) as (ds & -> & _ & Hall & _).
  rewrite !all_chars_app.
  rewrite (decimal_chars_are_not nl ds eq_refl Hall).
  rewrite (no_newline_chars n Hnl), (no_newline_chars fmt Hfmt).
  reflexivity.
Qed.

Lemma parse_header_lines (F : string) (n : nat) (lines : list string) :
  parse_lines fl
    (("Folder: " +:+ F) :: ("Total files: " +:+ str_of_nat n) :: ""
       :: "Files:" :: lines)
    {| folder_name := "Unknown"; total_files := 0; files := [] |}
  = parse_lines fl lines
      {| folder_name := strip (replace "Folder:" "" ("Folder: " +:+ F));
         total_files := Z.of_nat n; files := [] |}.
Proof.
  cbn [parse_lines]. unfold parse_line at 1.
  assert (startswith "Folder:" ("Folder: " +:+ F) = true) as ->
      by apply (prefix_app "Folder:" (" " +:+ F)).
  cbn [folder_name total_files files].
  unfold parse_line at 1.
  assert (startswith "Folder:" ("Total files: " +:+ str_of_nat n) = false) as ->
      by (by apply prefix_other_char).
  assert (startswith "Total files:" ("Total files: " +:+ str_of_nat n) = true)
    as -> by apply (prefix_app "Total files:" (" " +:+ str_of_nat n)).
  assert (replace "Total files:" "" ("Total files: " +:+ str_of_nat n)
          = " " +:+ str_of_nat n) as ->.
  { apply (replace_prefix_absent "T" "otal files:" (" " +:+ str_of_nat n)).
    destruct (str_of_nat_spec n) as (ds & -> & _ & Hall & _).
    rewrite all_chars_app, (decimal_chars_are_not "T" ds eq_refl Hall).
    reflexivity. }
  rewrite strip_blank_digits, int_of_str_digits.
  cbn [folder_name total_files files]. reflexivity.
Qed.

Lemma map_is_fmap {A B} (f : A -> B) (l : list A) : map f l = f <$> l.
Proof. induction l as [|x l IH]; [done|]. cbn. by rewrite IH. Qed.

Lemma str_of_int_of_nat n : str_of_int (Z.of_nat n) = str_of_nat n.
Proof.
  unfold str_of_int. destruct (Z.ltb_spec (Z.of_nat n) 0); [lia|].
  by rewrite Nat2Z.id.
Qed.

(** The report of the folder tool is found among the results and parses
    to one entry per distinct path, each keeping its file name. *)
Lemma folder_report_parses (ts : tool_state fl) (report : string) :
  chat_folder_images ts <> [] ->
  _tool_list_folder_contents fl ts = Ok report ->
  contains NL (chat_folder_path_str ts) = false ->
  (forall x, contains NL (format_1f fl x) = false) ->
  Forall (fun p => plain_name (PyPath.basename p) = true)
         (chat_folder_images ts) ->
  exists folder es,
    find_folder_data [report] = Some report /\
    parse_folder_data fl report
    = Ok {| folder_name := folder;
            total_files := Z.of_nat (length (sorted_unique (chat_folder_images ts)));
            files := es |} /\
    map (fun e => nth 0 (split " (" (name e)) "") es
    = map PyPath.basename (sorted_unique (chat_folder_images ts)).
Proof.
  intros Himg Hrep Hfolder Hfmt Hplain.
  unfold _tool_list_folder_contents in Hrep.
  destruct (chat_folder_images ts) as [|p0 ps] eqn:Himages; [done|].
  rewrite <- Himages in *. clear Himages p0 ps.
  set (uniq := sorted_unique (chat_folder_images ts)) in *.
  set (F := if String.eqb (chat_folder_path_str ts) "" then "Unknown"
            else PyPath.basename (chat_folder_path_str ts)) in *.
  destruct (file_lines fl ts 1 uniq) as [file_list|] eqn:Hlines; [|done].
  injection Hrep as <-.
  assert (Forall (fun p => plain_name (PyPath.basename p) = true) uniq)
    as Hplain'.
  { rewrite Forall_forall in Hplain. apply Forall_forall. intros p Hp.
    apply Hplain. by apply (proj1 (sorted_unique_elem p _)). }
  pose proof (file_lines_shape ts uniq 1 file_list Hlines) as Hshape.
  assert (file_list <> []) as Hne.
  { pose proof (sorted_unique_nonempty _ Himg) as Hu. fold uniq in Hu.
    intros ->. apply Forall2_nil_inv_r in Hshape. done. }
  assert (Forall (fun l => Re.all_chars (Re.is_not nl) l = true) file_list)
    as Hnonl.
  { clear Hlines Hne. induction Hshape as [|p l ps ls (idx & sz & ->) _ IH];
      [constructor|].
    inversion Hplain' as [|? ? Hp Hps]; subst.
    constructor; [|by apply IH].
    by apply listing_line_no_newline. }
  assert (Re.all_chars (Re.is_not nl) F = true) as HF.
  { subst F. destruct (String.eqb _ ""); [reflexivity|].
    by apply all_chars_basename, no_newline_chars. }
  set (J := join NL file_list).
  assert ("Folder: " +:+ F +:+ NL +:+ "Total files: "
          +:+ str_of_nat (length uniq) +:+ NL +:+ NL +:+ "Files:" +:+ NL +:+ J
          = ("Folder: " +:+ F) +:+
            String nl (("Total files: " +:+ str_of_nat (length uniq)) +:+
            String nl ("" +:+ String nl ("Files:" +:+ String nl J)))) as ->.
  { rewrite !app_assoc_s. reflexivity. }
  exists (strip (replace "Folder:" "" ("Folder: " +:+ F))).
  destruct (parse_lines_listing uniq file_list Hshape Hplain'
              {| folder_name := strip (replace "Folder:" "" ("Folder: " +:+ F));
                 total_files := Z.of_nat (length uniq); files := [] |})
    as (es & Hparse & Hkeys).
  exists es. split_and!.
  - cbn [find_folder_data find].
    assert (contains "Folder:"
              (("Folder: " +:+ F) +:+
               String nl (("Total files: " +:+ str_of_nat (length uniq)) +:+
               String nl ("" +:+ String nl ("Files:" +:+ String nl J))))
            = true) as ->.
    { apply contains_prefix. rewrite app_assoc_s.
      apply (prefix_app "Folder:"). }
    assert (contains "Total files:"
              (("Folder: " +:+ F) +:+
               String nl (("Total files: " +:+ str_of_nat (length uniq)) +:+
               String nl ("" +:+ String nl ("Files:" +:+ String nl J))))
            = true) as ->; [|done].
    replace (("Folder: " +:+ F) +:+
               String nl (("Total files: " +:+ str_of_nat (length uniq)) +:+
               String nl ("" +:+ String nl ("Files:" +:+ String nl J))))
      with ((("Folder: " +:+ F) +:+ NL) +:+ "Total files:" +:+
            (" " +:+ str_of_nat (length uniq) +:+
             String nl ("" +:+ String nl ("Files:" +:+ String nl J)))).
    + apply contains_app_intro.
    + rewrite !app_assoc_s. reflexivity.
  - unfold parse_folder_data.
    rewrite split_char_app.
    2:{ rewrite all_chars_app, HF. reflexivity. }
    rewrite split_char_app.
    2:{ destruct (str_of_nat_spec (length uniq)) as (ds & -> & _ & Hall & _).
        rewrite all_chars_app, (decimal_chars_are_not nl ds eq_refl Hall).
        reflexivity. }
    rewrite (split_char_app nl "" _ eq_refl).
    rewrite (split_char_app nl "Files:" J eq_refl).
    subst J. unfold NL. rewrite (split_char_join nl file_list Hne Hnonl).
    rewrite parse_header_lines. exact Hparse.
  - exact Hkeys.
Qed.

(** C10, as amended. When a folder with at least one image is loaded,
    its name and the sizes as printed hold no line break, the file names
    are plain (no white space in front, no line break, no [" ("]) and
    distinct paths have distinct file names, the router answers every
    question that mentions [duplicate] on the report of the folder tool
    with the sentence that there are no duplicates, counting the
    distinct paths. *)
Theorem duplicate_question_finds_none
    (ts : tool_state fl) (question report : string) :
  chat_folder_images ts <> [] ->
  _tool_list_folder_contents fl ts = Ok report ->
  contains NL (chat_folder_path_str ts) = false ->
  (forall x, contains NL (format_1f fl x) = false) ->
  Forall (fun p => plain_name (PyPath.basename p) = true)
         (chat_folder_images ts) ->
  (forall p q, p ∈ chat_folder_images ts -> q ∈ chat_folder_images ts ->
               PyPath.basename p = PyPath.basename q -> p = q) ->
  contains "duplicate" (lower question) = true ->
  exists folder,
    _analyze_tool_results_and_respond fl question [report]
    = "No, there are no duplicate files in the '" +:+ folder
      +:+ "' folder. All "
      +:+ str_of_nat (length (sorted_unique (chat_folder_images ts)))
      +:+ " files have unique names.".
Proof.
  intros Himg Hrep Hfolder Hfmt Hplain Hinj Hq.
  destruct (folder_report_parses ts report Himg Hrep Hfolder Hfmt Hplain)
    as (folder & es & Hfind & Hparse & Hkeys).
  exists folder. unfold _analyze_tool_results_and_respond.
  rewrite Hfind, Hparse. unfold route. rewrite Hq.
  unfold duplicate_answer. cbn [files folder_name total_files].
  assert (NoDup (map name es)) as Hnodup.
  { apply (NoDup_fmap_1 (fun s => nth 0 (split " (" s) "")).
    rewrite <- !map_is_fmap, map_map, Hkeys, map_is_fmap.
    apply NoDup_fmap_2_strong; [|apply sorted_unique_NoDup].
    intros p q Hp Hq'. apply Hinj; by apply (proj1 (sorted_unique_elem _ _)). }
  unfold number_of_unique. rewrite (size_list_to_set _ Hnodup).
  rewrite Nat.eqb_refl. by rewrite str_of_int_of_nat.
Qed.

End DuplicateBranch.

Section DuplicateBranchExamples.
Import PyStr Router Fixtures.

Lemma all_chars_not_contains c s :
  Re.all_chars (Re.is_not c) s = true -> contains (String c "") s = false.
Proof.
  induction s as [|a s IH]; [done|]. cbn.
  intros [Ha Hs]%andb_true_iff. unfold Re.is_not in Ha.
  apply negb_true_iff, Ascii.eqb_neq in Ha.
  destruct (ascii_dec c a) as [->|_]; [done|]. by apply IH.
Qed.

Lemma tenths_format_no_newline z : contains NL (tenths_format z) = false.
Proof.
  apply all_chars_not_contains. unfold tenths_format.
  destruct (str_of_nat_spec (Z.to_nat (z / 10))) as (a & -> & _ & Ha & _).
  destruct (str_of_nat_spec (Z.to_nat (z mod 10))) as (b & -> & _ & Hb & _).
  rewrite !all_chars_app.
  rewrite (decimal_chars_are_not nl a eq_refl Ha).
  rewrite (decimal_chars_are_not nl b eq_refl Hb). reflexivity.
Qed.

Lemma duplicate_question_finds_none_witness :
  exists folder,
    _analyze_tool_results_and_respond tenths "Are there duplicate files?"
      [_execute_tool tenths sized_folder "list_folder_contents" []]
    = "No, there are no duplicate files in the '" +:+ folder
      +:+ "' folder. All 3 files have unique names.".
Proof.
  apply (duplicate_question_finds_none tenths sized_folder
           "Are there duplicate files?").
  - done.
  - reflexivity.
  - reflexivity.
  - apply tenths_format_no_newline.
  - repeat constructor.
  - intros p q Hp Hq.
    repeat (apply elem_of_cons in Hp as [->|Hp]);
      try (by apply elem_of_nil in Hp);
      repeat (apply elem_of_cons in Hq as [->|Hq]);
      try (by apply elem_of_nil in Hq);
      intros H; try reflexivity; vm_compute in H; discriminate.
  - reflexivity.
Defined.

(** C10, as stated, fails: in a folder that holds [a.jpg] and the same
    name with a blank in front, two distinct paths, the router answers
    that there is a duplicate. *)
Lemma duplicate_question_on_spaced_names :
  NoDup (chat_folder_images spaced_folder) /\
  _process_tool_calls tenths spaced_folder [list_call]
    (conversation "Are there duplicates?")
  = "Yes, there are 1 duplicate files in the 'd' folder. The folder contains 1 unique files out of 2 total files.".
Proof.
  split; [|reflexivity].
  apply NoDup_cons_2; [|apply NoDup_singleton].
  intros H%list_elem_of_singleton. discriminate.
Qed.

End DuplicateBranchExamples.

(** ** Saving through a temporary copy *)

Section TemporaryCopy.
Import PyStr Codec Store Simple Interactive.

Lemma split_char_nonempty c s : split_char c s <> [].
Proof.
  destruct s as [|a s]; cbn; [done|].
  destruct (Ascii.eqb a c); [done|]. by destruct (split_char c s).
Qed.

Lemma split_char_app_sep c a t :
  split_char c (a +:+ String c t) = split_char c a ++ split_char c t.
Proof.
  induction a as [|x a IH].
  - rewrite app_empty_l. cbn. by rewrite Ascii.eqb_refl.
  - rewrite app_cons. cbn [split_char]. destruct (Ascii.eqb x c).
    + by rewrite IH.
    + rewrite IH. pose proof (split_char_nonempty c a) as Hne.
      by destruct (split_char c a).
Qed.

Lemma last_app_nonempty {A} (l1 l2 : list A) d :
  l2 <> [] -> List.last (l1 ++ l2) d = List.last l2 d.
Proof.
  intros Hne. induction l1 as [|x l1 IH]; [done|].
  cbn [app]. change (List.last (x :: (l1 ++ l2)) d)
    with (match l1 ++ l2 with [] => x | _ :: _ => List.last (l1 ++ l2) d end).
  destruct (l1 ++ l2) eqn:E; [|exact IH].
  apply app_eq_nil in E as [_ ?]. done.
Qed.

Lemma basename_app_sep a t :
  PyPath.basename (a +:+ String "/" t) = PyPath.basename t.
Proof.
  unfold PyPath.basename. rewrite split_char_app_sep.
  apply last_app_nonempty, split_char_nonempty.
Qed.

Lemma split_char_no_sep c s :
  Forall (fun x => Re.all_chars (Re.is_not c) x = true) (split_char c s).
Proof.
  induction s as [|a s IH]; cbn.
  - by repeat constructor.
  - destruct (Ascii.eqb a c) eqn:E.
    + by constructor.
    + assert (Re.is_not c a = true) as Ha by (unfold Re.is_not; by rewrite E).
      destruct (split_char c s) as [|x xs].
      * repeat constructor. cbn. by rewrite Ha.
      * inversion IH; subst. constructor; [|done]. cbn. by rewrite Ha.
Qed.

Lemma basename_no_sep p :
  Re.all_chars (Re.is_not "/") (PyPath.basename p) = true.
Proof. apply all_chars_last, split_char_no_sep. Qed.

Lemma basename_plain t :
  Re.all_chars (Re.is_not "/") t = true -> PyPath.basename t = t.
Proof.
  intros H. unfold PyPath.basename. by rewrite split_char_absent.
Qed.

Lemma last_char_sep a c :
  last_char a = Some c -> Ascii.eqb c "/" = true ->
  exists a', a = a' +:+ "/".
Proof.
  intros Hl Hc. apply Ascii.eqb_eq in Hc. subst c.
  induction a as [|x a IH]; [done|].
  cbn in Hl. destruct a as [|y a].
  - simplify_eq. by exists "".
  - destruct (IH Hl) as [a' Ha']. exists (String x a').
    by rewrite app_cons, <- Ha'.
Qed.

(** The temporary file has the prefixed name of the original as its
    last component. *)
Lemma basename_path_join temp_dir (c : ascii) (tail : string) :
  c <> "/"%char ->
  Re.all_chars (Re.is_not "/") tail = true ->
  PyPath.basename (path_join temp_dir (String c tail)) = String c tail.
Proof.
  intros Hc Htail.
  assert (Re.all_chars (Re.is_not "/") (String c tail) = true) as Hall.
  { cbn. unfold Re.is_not at 1.
    destruct (Ascii.eqb_spec c "/"); [done|]. done. }
  unfold path_join, startswith. cbn [String.prefix].
  destruct (ascii_dec "/" c) as [<-|_]; [done|].
  destruct (last_char temp_dir) as [x|] eqn:Hl.
  - destruct (Ascii.eqb x "/") eqn:Hx.
    + destruct (last_char_sep _ _ Hl Hx) as [a' ->].
      rewrite app_assoc_s. change ("/" +:+ String c tail)
        with (String "/" (String c tail)).
      rewrite basename_app_sep. by apply basename_plain.
    + change (temp_dir +:+ "/" +:+ String c tail)
        with (temp_dir +:+ String "/" (String c tail)).
      rewrite basename_app_sep. by apply basename_plain.
  - by apply basename_plain.
Qed.

Lemma prefixed_name_differs (pre : string) (c : ascii) (b : string) :
  String c pre +:+ b <> b.
Proof.
  intros H. apply (f_equal String.length) in H.
  rewrite length_app_s in H. cbn in H. lia.
Qed.

Lemma simple_temp_path_differs temp_dir p :
  simple_temp_path temp_dir p <> p.
Proof.
  unfold simple_temp_path. intros H.
  apply (f_equal PyPath.basename) in H.
  change ("simple_temp_" +:+ PyPath.basename p)
    with (String "s" ("imple_temp_" +:+ PyPath.basename p)) in H.
  rewrite basename_path_join in H.
  - by apply (prefixed_name_differs "imple_temp_" "s" (PyPath.basename p)).
  - done.
  - rewrite all_chars_app. rewrite basename_no_sep. done.
Qed.

Lemma main_temp_path_differs temp_dir p :
  main_temp_path temp_dir p <> p.
Proof.
  unfold main_temp_path. intros H.
  apply (f_equal PyPath.basename) in H.
  change ("temp_metadata_" +:+ PyPath.basename p)
    with (String "t" ("emp_metadata_" +:+ PyPath.basename p)) in H.
  rewrite basename_path_join in H.
  - by apply (prefixed_name_differs "emp_metadata_" "t" (PyPath.basename p)).
  - done.
  - rewrite all_chars_app. rewrite basename_no_sep. done.
Qed.

Lemma copy2_only_target (e : env) (w w' : world) src dst r q :
  copy2 e w src dst = (r, w') -> q <> dst -> fs w' !! q = fs w !! q.
Proof.
  unfold copy2. intros H Hq.
  destruct (fs w !! src); [|by simplify_eq].
  destruct (String.eqb src dst); [by simplify_eq|].
  destruct (write_fault e dst); simplify_eq; cbn;
    by rewrite lookup_insert_ne.
Qed.

Lemma jpeg_write_only_target (e : env) (w w' : world) image file_path md r q :
  save_simple_jpeg_metadata e w image file_path md = (r, w') ->
  q <> file_path -> fs w' !! q = fs w !! q.
Proof.
  unfold save_simple_jpeg_metadata, image_save. intros H Hq.
  destruct (piexif_dump_ok e _); [|by simplify_eq].
  destruct (write_fault e file_path); simplify_eq; cbn;
    by rewrite lookup_insert_ne.
Qed.

Lemma is_jpeg_not_webp path :
  is_jpeg path = true -> String.eqb (lower (PyPath.suffix path)) ".webp" = false.
Proof.
  unfold is_jpeg. intros H. apply orb_true_iff in H as [H|H];
    apply String.eqb_eq in H; by rewrite H.
Qed.

(** X1. A save from the simple tab that does not end in the success
    dialog leaves the selected file as it was: everything before the
    final replacement works on the temporary copy, whose path differs from
    the path of the original. *)
Theorem save_simple_metadata_failure_keeps_original
    (e : env) (temp_dir : string) (w w' : world) (path : string)
    (simple_fields : gmap string string) (r : outcome) :
  lower (PyPath.suffix path) <> ".webp" ->
  write_fault e path = None ->
  save_simple_metadata e temp_dir w path simple_fields = (r, w') ->
  r <> Saved ->
  fs w' !! path = fs w !! path /\
  forall q, q <> simple_temp_path temp_dir path -> fs w' !! q = fs w !! q.
Proof.
  intros Hext Hfault Hsave Hr.
  pose proof (simple_temp_path_differs temp_dir path) as Hne.
  assert (forall q, q <> simple_temp_path temp_dir path ->
                    fs w' !! q = fs w !! q) as Hall; [|by split; [apply Hall|]].
  intros q Hq. unfold save_simple_metadata in Hsave.
  destruct (String.eqb path ""); [by simplify_eq|].
  destruct (copy2 e w path _) as [[[]|exc] w1] eqn:Hcopy;
    [|simplify_eq; by eapply copy2_only_target].
  pose proof (copy2_only_target _ _ _ _ _ _ q Hcopy Hq) as H1.
  destruct (image_open w1 _) as [image|exc]; [|by simplify_eq].
  destruct (String.eqb (lower (PyPath.suffix path)) ".jpg"
            || String.eqb (lower (PyPath.suffix path)) ".jpeg").
  - destruct (save_simple_jpeg_metadata e w1 image _ _) as [[[]|exc] w2] eqn:Hw.
    + unfold move in Hsave. rewrite Hfault in Hsave.
      destruct (fs w2 !! _); simplify_eq.
      rewrite <- H1. by eapply jpeg_write_only_target.
    + simplify_eq. rewrite <- H1. by eapply jpeg_write_only_target.
  - destruct (String.eqb_spec (lower (PyPath.suffix path)) ".webp"); [done|].
    by simplify_eq.
Qed.

Lemma save_simple_metadata_failure_keeps_original_witness :
  let r := save_simple_metadata Samples.tmp_full_env "/tmp" Fixtures.disk
             "/in/photo.jpg" Samples.form in
  fs r.2 !! "/in/photo.jpg" = fs Fixtures.disk !! "/in/photo.jpg" /\
  forall q, q <> simple_temp_path "/tmp" "/in/photo.jpg" ->
            fs r.2 !! q = fs Fixtures.disk !! q.
Proof.
  apply (save_simple_metadata_failure_keeps_original Samples.tmp_full_env
           "/tmp" Fixtures.disk _ "/in/photo.jpg" Samples.form (Failed "OSError")).
  - vm_compute. congruence.
  - reflexivity.
  - vm_compute. reflexivity.
  - congruence.
Defined.

Lemma strip_ascii_text v : ascii_text v -> ascii_text (strip v).
Proof.
  unfold ascii_text, strip. intros H.
  assert (forall s, Forall (fun c => (N_of_ascii c < 128)%N)
                      (list_ascii_of_string s) ->
                    Forall (fun c => (N_of_ascii c < 128)%N)
                      (list_ascii_of_string (lstrip s))) as Hl.
  { induction s as [|c s IH]; [done|]. intros Hs. cbn.
    destruct (isspace c); [|done]. inversion Hs; subst. by apply IH. }
  assert (forall s, Forall (fun c => (N_of_ascii c < 128)%N)
                      (list_ascii_of_string s) ->
                    Forall (fun c => (N_of_ascii c < 128)%N)
                      (list_ascii_of_string (rstrip s))) as Hr.
  { induction s as [|c s IH]; [done|]. intros Hs. inversion Hs; subst.
    cbn [rstrip]. specialize (IH ltac:(done)).
    destruct (rstrip s).
    - destruct (isspace c); [done|]. by repeat constructor.
    - by constructor. }
  by apply Hr, Hl.
Qed.

Lemma collect_simple_lookup (simple_fields : gmap string string) k :
  collect_simple simple_fields !! k = simple_fields !! k ≫= entered.
Proof. unfold collect_simple. apply lookup_omap. Qed.

(** What a successful save of a JPEG file leaves behind. *)
Lemma save_simple_metadata_saved (e : env) (temp_dir : string) (w w' : world)
    (path : string) (simple_fields : gmap string string) :
  is_jpeg path = true ->
  save_simple_metadata e temp_dir w path simple_fields = (Saved, w') ->
  exists image stored,
    fs w !! path = Some (Image image) /\
    fs w' !! path = Some (Image stored) /\
    fs w' !! simple_temp_path temp_dir path = None /\
    exif stored =
      Some (map_fold add_field (default ∅ (exif image))
                     (collect_simple simple_fields)).
Proof.
  intros Hjpeg Hsave.
  pose proof (simple_temp_path_differs temp_dir path) as Hne.
  unfold save_simple_metadata in Hsave.
  destruct (String.eqb path ""); [by simplify_eq|].
  unfold is_jpeg in Hjpeg. rewrite Hjpeg in Hsave.
  unfold copy2 in Hsave.
  destruct (fs w !! path) as [c|] eqn:Hc; [|by simplify_eq].
  destruct (String.eqb path _); [by simplify_eq|].
  destruct (write_fault e (simple_temp_path temp_dir path)) eqn:Hft;
    [by simplify_eq|].
  unfold image_open, set_file in Hsave; cbn [fs] in Hsave.
  rewrite lookup_insert_eq in Hsave.
  destruct c as [image|]; [|by simplify_eq].
  unfold save_simple_jpeg_metadata, image_save in Hsave.
  destruct (piexif_dump_ok e _); [|by simplify_eq].
  rewrite Hft in Hsave. unfold move, set_file, set_fs in Hsave.
  cbn [fs log] in Hsave. rewrite lookup_insert_eq in Hsave.
  destruct (write_fault e path); simplify_eq. cbn [fs].
  eexists image, _. split_and!; [done| | |].
  - rewrite lookup_delete_ne by done. by rewrite lookup_insert_eq.
  - by rewrite lookup_delete_eq.
  - cbn. by destruct (exif image).
Qed.

(** X2. A successful save of a JPEG file from the simple tab, read
    again by [load_simple_metadata]: each of the six fields that was not
    blank comes back as the stripped text that was entered, and the
    temporary copy is gone. *)
Theorem save_simple_metadata_then_load
    (e : env) (temp_dir : string) (w w' : world) (path : string)
    (simple_fields : gmap string string) :
  is_jpeg path = true ->
  (forall k v, simple_fields !! k = Some v -> ascii_text v) ->
  save_simple_metadata e temp_dir w path simple_fields = (Saved, w') ->
  fs w' !! simple_temp_path temp_dir path = None /\
  exists all_fields,
    load_simple_metadata w' path = Ok all_fields /\
    forall k v, k ∈ simple_standard_fields ->
      simple_fields !! k = Some v -> strip v <> "" ->
      all_fields !! k = Some (codepoints (strip v)).
Proof.
  intros Hjpeg Hascii Hsave.
  destruct (save_simple_metadata_saved _ _ _ _ _ _ Hjpeg Hsave)
    as (image & stored & Hold & Hnew & Htemp & Hexif).
  split; [done|].
  unfold load_simple_metadata, image_open. rewrite Hnew.
  eexists; split; [reflexivity|].
  intros k v Hk Hv Hblank.
  destruct (standard_field_tag k Hk) as (tag & enc & Hf & Ht).
  rewrite (read_tags_lookup _ _ tag k Ht).
  unfold getexif. rewrite Hexif, map_lookup_imap.
  rewrite (add_fields_lookup _ _ k tag enc Hf).
  rewrite collect_simple_lookup, Hv. cbn. unfold entered.
  destruct (String.eqb_spec (strip v) ""); [done|]. cbn.
  f_equal. eapply decode_encode_value_ascii; eauto.
  eapply strip_ascii_text, Hascii, Hv.
Qed.

Lemma save_simple_metadata_then_load_witness :
  let r := save_simple_metadata Fixtures.quiet_env "/tmp" Fixtures.disk
             "/in/photo.jpg" Samples.form in
  fs r.2 !! simple_temp_path "/tmp" "/in/photo.jpg" = None /\
  exists all_fields,
    load_simple_metadata r.2 "/in/photo.jpg" = Ok all_fields /\
    forall k v, k ∈ simple_standard_fields ->
      Samples.form !! k = Some v -> strip v <> "" ->
      all_fields !! k = Some (codepoints (strip v)).
Proof.
  apply (save_simple_metadata_then_load Fixtures.quiet_env "/tmp"
           Fixtures.disk _ "/in/photo.jpg" Samples.form).
  - reflexivity.
  - intros k v Hk. unfold Samples.form in Hk.
    apply lookup_insert_Some in Hk as [[_ <-]|[_ Hk]]; [repeat constructor|].
    apply lookup_insert_Some in Hk as [[_ <-]|[_ Hk]]; [repeat constructor|].
    apply lookup_singleton_Some in Hk as [_ <-]. repeat constructor.
  - vm_compute. reflexivity.
Defined.

(** X3. A field of the simple tab that is left blank, or that the form
    does not have, keeps the value stored in the JPEG file: after a
    successful save the reader returns for it what it returned before. *)
Theorem save_simple_metadata_blank_keeps_value
    (e : env) (temp_dir : string) (w w' : world) (path : string)
    (simple_fields : gmap string string) (k : string) :
  is_jpeg path = true ->
  save_simple_metadata e temp_dir w path simple_fields = (Saved, w') ->
  k ∈ simple_standard_fields ->
  simple_fields !! k ≫= entered = None ->
  exists before after,
    load_simple_metadata w path = Ok before /\
    load_simple_metadata w' path = Ok after /\
    after !! k = before !! k.
Proof.
  intros Hjpeg Hsave Hk Hblank.
  destruct (save_simple_metadata_saved _ _ _ _ _ _ Hjpeg Hsave)
    as (image & stored & Hold & Hnew & Htemp & Hexif).
  unfold load_simple_metadata, image_open. rewrite Hold, Hnew.
  eexists _, _; split_and!; [reflexivity..|].
  destruct (standard_field_tag k Hk) as (tag & enc & Hf & Ht).
  rewrite !(read_tags_lookup _ _ tag k Ht).
  unfold getexif. rewrite Hexif, !map_lookup_imap.
  rewrite (add_fields_lookup _ _ k tag enc Hf).
  rewrite collect_simple_lookup, Hblank.
  destruct (exif image) as [d|]; cbn; [by rewrite map_lookup_imap|].
  by rewrite !lookup_empty.
Qed.

Lemma save_simple_metadata_blank_keeps_value_witness :
  let r := save_simple_metadata Fixtures.quiet_env "/tmp" Fixtures.disk
             "/in/photo.jpg" {[ "Make" := " "; "Artist" := "Me" ]} in
  exists before after,
    load_simple_metadata Fixtures.disk "/in/photo.jpg" = Ok before /\
    load_simple_metadata r.2 "/in/photo.jpg" = Ok after /\
    after !! "Make" = before !! "Make".
Proof.
  apply (save_simple_metadata_blank_keeps_value Fixtures.quiet_env "/tmp"
           Fixtures.disk _ "/in/photo.jpg" {[ "Make" := " "; "Artist" := "Me" ]}).
  - reflexivity.
  - vm_compute. reflexivity.
  - unfold simple_standard_fields. set_solver.
  - reflexivity.
Defined.

End TemporaryCopy.

(** ** What a batch run writes *)

Section BatchRecord.
Import PyStr Codec Store Simple Re Parser Batch.

Lemma set_opt_ne key v (md : gmap string string) k :
  key <> k -> set_opt key v md !! k = md !! k.
Proof.
  intros H. unfold set_opt. destruct v; [|done]. by rewrite lookup_insert_ne.
Qed.

Ltac peel :=
  repeat match goal with
         | |- (<[?key := _]> _) !! ?k = _ =>
             rewrite (lookup_insert_ne _ key k) by congruence
         | |- (set_opt ?key ?v _) !! ?k = _ =>
             rewrite (set_opt_ne key v _ k) by congruence
         | |- (if ?c then _ else _) !! _ = _ => destruct c
         | |- (match ?x with _ => _ end) !! _ = _ => destruct x
         end.

(** The parser fills no field but its six. *)
Lemma parser_other_fields cfd r k :
  k ∉ ["Title"; "Description"; "Keywords"; "Artist"; "Make"; "Model"] ->
  _parse_ai_response_for_metadata cfd r !! k = None.
Proof.
  intros Hk.
  assert ("Title" <> k /\ "Description" <> k /\ "Keywords" <> k /\
          "Artist" <> k /\ "Make" <> k /\ "Model" <> k)
    as (H1 & H2 & H3 & H4 & H5 & H6).
  { split_and!; intros <-; apply Hk; by apply (bool_decide_unpack _). }
  unfold _parse_ai_response_for_metadata. cbv zeta.
  peel; apply lookup_empty.
Qed.

(** The description is decided by the first step of the parser. *)
Lemma parser_description cfd r :
  _parse_ai_response_for_metadata cfd r !! "Description"
  = match description_parts r with
    | [] => None
    | x :: l => Some (longest x l)
    end.
Proof.
  unfold _parse_ai_response_for_metadata. cbv zeta.
  peel; first [apply lookup_empty | apply lookup_insert_eq].
Qed.

(** The loop-free body of the batch JPEG writer in closed form. *)
Lemma direct_exif_lookup (md : gmap string string) (ifd : gmap N bytes)
    field tag enc :
  field_mapping field = Some (tag, enc) ->
  direct_exif md ifd !! tag
  = match md !! field with
    | Some v => Some (match enc with
                      | Utf16le => utf16le_encode v
                      | Utf8 => utf8_encode v
                      end)
    | None => ifd !! tag
    end.
Proof.
  intros Hf. unfold field_mapping in Hf.
  repeat match type of Hf with
         | context [String.eqb ?a ?b] =>
             destruct (String.eqb_spec a b); [subst|]
         end; simplify_eq;
    unfold direct_exif, set_if_present,
      XPTitle, ImageDescription, XPKeywords, Artist, Make, Model;
    repeat match goal with
           | |- context [md !! ?k] => destruct (md !! k)
           end;
    repeat (rewrite lookup_insert_ne by done);
    rewrite ?lookup_insert_eq; reflexivity.
Qed.

(** What a successful call of the batch JPEG writer leaves at the path. *)
Lemma jpeg_direct_saved (e : env) (w w' : world) (image_path : string)
    (md : gmap string string) :
  _save_jpeg_metadata_direct e w image_path md = (true, w') ->
  exists image ifd stored,
    fs w !! image_path = Some (Image image) /\
    (exif image = Some ifd \/
     exif image = None /\ piexif_load_empty e = Ok ifd) /\
    fs w' !! image_path = Some (Image stored) /\
    exif stored = Some (direct_exif md ifd).
Proof.
  unfold _save_jpeg_metadata_direct, image_open, image_save. intros H.
  destruct (fs w !! image_path) as [[image|]|] eqn:Hfs; try by simplify_eq.
  destruct (exif image) as [d|] eqn:Hexif.
  - destruct (piexif_dump_ok e _); [|by simplify_eq].
    destruct (write_fault e image_path); simplify_eq.
    eexists image, d, _.
    split_and!; [done|by left|cbn; by rewrite lookup_insert_eq|done].
  - destruct (piexif_load_empty e) as [d|] eqn:Hload; [|by simplify_eq].
    destruct (piexif_dump_ok e _); [|by simplify_eq].
    destruct (write_fault e image_path); simplify_eq.
    eexists image, d, _.
    split_and!; [done|by right|cbn; by rewrite lookup_insert_eq|done].
Qed.

(** What reaches the writer when one image of a batch succeeds. *)
Lemma single_image_saved (sv : services) (self : app) (w w' : world)
    (image_path : string) (rules : list rule) :
  _process_single_image_ai sv self w image_path rules = (true, w') ->
  exists response,
    response <> "" /\
    _save_metadata_to_file (store sv) (attrs self) w image_path
      (_parse_ai_response_for_metadata (current_filename_data self) response)
    = (true, w').
Proof.
  unfold _process_single_image_ai. intros H.
  destruct (read_image_data sv w image_path); [|by simplify_eq].
  destruct (vision_api sv _ _) as [response|]; [|by simplify_eq].
  destruct (String.eqb_spec response ""); [by simplify_eq|].
  destruct (decide _); [by simplify_eq|]. by exists response.
Qed.

Lemma save_metadata_to_file_jpeg (e : env) attrs (w : world) image_path md :
  Interactive.is_jpeg image_path = true ->
  _save_metadata_to_file e attrs w image_path md
  = _save_jpeg_metadata_direct e w image_path md.
Proof.
  unfold Interactive.is_jpeg, _save_metadata_to_file. by intros ->.
Qed.

(** X5. The record of the response parser names its fields Title,
    Description and Keywords, the batch JPEG writer looks for XPTitle,
    ImageDescription and XPKeywords: whenever the processing of one JPEG
    image of a batch succeeds, the title, description and keywords
    stored in the file are the ones it had before. *)
Theorem batch_image_keeps_title
    (sv : services) (self : app) (w w' : world) (image_path : string)
    (rules : list rule) (image : image_file) (ifd : gmap N bytes) :
  Interactive.is_jpeg image_path = true ->
  fs w !! image_path = Some (Image image) ->
  exif image = Some ifd ->
  _process_single_image_ai sv self w image_path rules = (true, w') ->
  exists stored ifd',
    fs w' !! image_path = Some (Image stored) /\
    exif stored = Some ifd' /\
    ifd' !! XPTitle = ifd !! XPTitle /\
    ifd' !! ImageDescription = ifd !! ImageDescription /\
    ifd' !! XPKeywords = ifd !! XPKeywords.
Proof.
  intros Hjpeg Hfile Hexif Hrun.
  apply single_image_saved in Hrun as (response & _ & Hsave).
  rewrite save_metadata_to_file_jpeg in Hsave by done.
  apply jpeg_direct_saved in Hsave
    as (image' & ifd0 & stored & Hfile' & Hifd & Hstored & Hnew).
  rewrite Hfile in Hfile'. simplify_eq.
  destruct Hifd as [Hifd|[Hifd _]]; [|congruence].
  rewrite Hexif in Hifd. simplify_eq.
  eexists stored, _. split_and!; [done|done|..].
  - rewrite (direct_exif_lookup _ _ "XPTitle" _ Utf16le eq_refl).
    rewrite parser_other_fields; [done|by apply (bool_decide_unpack _)].
  - rewrite (direct_exif_lookup _ _ "ImageDescription" _ Utf8 eq_refl).
    rewrite parser_other_fields; [done|by apply (bool_decide_unpack _)].
  - rewrite (direct_exif_lookup _ _ "XPKeywords" _ Utf16le eq_refl).
    rewrite parser_other_fields; [done|by apply (bool_decide_unpack _)].
Qed.

Lemma batch_image_keeps_title_witness :
  let r := _process_single_image_ai
             (Samples.answering ("Title: Modern Oak Kitchen" +:+ NL +:+ "Make: F032"))
             Fixtures.busy_app Fixtures.disk "/in/photo.jpg" [] in
  exists stored ifd',
    fs r.2 !! "/in/photo.jpg" = Some (Image stored) /\
    exif stored = Some ifd' /\
    ifd' !! XPTitle = (∅ : gmap N bytes) !! XPTitle /\
    ifd' !! ImageDescription = (∅ : gmap N bytes) !! ImageDescription /\
    ifd' !! XPKeywords = (∅ : gmap N bytes) !! XPKeywords.
Proof.
  intros r.
  destruct (batch_image_keeps_title
              (Samples.answering ("Title: Modern Oak Kitchen" +:+ NL +:+ "Make: F032"))
              Fixtures.busy_app Fixtures.disk r.2 "/in/photo.jpg" []
              Fixtures.photo {[ Make := utf8_encode "Canon" ]})
    as (stored & ifd' & H1 & H2 & H3 & H4 & H5).
  - reflexivity.
  - reflexivity.
  - reflexivity.
  - vm_compute. reflexivity.
  - exists stored, ifd'. split_and!; [done|done|..].
    + rewrite H3. reflexivity.
    + rewrite H4. reflexivity.
    + rewrite H5. reflexivity.
Defined.

(** X6. A record of ASCII texts written by the batch JPEG writer and
    read again by [load_simple_metadata] comes back unchanged on each of
    the six fields it holds, the title and the keywords too: the reader
    takes off the byte-order mark only when there is one. *)
Theorem jpeg_direct_then_load
    (e : env) (w w' : world) (image_path : string)
    (metadata_dict : gmap string string) :
  (forall k v, metadata_dict !! k = Some v -> ascii_text v) ->
  _save_jpeg_metadata_direct e w image_path metadata_dict = (true, w') ->
  exists all_fields,
    load_simple_metadata w' image_path = Ok all_fields /\
    forall k v, k ∈ simple_standard_fields ->
      metadata_dict !! k = Some v -> all_fields !! k = Some (codepoints v).
Proof.
  intros Hascii Hsave.
  apply jpeg_direct_saved in Hsave
    as (image & ifd & stored & _ & _ & Hstored & Hnew).
  unfold load_simple_metadata, image_open. rewrite Hstored.
  eexists; split; [reflexivity|].
  intros k v Hk Hv. specialize (Hascii k v Hv).
  destruct (standard_field_tag k Hk) as (tag & enc & Hf & Ht).
  rewrite (read_tags_lookup _ _ tag k Ht).
  unfold getexif. rewrite Hnew, map_lookup_imap.
  rewrite (direct_exif_lookup _ _ k tag enc Hf), Hv. cbn. f_equal.
  unfold field_mapping in Hf.
  repeat match type of Hf with
         | context [String.eqb ?a ?b] =>
             destruct (String.eqb_spec a b); [subst|]
         end; simplify_eq;
    unfold pil_value; cbn [ascii_typed N.eqb orb Pos.eqb decode_data].
  all: try (rewrite utf16le_encode_no_bom_ascii by done;
            by apply utf16le_decode_encode_ascii).
  all: rewrite utf8_encode_ascii by done;
       by rewrite latin1_decode_codepoints.
Qed.

Lemma jpeg_direct_then_load_witness :
  let metadata_dict : gmap string string :=
    {[ "XPTitle" := "Oak"; "Artist" := "Me" ]} in
  exists all_fields,
    load_simple_metadata
      (_save_jpeg_metadata_direct Fixtures.quiet_env Fixtures.disk
         "/in/photo.jpg" metadata_dict).2 "/in/photo.jpg"
      = Ok all_fields /\
    forall k v, k ∈ simple_standard_fields ->
      metadata_dict !! k = Some v -> all_fields !! k = Some (codepoints v).
Proof.
  intros metadata_dict.
  apply (jpeg_direct_then_load Fixtures.quiet_env Fixtures.disk _
           "/in/photo.jpg" metadata_dict).
  - intros k v Hk. subst metadata_dict.
    apply lookup_insert_Some in Hk as [[_ <-]|[_ Hk]].
    + repeat constructor.
    + apply lookup_singleton_Some in Hk as [_ <-]. repeat constructor.
  - reflexivity.
Defined.

Lemma longest_spec (l : list string) :
  forall best,
    longest best l ∈ best :: l /\
    forall x, x ∈ best :: l ->
      String.length x <= String.length (longest best l).
Proof.
  induction l as [|y l IH]; intros best; cbn [longest].
  - split; [left|]. by intros x ->%list_elem_of_singleton.
  - destruct (Nat.ltb_spec (String.length best) (String.length y)).
    + destruct (IH y) as [Hin Hmax]. split.
      * by right.
      * intros x [->|Hx]%elem_of_cons; [|by apply Hmax].
        specialize (Hmax y ltac:(left)). lia.
    + destruct (IH best) as [Hin Hmax]. split.
      * apply elem_of_cons in Hin as [->|Hin]; [left|right; by right].
      * intros x [->|[->|Hx]%elem_of_cons]%elem_of_cons.
        -- apply Hmax. left.
        -- specialize (Hmax best ltac:(left)). lia.
        -- apply Hmax. by right.
Qed.

(** X7. The description that the parser returns is a line of the
    response, stripped: one of more than 20 characters that does not
    start a heading, a bold run or a code fence, and no such line is
    longer. *)
Theorem parser_description_is_longest_line
    (cfd : option Context.filename_data) (r d : string) :
  _parse_ai_response_for_metadata cfd r !! "Description" = Some d ->
  (exists line, line ∈ split_char nl r /\ d = strip line) /\
  20 < String.length d /\
  startswith "**" d = false /\ startswith "###" d = false /\
  startswith "```" d = false /\
  forall line, line ∈ split_char nl r ->
    description_line (strip line) = true ->
    String.length (strip line) <= String.length d.
Proof.
  rewrite parser_description. intros H.
  destruct (description_parts r) as [|x l] eqn:Hparts; [done|].
  simplify_eq. destruct (longest_spec l x) as [Hin Hmax].
  assert (forall y, y ∈ x :: l <->
                    description_line y = true /\ y ∈ map strip (split_char nl r))
    as Hparts'.
  { intros y. rewrite <- Hparts. unfold description_parts.
    rewrite !list_elem_of_In, filter_In. tauto. }
  apply Hparts' in Hin as [Hline Hin].
  rewrite list_elem_of_In, in_map_iff in Hin.
  destruct Hin as (line & Hstrip & Hin%list_elem_of_In).
  split; [by exists line|].
  unfold description_line in Hline.
  repeat (apply andb_true_iff in Hline as [Hline ?]).
  split_and!; try by apply negb_true_iff.
  - by apply Nat.ltb_lt.
  - intros line' Hin' Hline'. apply Hmax, Hparts'. split; [done|].
    rewrite list_elem_of_In. apply in_map. by apply list_elem_of_In.
Qed.

Lemma parser_description_is_longest_line_witness :
  (exists line,
      line ∈ split_char nl ("Title: Modern Oak Kitchen" +:+ NL +:+ "Make: F032")
      /\ "Title: Modern Oak Kitchen" = strip line) /\
  20 < String.length "Title: Modern Oak Kitchen" /\
  startswith "**" "Title: Modern Oak Kitchen" = false /\
  startswith "###" "Title: Modern Oak Kitchen" = false /\
  startswith "```" "Title: Modern Oak Kitchen" = false /\
  forall line,
    line ∈ split_char nl ("Title: Modern Oak Kitchen" +:+ NL +:+ "Make: F032") ->
    description_line (strip line) = true ->
    String.length (strip line) <= String.length "Title: Modern Oak Kitchen".
Proof.
  apply (parser_description_is_longest_line None).
  vm_compute. reflexivity.
Defined.

(** A reply without field syntax, parsed on an instance that has
    [current_filename_data]: what [plain_record] takes from the text,
    then the code and the type of that file name. *)
Lemma parser_plain_with_context (fd : Context.filename_data) (r : string) :
  contains ":" r = false -> contains "=" r = false ->
  contains "<" r = false ->
  _parse_ai_response_for_metadata (Some fd) r
  = let metadata := plain_record r in
    let metadata :=
      if negb (String.eqb (Context.code fd) "")
      then <["Make" := Context.code fd]> metadata else metadata in
    if negb (String.eqb (Context.type fd) "")
    then <["Model" := Context.type fd]> metadata else metadata.
Proof.
  intros H1 H2 H3.
  pose proof (plain_text_chars r H1 H2 H3) as Hr.
  unfold _parse_ai_response_for_metadata, plain_record, extract.
  assert (forall pats, Forall (Exists (dead plain_char)) pats ->
                       first_match pats r = None) as Hf
    by (intros pats Hp; by apply first_match_dead).
  rewrite !(search_dead _ _ (structured_dead _) r Hr).
  rewrite (Hf [quoted "title"; title_element; quoted "name"])
    by (constructor; [apply quoted_dead|];
        constructor; [apply title_element_dead|];
        constructor; [apply quoted_dead|constructor]).
  rewrite (Hf [quoted "artist"; quoted "company"; quoted "brand"]),
    (Hf [quoted "make"; quoted "product code"; quoted "code"]),
    (Hf [quoted "model"; quoted "type"; quoted "product type"])
    by (repeat (constructor; [apply quoted_dead|]); constructor).
  cbn [set_opt].
  destruct (contains "title" (lower r) || contains "name" (lower r)),
    (keywords r), (description_parts r),
    (contains "egger" (lower r));
    unfold missing;
    repeat (rewrite ?lookup_insert_eq, ?lookup_empty;
            rewrite ?lookup_insert_ne by done);
    reflexivity.
Qed.

Lemma plain_record_no_make r :
  plain_record r !! "Make" = None.
Proof.
  unfold plain_record. cbv zeta. peel; apply lookup_empty.
Qed.

(** X8. In a batch run the parser falls back on the file name kept from
    the chat tab, not on the name of the image at hand: when the reply
    of the model has no colon, no equals sign and no [<], the Make tag
    stored in a JPEG image that was processed with success is the
    product code of [current_filename_data], whatever the path of the
    image. *)
Theorem batch_make_comes_from_chat_image
    (sv : services) (self : app) (w w' : world) (image_path : string)
    (rules : list rule) (image : image_file) (ifd : gmap N bytes)
    (fd : Context.filename_data) :
  Interactive.is_jpeg image_path = true ->
  fs w !! image_path = Some (Image image) ->
  exif image = Some ifd ->
  current_filename_data self = Some fd ->
  Context.code fd <> "" ->
  (forall image_data context r,
      vision_api sv image_data context = Some r ->
      contains ":" r = false /\ contains "=" r = false /\
      contains "<" r = false) ->
  _process_single_image_ai sv self w image_path rules = (true, w') ->
  exists stored ifd',
    fs w' !! image_path = Some (Image stored) /\
    exif stored = Some ifd' /\
    ifd' !! Make = Some (utf8_encode (Context.code fd)).
Proof.
  intros Hjpeg Hfile Hexif Hfd Hcode Hplain Hrun.
  assert (exists response,
             (contains ":" response = false /\ contains "=" response = false /\
              contains "<" response = false) /\
             _save_metadata_to_file (store sv) (attrs self) w image_path
               (_parse_ai_response_for_metadata (current_filename_data self)
                  response) = (true, w'))
    as (response & (H1 & H2 & H3) & Hsave).
  { unfold _process_single_image_ai in Hrun.
    destruct (read_image_data sv w image_path); [|by simplify_eq].
    destruct (vision_api sv _ _) as [response|] eqn:Hapi; [|by simplify_eq].
    destruct (String.eqb response ""); [by simplify_eq|].
    destruct (decide _); [by simplify_eq|].
    exists response. split; [by eapply Hplain|done]. }
  rewrite save_metadata_to_file_jpeg in Hsave by done.
  apply jpeg_direct_saved in Hsave
    as (image' & ifd0 & stored & Hfile' & _ & Hstored & Hnew).
  eexists stored, _. split_and!; [done|done|].
  rewrite (direct_exif_lookup _ _ "Make" _ Utf8 eq_refl).
  rewrite Hfd, parser_plain_with_context by done. cbv zeta.
  destruct (String.eqb_spec (Context.code fd) ""); [done|]. cbn [negb].
  destruct (negb (String.eqb (Context.type fd) ""));
    rewrite ?lookup_insert_ne by done; by rewrite lookup_insert_eq.
Qed.

Lemma batch_make_comes_from_chat_image_witness :
  let r := _process_single_image_ai
             (Samples.answering "A modern kitchen with granite worktop")
             Samples.chat_app Fixtures.disk "/in/photo.jpg" [] in
  exists stored ifd',
    fs r.2 !! "/in/photo.jpg" = Some (Image stored) /\
    exif stored = Some ifd' /\
    ifd' !! Make = Some (utf8_encode "F032").
Proof.
  intros r.
  apply (batch_make_comes_from_chat_image
           (Samples.answering "A modern kitchen with granite worktop")
           Samples.chat_app Fixtures.disk r.2 "/in/photo.jpg" []
           Fixtures.photo {[ Make := utf8_encode "Canon" ]}
           (Context.parse_filename_data
              "F032_ST78_Grey_Cascia_Granite_room_images_000.jpg")).
  - reflexivity.
  - reflexivity.
  - reflexivity.
  - reflexivity.
  - vm_compute. congruence.
  - intros image_data context r0 Hr0. cbn in Hr0. simplify_eq.
    split_and!; reflexivity.
  - vm_compute. reflexivity.
Defined.

End BatchRecord.

(** ** The files and the prompt of a batch run *)

Section BatchRun.
Import PyStr Codec Store Batch.

Lemma save_metadata_to_file_only_target (e : env) attrs (w : world)
    image_path md q :
  attrs !! "exiftool_path" = None -> q <> image_path ->
  fs (_save_metadata_to_file e attrs w image_path md).2 !! q = fs w !! q.
Proof.
  intros Hattr Hq. unfold _save_metadata_to_file.
  destruct (_ || _).
  - pose proof (jpeg_direct_other_paths e w image_path md) as H.
    apply (f_equal (lookup q)) in H. by rewrite !lookup_delete_ne in H.
  - destruct (String.eqb _ ".webp"); [|done].
    unfold _save_webp_metadata_direct, getattr. by rewrite Hattr.
Qed.

Lemma process_one_only_target (sv : services) (self : app) rules i
    image_path (w : world) q :
  attrs self !! "exiftool_path" = None -> q <> image_path ->
  fs (process_one sv self rules i image_path w).2 !! q = fs w !! q.
Proof.
  intros Hattr Hq. unfold process_one.
  destruct (tk_after sv i); [|done].
  destruct (_process_single_image_ai sv self w image_path rules)
    as [[] w1] eqn:Hone; cbn;
    apply (f_equal snd) in Hone; cbn in Hone; subst w1;
    unfold _process_single_image_ai;
    (destruct (read_image_data sv w image_path); [|done]);
    (destruct (vision_api sv _ _); [|done]);
    (destruct (String.eqb _ ""); [done|]);
    (destruct (decide _); [done|]);
    by apply save_metadata_to_file_only_target.
Qed.

(** The loop keeps every relation between worlds that each image keeps. *)
Lemma batch_loop_preserves (R : world -> world -> Prop)
    (sv : services) (self : app) (rules : list rule) :
  (forall w, R w w) ->
  (forall a b c, R a b -> R b c -> R a c) ->
  forall images,
    (forall i image_path w, image_path ∈ images ->
        R w (process_one sv self rules i image_path w).2) ->
    forall i c w, R w (batch_loop sv self rules i images c w).2.
Proof.
  intros Hrefl Htrans images. induction images as [|p rest IH];
    intros Hone i c w; cbn; [done|].
  pose proof (Hone i p w ltac:(left)) as Hp.
  destruct (process_one sv self rules i p w) as [[success counted] w1].
  eapply Htrans; [exact Hp|]. apply IH.
  intros j q w2 Hq. apply Hone. by right.
Qed.

(** X9. On an instance without the attribute [exiftool_path] a batch
    run leaves every file that is not in the list of images as it
    was. *)
Theorem batch_run_touches_only_listed_files
    (sv : services) (self : app) (w : world) (q : string) :
  attrs self !! "exiftool_path" = None ->
  q ∉ image_files self ->
  fs (_process_batch_ai_thread sv self w).2 !! q = fs w !! q.
Proof.
  intros Hattr Hq. unfold _process_batch_ai_thread.
  set (w0 := log_message (log_message w _) _).
  set (self0 := set_ai_processing true self).
  assert (fs (batch_loop sv self0 (_extract_chat_rules self0) 0
                (image_files self0)
                {| processed := 0; successful := 0; failed := 0 |} w0).2 !! q
          = fs w0 !! q) as H.
  { apply (batch_loop_preserves (fun a b => fs b !! q = fs a !! q)).
    - done.
    - intros a b c Hab Hbc. cbn in *. congruence.
    - intros i p w1 Hp. apply process_one_only_target; [done|].
      intros ->. by apply Hq. }
  destruct (batch_loop sv self0 _ 0 (image_files self0) _ w0) as [c w1].
  cbn in *. by destruct (tk_reset sv).
Qed.

Lemma batch_run_touches_only_listed_files_witness :
  fs (_process_batch_ai_thread
        (Samples.answering "A modern kitchen with granite worktop")
        Samples.chat_app Fixtures.disk).2 !! "/in/picture.webp"
  = fs Fixtures.disk !! "/in/picture.webp".
Proof.
  apply batch_run_touches_only_listed_files.
  - reflexivity.
  - by apply (bool_decide_unpack _).
Defined.





Lemma join_holds_member sep (l : list string) x :
  x ∈ l -> exists a b, join sep l = a +:+ x +:+ b.
Proof.
  induction l as [|y l IH]; [by intros ?%elem_of_nil|].
  intros [->|Hx]%elem_of_cons.
  - destruct l as [|z l].
    + exists "", "". cbn. by rewrite app_empty_l, app_empty_r.
    + exists "", (sep +:+ join sep (z :: l)). by rewrite app_empty_l.
  - destruct (IH Hx) as (a & b & Hab). destruct l as [|z l].
    + by apply elem_of_nil in Hx.
    + exists (y +:+ sep +:+ a), b.
      change (join sep (y :: z :: l)) with (y +:+ sep +:+ join sep (z :: l)).
      by rewrite Hab, !app_assoc_s.
Qed.

Lemma contains_inside sub x a b :
  contains sub x = true -> contains sub (a +:+ x +:+ b) = true.
Proof.
  intros H. induction a as [|c a IH].
  - rewrite app_empty_l. induction x as [|c x IHx].
    + cbn in H. rewrite orb_false_r in H.
      destruct sub; [|done]. apply contains_prefix, prefix_empty.
    + rewrite app_cons. cbn in H. apply orb_true_iff in H as [H|H].
      * apply contains_prefix.
        assert (forall p s t, String.prefix p s = true ->
                              String.prefix p (s +:+ t) = true) as Hp.
        { clear. induction p as [|a p IH]; intros s t H; [apply prefix_empty|].
          destruct s as [|c s]; [done|]. rewrite app_cons. cbn in *.
          destruct (ascii_dec a c); [|done]. by apply IH. }
        rewrite <- app_cons. by apply Hp.
      * cbn. rewrite (IHx H). apply orb_true_r.
  - rewrite app_cons. cbn. rewrite IH. apply orb_true_r.
Qed.

(** X11. Every message of the user that holds one of the rule words
    (rule, instruction, always, never, should, must, format) is part of
    the context that a batch run sends with each image, as a line item
    of the rules. *)
Theorem user_rule_reaches_prompt
    (self : app) (msg : chat_message) (filename : string)
    (filename_data : Context.filename_data) :
  msg ∈ chat_messages self ->
  sender msg = "user" ->
  existsb (fun keyword => contains keyword (lower (message msg)))
          rule_keywords = true ->
  contains ("- " +:+ message msg)
    (build_context filename filename_data (_extract_chat_rules self)) = true.
Proof.
  intros Hmsg Hsender Hword.
  set (rule := {| rule_type := "user_rule"; content := message msg |}).
  assert (rule ∈ _extract_chat_rules self) as Hrule.
  { unfold _extract_chat_rules. rewrite list_elem_of_In, in_flat_map.
    exists msg. split; [by apply list_elem_of_In|].
    unfold extract_rule. rewrite Hsender, Hword. by left. }
  assert (contains ("- " +:+ message msg)
            (_format_rules_for_ai (_extract_chat_rules self)) = true) as Hfmt.
  { unfold _format_rules_for_ai.
    destruct (_extract_chat_rules self) as [|r0 rs] eqn:Hrules;
      [by apply elem_of_nil in Hrule|].
    rewrite <- Hrules in *. clear Hrules r0 rs.
    destruct (join_holds_member NL
                (map (fun r => "- " +:+ content r) (_extract_chat_rules self))
                ("- " +:+ message msg)) as (a & b & ->).
    - rewrite list_elem_of_In, in_map_iff. exists rule.
      split; [done|by apply list_elem_of_In].
    - apply contains_app_intro. }
  unfold build_context.
  match goal with
  | |- contains _ (join NL ?l) = true =>
      destruct (join_holds_member NL l
                  (_format_rules_for_ai (_extract_chat_rules self)))
        as (a & b & ->)
  end.
  - do 9 (apply elem_of_cons; right). left.
  - by apply contains_inside.
Qed.

Lemma user_rule_reaches_prompt_witness :
  contains ("- " +:+ "Always use the product code as Make")
    (build_context "photo.jpg" (Context.parse_filename_data "photo.jpg")
       (_extract_chat_rules Fixtures.busy_app)) = true.
Proof.
  apply (user_rule_reaches_prompt Fixtures.busy_app
           {| sender := "user";
              message := "Always use the product code as Make" |}).
  - left.
  - reflexivity.
  - reflexivity.
Defined.

End BatchRun.

(** ** The folder of the chat tab *)

Section FolderImages.
Import PyStr Store Router Folder.

Lemma remove_dups_NoDup (l : list string) : NoDup l -> remove_dups l = l.
Proof.
  induction 1 as [|x l Hx Hl IH]; [done|]. cbn.
  destruct (decide_rel elem_of x l); [done|]. by rewrite IH.
Qed.

Lemma ascending_tail a l : ascending (a :: l) = true -> ascending l = true.
Proof.
  destruct l as [|b l]; [done|]. cbn. by intros [_ ?]%andb_true_iff.
Qed.

Lemma insert_sorted_head x l :
  ascending (x :: l) = true -> insert_sorted x l = x :: l.
Proof.
  destruct l as [|y l]; [done|]. cbn. by intros [-> _]%andb_true_iff.
Qed.

Lemma foldr_insert_sorted_ascending l :
  ascending l = true -> foldr insert_sorted [] l = l.
Proof.
  induction l as [|x l IH]; [done|]. intros H. cbn.
  rewrite IH by (by eapply ascending_tail). by apply insert_sorted_head.
Qed.

Lemma insert_sorted_ascending x l :
  ascending l = true -> ascending (insert_sorted x l) = true.
Proof.
  induction l as [|y l IH]; [done|]. intros Hl.
  cbn [insert_sorted]. destruct (String.leb x y) eqn:Hxy.
  - change (String.leb x y && ascending (y :: l) = true). by rewrite Hxy.
  - assert (String.leb y x = true) as Hyx.
    { destruct (String.leb_total x y) as [H|H]; [congruence|done]. }
    specialize (IH (ascending_tail _ _ Hl)).
    destruct l as [|z l].
    + cbn. by rewrite Hyx.
    + cbn [insert_sorted] in *. cbn in Hl.
      apply andb_true_iff in Hl as [Hyz Hl].
      destruct (String.leb x z).
      * change (String.leb y x && ascending (x :: z :: l) = true).
        by rewrite Hyx.
      * change (String.leb y z && ascending (z :: insert_sorted x l) = true).
        by rewrite Hyz.
Qed.

Lemma sorted_unique_ascending l : ascending (sorted_unique l) = true.
Proof.
  unfold sorted_unique. induction (remove_dups l) as [|x r IH]; [done|].
  cbn. by apply insert_sorted_ascending.
Qed.

Lemma sorted_unique_fixed l :
  NoDup l -> ascending l = true -> sorted_unique l = l.
Proof.
  intros Hn Ha. unfold sorted_unique. rewrite remove_dups_NoDup by done.
  by apply foldr_insert_sorted_ascending.
Qed.

(** X12. The list that [_load_images_from_folder] returns has no path
    twice and is in ascending order, whatever the patterns match; it
    holds exactly the paths that some pattern matched; and the folder
    tool, which sorts and deduplicates again, lists it in the same
    order, so its numbering is that of the list. *)
Theorem loaded_images_are_sorted_and_distinct
    (glob : string -> string -> result (list string)) (w : world)
    (folder_path : string) :
  let image_files := (_load_images_from_folder glob w folder_path).1 in
  NoDup image_files /\
  ascending image_files = true /\
  sorted_unique image_files = image_files /\
  (forall matched,
      glob_extensions (glob folder_path) image_extensions = Ok matched ->
      forall p, p ∈ image_files <-> p ∈ matched).
Proof.
  unfold _load_images_from_folder.
  destruct (glob_extensions _ _) as [matched|exc]; cbn.
  - split_and!.
    + apply sorted_unique_NoDup.
    + apply sorted_unique_ascending.
    + apply sorted_unique_fixed;
        [apply sorted_unique_NoDup|apply sorted_unique_ascending].
    + intros matched' Heq p. simplify_eq. apply sorted_unique_elem.
  - split_and!; [constructor|done|done|done].
Qed.

Lemma loaded_images_are_sorted_and_distinct_witness :
  let image_files :=
    (_load_images_from_folder Shelf.folded_glob Fixtures.disk "/k").1 in
  image_files = ["/k/a.jpg"; "/k/b.jpg"] /\
  NoDup image_files /\ sorted_unique image_files = image_files.
Proof.
  destruct (loaded_images_are_sorted_and_distinct Shelf.folded_glob
              Fixtures.disk "/k") as (H1 & _ & H3 & _).
  split; [reflexivity|]. split; [exact H1|exact H3].
Defined.

End FolderImages.

(** ** The folder tools *)

Section FolderTools.
Import PyStr Router Navigation.
Variable fl : float_ops.

Lemma press_keeps_images (ts : tool_state fl) b :
  chat_folder_images (press fl ts b) = chat_folder_images ts.
Proof.
  destruct b; cbn; unfold previous_chat_image, next_chat_image;
    destruct (chat_folder_images ts) eqn:E; try done;
    match goal with |- context [if ?c then _ else _] => destruct c end;
    done.
Qed.

Lemma press_keeps_index_valid (ts : tool_state fl) b :
  chat_current_image_index ts < length (chat_folder_images ts) ->
  chat_current_image_index (press fl ts b)
  < length (chat_folder_images (press fl ts b)).
Proof.
  intros H. rewrite press_keeps_images.
  destruct b; cbn; unfold previous_chat_image, next_chat_image;
    destruct (chat_folder_images ts) eqn:E; try done.
  - destruct (Nat.ltb_spec 0 (chat_current_image_index ts)); cbn in *;
      [lia|done].
  - destruct (Nat.ltb_spec (chat_current_image_index ts)
                (length (s :: l) - 1)); cbn in *; [lia|done].
Qed.

Lemma presses_keep_index_valid (presses : list button) :
  forall ts : tool_state fl,
    chat_current_image_index ts < length (chat_folder_images ts) ->
    chat_folder_images (foldl (press fl) ts presses) = chat_folder_images ts /\
    chat_current_image_index (foldl (press fl) ts presses)
    < length (chat_folder_images ts).
Proof.
  induction presses as [|b presses IH]; intros ts H; [done|]. cbn.
  destruct (IH (press fl ts b) (press_keeps_index_valid ts b H)) as [H1 H2].
  rewrite press_keeps_images in H1, H2. done.
Qed.

Lemma image_info_in_range (ts : tool_state fl) (i : nat) :
  i < length (chat_folder_images ts) ->
  startswith "Invalid image index"
    (_tool_get_image_info fl ts [("index", Z.of_nat (i + 1))]) = false.
Proof.
  intros Hi. unfold _tool_get_image_info.
  destruct (chat_folder_images ts) as [|p ps] eqn:E; [done|].
  rewrite <- E in *. clear E p ps.
  unfold get_index. cbn [List.find fst snd String.eqb Ascii.eqb Bool.eqb].
  cbn -[Z.of_nat nth length].
  replace (Z.of_nat (i + 1) - 1)%Z with (Z.of_nat i) by lia.
  destruct (Z.leb_spec 0 (Z.of_nat i)); [|lia].
  destruct (Z.ltb_spec (Z.of_nat i)
              (Z.of_nat (length (chat_folder_images ts)))); [|lia].
  cbn [andb]. destruct (getsize_kb ts _); by rewrite !app_cons.
Qed.

(** X13. However the previous and next buttons are pressed after a
    folder with at least one image was selected, the images stay the
    same, the index of the current image stays inside the list, the
    counter shows a position between 1 and the number of images, and the
    tool [get_current_image] never answers that the index is invalid. *)
Theorem navigation_keeps_current_image_valid
    (ts : tool_state fl) (folder : string) (loaded : list string)
    (presses : list button) :
  loaded <> [] ->
  let ts' := foldl (press fl) (select_chat_folder fl ts folder loaded)
                   presses in
  chat_folder_images ts' = loaded /\
  chat_current_image_index ts' < length loaded /\
  update_chat_image_counter fl ts'
  = "Image " +:+ str_of_nat (chat_current_image_index ts' + 1) +:+ " of "
    +:+ str_of_nat (length loaded) /\
  startswith "Invalid image index" (_tool_get_current_image fl ts') = false.
Proof.
  intros Hne ts'.
  destruct (presses_keep_index_valid presses
              (select_chat_folder fl ts folder loaded)) as [H1 H2].
  { cbn. destruct loaded; [done|cbn; lia]. }
  fold ts' in H1, H2. cbn in H1, H2. split_and!; [done|done|..].
  - unfold update_chat_image_counter. rewrite H1.
    by destruct loaded.
  - unfold _tool_get_current_image. rewrite H1.
    destruct loaded as [|p ps] eqn:E; [done|]. rewrite <- E in *.
    apply image_info_in_range. by rewrite H1.
Qed.

(** X14. With a folder loaded, [get_image_info] answers an index below
    1 or above the number of images with the message that names the
    valid range, and so does [get_current_image] when the current index
    is past the end of the list; no file is looked at. *)
Theorem image_info_rejects_bad_index
    (ts : tool_state fl) (args : list (string * Z)) :
  chat_folder_images ts <> [] ->
  ((get_index args < 1)%Z \/
   (Z.of_nat (length (chat_folder_images ts)) < get_index args)%Z ->
   _tool_get_image_info fl ts args
   = "Invalid image index. Available range: 1-"
     +:+ str_of_nat (length (chat_folder_images ts))) /\
  (length (chat_folder_images ts) <= chat_current_image_index ts ->
   _tool_get_current_image fl ts
   = "Invalid image index. Available range: 1-"
     +:+ str_of_nat (length (chat_folder_images ts))).
Proof.
  intros Hne.
  assert (forall args,
             (get_index args < 1)%Z \/
             (Z.of_nat (length (chat_folder_images ts)) < get_index args)%Z ->
             _tool_get_image_info fl ts args
             = "Invalid image index. Available range: 1-"
               +:+ str_of_nat (length (chat_folder_images ts))) as Hinfo.
  { intros args' Hrange. unfold _tool_get_image_info.
    destruct (chat_folder_images ts) as [|p ps] eqn:E; [done|].
    rewrite <- E in *. clear E p ps.
    destruct (Z.leb_spec 0 (get_index args' - 1));
      destruct (Z.ltb_spec (get_index args' - 1)
                  (Z.of_nat (length (chat_folder_images ts))));
      cbn [andb]; try done; lia. }
  split; [apply Hinfo|].
  intros Hidx. unfold _tool_get_current_image.
  destruct (chat_folder_images ts) as [|p ps] eqn:E; [done|].
  rewrite <- E in *. apply Hinfo. right.
  unfold get_index. cbn [List.find fst snd String.eqb Ascii.eqb Bool.eqb].
  cbn -[Z.of_nat length]. lia.
Qed.

End FolderTools.

Section FolderToolsExamples.
Import PyStr Router Navigation Fixtures.

Lemma navigation_keeps_current_image_valid_witness :
  let ts' := foldl (press tenths)
               (select_chat_folder tenths sized_folder "/k"
                  ["/k/a.jpg"; "/k/b.jpg"; "/k/c.webp"])
               [Next; Next; Next; Previous] in
  chat_folder_images ts' = ["/k/a.jpg"; "/k/b.jpg"; "/k/c.webp"] /\
  chat_current_image_index ts' < 3 /\
  update_chat_image_counter tenths ts'
  = "Image " +:+ str_of_nat (chat_current_image_index ts' + 1) +:+ " of "
    +:+ str_of_nat 3 /\
  startswith "Invalid image index" (_tool_get_current_image tenths ts') = false.
Proof.
  apply (navigation_keeps_current_image_valid tenths sized_folder "/k"
           ["/k/a.jpg"; "/k/b.jpg"; "/k/c.webp"]
           [Next; Next; Next; Previous]).
  done.
Defined.

Lemma image_info_rejects_bad_index_witness :
  _tool_get_image_info tenths sized_folder [("index", 4%Z)]
  = "Invalid image index. Available range: 1-3".
Proof.
  destruct (image_info_rejects_bad_index tenths sized_folder
              [("index", 4%Z)]) as [H _]; [done|].
  etrans; [apply H; right; reflexivity|]. reflexivity.
Defined.

End FolderToolsExamples.

(** ** Repeated tool calls and the count of a folder *)

Section ToolCalls.
Import PyStr Router.
Variable fl : float_ops.

Lemma existsb_same_call key (executed : list (string * list (string * Z))) :
  existsb (same_call key) executed = true <-> key ∈ executed.
Proof.
  rewrite existsb_exists. unfold same_call. split.
  - intros (x & Hx%list_elem_of_In & Heq%bool_decide_eq_true). by subst.
  - intros H. exists key. split; [by apply list_elem_of_In|].
    by apply bool_decide_eq_true.
Qed.

(** Calls that repeat what has run, or what runs before them in the
    same reply, add nothing. *)
Lemma run_tool_calls_repeats (ts : tool_state fl) (b : list tool_call) :
  forall (a : list tool_call) executed messages,
    (forall tc, tc ∈ b ->
        (exists args, arguments tc = Ok args /\
                      (function_name tc, args) ∈ executed) \/
        (exists tc', tc' ∈ a /\ function_name tc' = function_name tc /\
                     arguments tc' = arguments tc)) ->
    run_tool_calls fl ts (a ++ b) executed messages
    = run_tool_calls fl ts a executed messages.
Proof.
  induction a as [|tc0 a IH]; intros executed messages H.
  - cbn. induction b as [|tc b IHb]; [done|]. cbn.
    destruct (H tc ltac:(left)) as [(args & Hargs & Hin)|(tc' & Hin & _)];
      [|by apply elem_of_nil in Hin].
    rewrite Hargs. apply existsb_same_call in Hin. rewrite Hin.
    apply IHb. intros tc1 Htc1. apply H. by right.
  - cbn. destruct (arguments tc0) as [args0|] eqn:Hargs0; [|done].
    destruct (existsb _ executed) eqn:Hex.
    + apply IH. intros tc Htc.
      destruct (H tc Htc) as [Hdone|(tc' & Hin & Hname & Hargs)];
        [by left|].
      apply elem_of_cons in Hin as [->|Hin]; [|right; by exists tc'].
      left. exists args0. split; [congruence|].
      rewrite <- Hname. by apply existsb_same_call.
    + apply IH. intros tc Htc.
      destruct (H tc Htc) as [(args & Ha & Hin)|(tc' & Hin & Hname & Hargs)].
      * left. exists args. split; [done|]. by right.
      * apply elem_of_cons in Hin as [->|Hin]; [|right; by exists tc'].
        left. exists args0. split; [congruence|]. rewrite <- Hname. left.
Qed.

(** X16. A question that asks for the count, and holds none of the
    words that the router tests before it, is answered from the report
    of the folder tool with the number of distinct paths of the
    folder. *)
Theorem count_question_counts_distinct_files
    (ts : tool_state fl) (question report : string) :
  chat_folder_images ts <> [] ->
  _tool_list_folder_contents fl ts = Ok report ->
  contains NL (chat_folder_path_str ts) = false ->
  (forall x, contains NL (format_1f fl x) = false) ->
  Forall (fun p => plain_name (PyPath.basename p) = true)
         (chat_folder_images ts) ->
  contains "duplicate" (lower question) = false ->
  contains "largest" (lower question)
    || contains "biggest" (lower question) = false ->
  contains "smallest" (lower question) = false ->
  contains "list" (lower question)
    || contains "files" (lower question) = false ->
  contains "count" (lower question)
    || contains "how many" (lower question) = true ->
  exists folder,
    _analyze_tool_results_and_respond fl question [report]
    = "The '" +:+ folder +:+ "' folder contains "
      +:+ str_of_nat (length (sorted_unique (chat_folder_images ts)))
      +:+ " files.".
Proof.
  intros Himg Hrep Hfolder Hfmt Hplain H1 H2 H3 H4 H5.
  destruct (folder_report_parses fl ts report Himg Hrep Hfolder Hfmt Hplain)
    as (folder & es & Hfind & Hparse & _).
  exists folder. unfold _analyze_tool_results_and_respond.
  rewrite Hfind, Hparse. unfold route. rewrite H1, H2, H3, H4, H5.
  unfold count_answer. cbn [folder_name total_files].
  by rewrite str_of_int_of_nat.
Qed.

End ToolCalls.

Section ToolCallsExamples.
Import PyStr Router Fixtures.

Lemma count_question_counts_distinct_files_witness :
  exists folder,
    _analyze_tool_results_and_respond tenths "Please count them"
      [_execute_tool tenths sized_folder "list_folder_contents" []]
    = "The '" +:+ folder +:+ "' folder contains " +:+ str_of_nat 3
      +:+ " files.".
Proof.
  apply (count_question_counts_distinct_files tenths sized_folder
           "Please count them").
  - done.
  - reflexivity.
  - reflexivity.
  - apply tenths_format_no_newline.
  - repeat constructor.
  - reflexivity.
  - reflexivity.
  - reflexivity.
  - reflexivity.
  - reflexivity.
Defined.

End ToolCallsExamples.

(** ** The fields that the reader returns *)

Section ReaderFields.
Import Codec Store Simple.

Lemma TAGS_standard tag name :
  TAGS tag = Some name -> name ∈ simple_standard_fields.
Proof.
  unfold TAGS. intros H.
  repeat match type of H with
         | context [N.eqb ?a ?b] => destruct (N.eqb a b)
         end; simplify_eq; by apply (bool_decide_unpack _).
Qed.

Lemma empty_fields_standard k :
  is_Some (empty_fields !! k) -> k ∈ simple_standard_fields.
Proof.
  intros [v Hv]. unfold empty_fields in Hv. cbn in Hv.
  repeat (apply lookup_insert_Some in Hv as [[<- _]|[_ Hv]];
          [by apply (bool_decide_unpack _)|]).
  by rewrite lookup_empty in Hv.
Qed.

End ReaderFields.

(** ** The size of a compressed image *)

Section TargetSize.
Import Resize.

(** X18. An image that is within the limits that are set keeps its
    size: [calculate_new_size] never enlarges, and it needs no float
    arithmetic to say so.  With a limit set, an image of height 0 makes
    it raise. *)
Theorem calculate_new_size_within_limits
    (ops : ratio_ops) (max_width max_height width height : Z) :
  ((max_width = 0 \/ width <= max_width)%Z ->
   (max_height = 0 \/ height <= max_height)%Z ->
   (height <> 0 \/ max_width = 0 /\ max_height = 0)%Z ->
   calculate_new_size ops max_width max_height width height
   = Ok (width, height)) /\
  (height = 0%Z -> (max_width <> 0 \/ max_height <> 0)%Z ->
   calculate_new_size ops max_width max_height width height
   = Raise "ZeroDivisionError").
Proof.
  unfold calculate_new_size. split.
  - intros Hw Hh Hz.
    destruct (Z.eqb_spec max_width 0), (Z.eqb_spec max_height 0);
      cbn [andb negb]; try done;
      (destruct (Z.eqb_spec height 0); [lia|]);
      repeat match goal with
             | |- context [(?a <? ?b)%Z] => destruct (Z.ltb_spec a b); [lia|]
             end; done.
  - intros -> Hlim.
    destruct (Z.eqb_spec max_width 0), (Z.eqb_spec max_height 0);
      cbn [andb]; try done; lia.
Qed.

Lemma calculate_new_size_within_limits_witness :
  calculate_new_size Shelf.exact 1920 1080 800 600 = Ok (800, 600)%Z.
Proof.
  apply (calculate_new_size_within_limits Shelf.exact 1920 1080 800 600);
    [right|right|left]; lia.
Defined.

End TargetSize.

(** ** The main tab: cleaning up after a failed save *)

Section MainTabCleanup.
Import PyStr Codec Store Simple Interactive.

Lemma remove_if_exists_lookup removable (w : world) path :
  removable path = true ->
  fs (remove_if_exists removable w path) !! path = None.
Proof.
  intros H. unfold remove_if_exists. rewrite H. cbn. apply lookup_delete_eq.
Qed.

Lemma remove_if_exists_other removable (w : world) path q :
  q <> path -> fs (remove_if_exists removable w path) !! q = fs w !! q.
Proof.
  intros H. unfold remove_if_exists. destruct (removable path); [|done].
  cbn. by apply lookup_delete_ne.
Qed.

(** X4. A save from the main tab that ends in the error dialog has
    tried to remove the temporary copy: where the removal goes through,
    no temporary copy is left (where it does not, the failure is
    swallowed and the copy stays); and, when the file is not a WebP file
    and the final replacement is not interrupted, the selected file is as
    it was, whether the copy could be removed or not. *)
Theorem save_metadata_failure_cleans_up
    (e : env) (temp_dir : string) (config : result unit)
    (removable : string -> bool) (w w' : world)
    (path : string) (metadata_fields : gmap string string) (exc : string) :
  save_metadata e temp_dir config removable w path metadata_fields
  = (Failed exc, w') ->
  (removable (main_temp_path temp_dir path) = true ->
   fs w' !! main_temp_path temp_dir path = None) /\
  (lower (PyPath.suffix path) <> ".webp" -> write_fault e path = None ->
   fs w' !! path = fs w !! path).
Proof.
  intros Hsave.
  pose proof (main_temp_path_differs temp_dir path) as Hne.
  assert (path <> main_temp_path temp_dir path) as Hne' by done.
  unfold save_metadata in Hsave.
  destruct (String.eqb path ""); [by simplify_eq|].
  destruct (copy2 e w path _) as [[[]|exc1] w1] eqn:Hcopy.
  2:{ simplify_eq. split; [apply remove_if_exists_lookup|]. intros _ _.
      rewrite remove_if_exists_other by done. by eapply copy2_only_target. }
  pose proof (copy2_only_target _ _ _ _ _ _ path Hcopy Hne') as H1.
  destruct (image_open w1 _) as [image|exc1].
  2:{ simplify_eq. split; [apply remove_if_exists_lookup|]. intros _ _.
      by rewrite remove_if_exists_other. }
  destruct config as [[]|exc1].
  2:{ simplify_eq. split; [apply remove_if_exists_lookup|]. intros _ _.
      by rewrite remove_if_exists_other. }
  destruct (String.eqb (lower (PyPath.suffix path)) ".jpg"
            || String.eqb (lower (PyPath.suffix path)) ".jpeg").
  - destruct (save_simple_jpeg_metadata e w1 image _ _) as [[[]|exc1] w2] eqn:Hw.
    + unfold move in Hsave.
      destruct (fs w2 !! _).
      * destruct (write_fault e path) eqn:Hf; simplify_eq.
        split; [apply remove_if_exists_lookup|]. done.
      * simplify_eq. split; [apply remove_if_exists_lookup|]. intros _ _.
        rewrite remove_if_exists_other by done.
        rewrite <- H1. by eapply jpeg_write_only_target.
    + simplify_eq. split; [apply remove_if_exists_lookup|]. intros _ _.
      rewrite remove_if_exists_other by done.
      rewrite <- H1. by eapply jpeg_write_only_target.
  - destruct (String.eqb_spec (lower (PyPath.suffix path)) ".webp") as [Heq|Hneq].
    + destruct (save_simple_webp_metadata e w1 _ _) as [[[]|exc1] w2] eqn:Hw.
      * destruct (move e w2 _ path) as [[[]|exc2] w3]; simplify_eq.
        split; [apply remove_if_exists_lookup|]. done.
      * simplify_eq. split; [apply remove_if_exists_lookup|]. done.
    + by simplify_eq.
Qed.

Lemma save_metadata_failure_cleans_up_witness :
  let r := save_metadata Samples.tmp_full_env "/tmp" (Ok tt) (fun _ => true)
             Fixtures.disk "/in/photo.jpg" Samples.form in
  let held := save_metadata Samples.tmp_full_env "/tmp" (Ok tt)
                (fun _ => false) Fixtures.disk "/in/photo.jpg" Samples.form in
  fs r.2 !! main_temp_path "/tmp" "/in/photo.jpg" = None /\
  fs r.2 !! "/in/photo.jpg" = fs Fixtures.disk !! "/in/photo.jpg" /\
  fs held.2 !! main_temp_path "/tmp" "/in/photo.jpg" = Some (Junk []) /\
  fs held.2 !! "/in/photo.jpg" = fs Fixtures.disk !! "/in/photo.jpg".
Proof.
  intros r held.
  destruct (save_metadata_failure_cleans_up Samples.tmp_full_env "/tmp"
              (Ok tt) (fun _ => true) Fixtures.disk r.2 "/in/photo.jpg"
              Samples.form "OSError") as [H1 H2].
  { vm_compute. reflexivity. }
  destruct (save_metadata_failure_cleans_up Samples.tmp_full_env "/tmp"
              (Ok tt) (fun _ => false) Fixtures.disk held.2 "/in/photo.jpg"
              Samples.form "OSError") as [_ H3].
  { vm_compute. reflexivity. }
  split_and!.
  - by apply H1.
  - apply H2; [vm_compute; congruence|reflexivity].
  - vm_compute. reflexivity.
  - apply H3; [vm_compute; congruence|reflexivity].
Defined.

End MainTabCleanup.

(** ** Repeated tool calls *)

Section RepeatedCalls.
Import PyStr Router.
Variable fl : float_ops.

(** A call that repeats what has run, or what runs before it in the
    same reply, adds nothing, wherever it stands. *)
Lemma run_tool_calls_skips (ts : tool_state fl) (tc : tool_call)
    (b : list tool_call) :
  forall (a : list tool_call) executed messages,
    (exists args, arguments tc = Ok args /\
                  (function_name tc, args) ∈ executed) \/
    (exists tc', tc' ∈ a /\ function_name tc' = function_name tc /\
                 arguments tc' = arguments tc) ->
    run_tool_calls fl ts (a ++ tc :: b) executed messages
    = run_tool_calls fl ts (a ++ b) executed messages.
Proof.
  induction a as [|tc0 a IH]; intros executed messages H.
  - destruct H as [(args & Hargs & Hin)|(tc' & Hin & _)];
      [|by apply elem_of_nil in Hin].
    cbn. rewrite Hargs. apply existsb_same_call in Hin. by rewrite Hin.
  - cbn. destruct (arguments tc0) as [args0|] eqn:Hargs0; [|done].
    destruct (existsb _ executed) eqn:Hex.
    + apply IH.
      destruct H as [Hdone|(tc' & Hin & Hname & Hargs)]; [by left|].
      apply elem_of_cons in Hin as [->|Hin]; [|right; by exists tc'].
      left. exists args0. split; [congruence|].
      rewrite <- Hname. by apply existsb_same_call.
    + apply IH.
      destruct H as [(args & Ha & Hin)|(tc' & Hin & Hname & Hargs)].
      * left. exists args. split; [done|]. by right.
      * apply elem_of_cons in Hin as [->|Hin]; [|right; by exists tc'].
        left. exists args0. split; [congruence|]. rewrite <- Hname. left.
Qed.

(** X15. A tool call that repeats an earlier call of the same reply,
    with the same function and the same arguments, is not run again,
    wherever it stands in the reply and whatever follows it: the answer
    of [_process_tool_calls] is that of the reply without it. *)
Theorem repeated_tool_calls_run_once
    (ts : tool_state fl) (a b : list tool_call) (tc : tool_call)
    (messages : list chat_entry) :
  (exists tc', tc' ∈ a /\ function_name tc' = function_name tc /\
               arguments tc' = arguments tc) ->
  _process_tool_calls fl ts (a ++ tc :: b) messages
  = _process_tool_calls fl ts (a ++ b) messages.
Proof.
  intros H. unfold _process_tool_calls.
  rewrite run_tool_calls_skips; [done|]. by right.
Qed.

End RepeatedCalls.

Section RepeatedCallsExamples.
Import PyStr Router Fixtures.

Lemma repeated_tool_calls_run_once_witness :
  _process_tool_calls tenths sized_folder
    ([list_call]
     ++ {| call_id := "call_2"; function_name := "list_folder_contents";
           arguments := Ok [] |}
     :: [{| call_id := "call_3"; function_name := "get_image_info";
            arguments := Ok [("index", 2%Z)] |}])
    (conversation "Which is the largest?")
  = _process_tool_calls tenths sized_folder
      ([list_call]
       ++ [{| call_id := "call_3"; function_name := "get_image_info";
              arguments := Ok [("index", 2%Z)] |}])
      (conversation "Which is the largest?").
Proof.
  apply (repeated_tool_calls_run_once tenths sized_folder).
  exists list_call. split; [left|done].
Defined.

End RepeatedCallsExamples.

(** ** All the fields of the reader *)

Section ReaderAllFields.
Import PyStr Codec Store Simple.

Lemma standard_not_info k :
  k ∈ simple_standard_fields -> startswith "INFO_" k = false.
Proof.
  unfold simple_standard_fields. rewrite !elem_of_cons, elem_of_nil.
  intros H; repeat destruct H as [->|H]; done.
Qed.

Lemma info_key_prefix x : startswith "INFO_" ("INFO_" +:+ x) = true.
Proof. apply prefix_app. Qed.

(** The loop over [image.info] touches no field whose name does not
    begin with [INFO_], and adds only fields whose name does. *)
Lemma add_info_fields (items : list (string * pytext)) :
  forall (m : gmap string pytext) k,
    (startswith "INFO_" k = false ->
     foldl Reader.add_info m items !! k = m !! k) /\
    (is_Some (foldl Reader.add_info m items !! k) ->
     is_Some (m !! k) \/ startswith "INFO_" k = true).
Proof.
  induction items as [|item items IH]; intros m k; [by split; [|left]|].
  cbn [foldl]. destruct (IH (Reader.add_info m item) k) as [IH1 IH2].
  assert (forall j, j <> "INFO_" +:+ item.1 ->
                    Reader.add_info m item !! j = m !! j) as Hother.
  { intros j Hj. unfold Reader.add_info.
    destruct (m !! item.1); [done|]. by rewrite lookup_insert_ne. }
  split.
  - intros Hk. rewrite IH1 by done. apply Hother.
    intros ->. by rewrite info_key_prefix in Hk.
  - intros [H|H]%IH2; [|by right].
    destruct (decide (k = "INFO_" +:+ item.1)) as [->|Hne].
    + right. apply info_key_prefix.
    + left. by rewrite Hother in H.
Qed.

Lemma read_tags_standard (x : gmap N exif_value) k :
  is_Some (map_fold read_tag empty_fields x !! k) ->
  k ∈ simple_standard_fields.
Proof.
  revert k.
  apply (map_fold_weak_ind
           (fun r (m : gmap N exif_value) =>
              forall k, is_Some (r !! k) -> k ∈ simple_standard_fields)).
  - apply empty_fields_standard.
  - intros tag d m r _ IH k. unfold read_tag.
    destruct (TAGS tag) as [name|] eqn:Ht; [|apply IH].
    intros [<-|[_ Hk]]%lookup_insert_is_Some; [|by apply IH].
    by eapply TAGS_standard.
Qed.

(** X17. Whatever tags and whatever entries of [image.info] the file
    holds, a file that opens is read with each of the six standard
    fields present, with the value that the six-field reader gives it
    (the empty text when the file has no EXIF block), and every other
    field that the reader creates has a name that begins with
    [INFO_]. *)
Theorem load_simple_metadata_fields
    (image_info : image_file -> list (string * pytext))
    (w : world) (path : string) (all_fields : gmap string pytext) :
  Reader.load_simple_metadata image_info w path = Ok all_fields ->
  (forall k, k ∈ simple_standard_fields -> is_Some (all_fields !! k)) /\
  (forall k, is_Some (all_fields !! k) ->
     k ∈ simple_standard_fields \/ startswith "INFO_" k = true) /\
  (exists six,
      load_simple_metadata w path = Ok six /\
      forall k, k ∈ simple_standard_fields -> all_fields !! k = six !! k) /\
  (forall image, fs w !! path = Some (Image image) -> exif image = None ->
     forall k, k ∈ simple_standard_fields -> all_fields !! k = Some []).
Proof.
  unfold Reader.load_simple_metadata, load_simple_metadata. intros H.
  destruct (image_open w path) as [image|] eqn:Hopen; [|done].
  simplify_eq.
  assert (forall k, k ∈ simple_standard_fields ->
            foldl Reader.add_info
              (map_fold read_tag empty_fields (getexif image))
              (image_info image) !! k
            = map_fold read_tag empty_fields (getexif image) !! k) as Hsame.
  { intros k Hk. apply add_info_fields. by apply standard_not_info. }
  split_and!.
  - intros k Hk. rewrite Hsame by done.
    destruct (standard_field_tag k Hk) as (tag & enc & _ & Ht).
    rewrite (read_tags_lookup _ _ tag k Ht).
    destruct (getexif image !! tag); [done|].
    by rewrite empty_fields_lookup.
  - intros k [Hk|Hk]%add_info_fields; [left|by right].
    by eapply read_tags_standard.
  - eexists. split; [reflexivity|]. exact Hsame.
  - intros image' Hfile Hexif k Hk. unfold image_open in Hopen.
    rewrite Hfile in Hopen. simplify_eq. rewrite Hsame by done.
    unfold getexif. rewrite Hexif, map_fold_empty.
    by apply empty_fields_lookup.
Qed.

Lemma load_simple_metadata_fields_witness :
  exists all_fields,
    Reader.load_simple_metadata Cases.jfif_info Fixtures.disk "/in/photo.jpg"
    = Ok all_fields /\
    (forall k, k ∈ simple_standard_fields -> is_Some (all_fields !! k)) /\
    (forall k, is_Some (all_fields !! k) ->
       k ∈ simple_standard_fields \/ startswith "INFO_" k = true) /\
    is_Some (all_fields !! "INFO_jfif") /\
    all_fields !! "Make" = Some (codepoints "Canon").
Proof.
  eexists. split; [reflexivity|].
  edestruct (load_simple_metadata_fields Cases.jfif_info Fixtures.disk
               "/in/photo.jpg") as (H1 & H2 & _ & _); [reflexivity|].
  split_and!; [exact H1|exact H2|..].
  - vm_compute. by eexists.
  - vm_compute. reflexivity.
Defined.

End ReaderAllFields.

(** ** The answer of the tool-augmented mode *)

Section AnswerRouting.
Import PyStr Router.
Variable fl : float_ops.

Lemma find_is_question_tools (extra : list chat_entry) :
  Forall (fun m => is_tool m = true) extra ->
  List.find (is_question) extra = None.
Proof.
  induction 1 as [|m l Hm _ IH]; [done|]. cbn.
  unfold is_question, is_tool in *. by destruct (entry_role m).
Qed.

(** A question that begins like the follow-up prompt is not taken as
    the question of the user: the router gets the empty text. *)
Lemma process_tool_calls_skips_prompt (ts : tool_state fl)
    (tool_calls : list tool_call) (system_message question : string)
    (messages : list chat_entry) :
  startswith "Please provide a clear response" question = true ->
  run_tool_calls fl ts tool_calls []
    (api_messages system_message question ++ [assistant_entry]) = Ok messages ->
  map entry_content (List.filter is_tool messages) <> [] ->
  _process_tool_calls fl ts tool_calls (api_messages system_message question)
  = _analyze_tool_results_and_respond fl ""
      (map entry_content (List.filter is_tool messages)).
Proof.
  intros Hq Hrun Hne. unfold _process_tool_calls. rewrite Hrun.
  destruct (map entry_content (List.filter is_tool messages)) eqn:Hres; [done|].
  apply run_tool_calls_appends in Hrun as (extra & -> & Hextra).
  cbn. unfold startswith in Hq. rewrite Hq. cbn.
  by rewrite (find_is_question_tools extra Hextra).
Qed.

(** C7, as amended. The answer of [_process_tool_calls] is made
    locally, from the question and the results of the tools.  A call
    whose arguments do not parse gives the error text; no result gives a
    fixed text; results without a folder listing give another fixed text;
    a listing that does not parse gives the error text of the router.
    With a listing that parses the answer follows the first keyword that
    the lowered question contains, in this order: [duplicate]; [largest]
    or [biggest], naming a file than which none is larger; [smallest],
    naming a file than which none is smaller; [list] or [files]; [count]
    or [how many]; otherwise the listing is passed through.  A question
    that begins with [Please provide a clear response] is not taken as
    the question of the user and gets the listing passed through. *)
Theorem tool_answer_first_keyword_wins
    (ts : tool_state fl) (tool_calls : list tool_call)
    (system_message question : string) :
  (forall a, float_ltb fl a a = false) ->
  (forall a b c, float_ltb fl a b = true -> float_ltb fl b c = true ->
                 float_ltb fl a c = true) ->
  let answer :=
    _process_tool_calls fl ts tool_calls
      (api_messages system_message question) in
  (forall exc,
      run_tool_calls fl ts tool_calls []
        (api_messages system_message question ++ [assistant_entry])
      = Raise exc ->
      answer = "Error processing tools: " +:+ exc) /\
  (forall messages,
      run_tool_calls fl ts tool_calls []
        (api_messages system_message question ++ [assistant_entry])
      = Ok messages ->
      let results := map entry_content (List.filter is_tool messages) in
      (results = [] ->
       answer = "Tool execution completed but no results were returned.") /\
      (results <> [] -> find_folder_data results = None ->
       answer = "Tool execution completed but no folder data was returned.") /\
      (forall folder_data exc,
          find_folder_data results = Some folder_data ->
          parse_folder_data fl folder_data = Raise exc ->
          answer = "Error analyzing tool results: " +:+ exc) /\
      (forall folder_data r,
          find_folder_data results = Some folder_data ->
          parse_folder_data fl folder_data = Ok r ->
          (startswith "Please provide a clear response" question = true ->
           answer = default_answer fl r folder_data) /\
          (startswith "Please provide a clear response" question = false ->
           let q := lower question in
           (contains "duplicate" q = true -> answer = duplicate_answer fl r) /\
           (contains "duplicate" q = false ->
            contains "largest" q || contains "biggest" q = true ->
            answer = extreme_answer fl "largest" r (max_by_size fl) /\
            forall first rest, files r = first :: rest ->
              max_by_size fl first rest ∈ files r /\
              forall x, x ∈ files r ->
                float_ltb fl (size (max_by_size fl first rest)) (size x)
                = false) /\
           (contains "duplicate" q = false ->
            contains "largest" q || contains "biggest" q = false ->
            contains "smallest" q = true ->
            answer = extreme_answer fl "smallest" r (min_by_size fl) /\
            forall first rest, files r = first :: rest ->
              min_by_size fl first rest ∈ files r /\
              forall x, x ∈ files r ->
                float_ltb fl (size x) (size (min_by_size fl first rest))
                = false) /\
           (contains "duplicate" q = false ->
            contains "largest" q || contains "biggest" q = false ->
            contains "smallest" q = false ->
            contains "list" q || contains "files" q = true ->
            answer = listing_answer fl r) /\
           (contains "duplicate" q = false ->
            contains "largest" q || contains "biggest" q = false ->
            contains "smallest" q = false ->
            contains "list" q || contains "files" q = false ->
            contains "count" q || contains "how many" q = true ->
            answer = count_answer fl r) /\
           (contains "duplicate" q = false ->
            contains "largest" q || contains "biggest" q = false ->
            contains "smallest" q = false ->
            contains "list" q || contains "files" q = false ->
            contains "count" q || contains "how many" q = false ->
            answer = default_answer fl r folder_data)))).
Proof.
  intros Hirr Htrans answer. split.
  - intros exc Hrun. subst answer. unfold _process_tool_calls.
    by rewrite Hrun.
  - intros messages Hrun results. split_and!.
    + intros Hnil. subst answer results. unfold _process_tool_calls.
      by rewrite Hrun, Hnil.
    + intros Hne Hfind.
      destruct (startswith "Please provide a clear response" question)
        eqn:Hq; subst answer.
      * rewrite (process_tool_calls_skips_prompt ts tool_calls
                   system_message question messages Hq Hrun Hne).
        by apply no_listing_fixed_answer.
      * rewrite (process_tool_calls_routes_question fl ts tool_calls
                   system_message question messages Hq Hrun Hne).
        by apply no_listing_fixed_answer.
    + intros folder_data exc Hfind Hparse.
      assert (results <> []) as Hne
          by (intros Hnil; fold results in Hfind; by rewrite Hnil in Hfind).
      destruct (startswith "Please provide a clear response" question)
        eqn:Hq; subst answer.
      * rewrite (process_tool_calls_skips_prompt ts tool_calls
                   system_message question messages Hq Hrun Hne).
        unfold _analyze_tool_results_and_respond.
        fold results. by rewrite Hfind, Hparse.
      * rewrite (process_tool_calls_routes_question fl ts tool_calls
                   system_message question messages Hq Hrun Hne).
        unfold _analyze_tool_results_and_respond.
        fold results. by rewrite Hfind, Hparse.
    + intros folder_data r Hfind Hparse.
      assert (results <> []) as Hne
          by (intros Hnil; fold results in Hfind; by rewrite Hnil in Hfind).
      split.
      * intros Hq. subst answer.
        rewrite (process_tool_calls_skips_prompt ts tool_calls
                   system_message question messages Hq Hrun Hne).
        unfold _analyze_tool_results_and_respond.
        fold results. by rewrite Hfind, Hparse.
      * intros Hq q.
        assert (answer = route fl question r folder_data) as ->.
        { subst answer.
          rewrite (process_tool_calls_routes_question fl ts tool_calls
                     system_message question messages Hq Hrun Hne).
          unfold _analyze_tool_results_and_respond.
          fold results. by rewrite Hfind, Hparse. }
        unfold route. fold q. split_and!.
        -- by intros ->.
        -- intros -> ->. split; [done|]. intros first rest Hfiles.
           rewrite Hfiles.
           apply (max_by_size_maximal fl Hirr Htrans rest first [first]).
           ++ by apply list_elem_of_singleton.
           ++ intros x ->%list_elem_of_singleton. apply Hirr.
        -- intros -> -> ->. split; [done|]. intros first rest Hfiles.
           rewrite Hfiles.
           apply (min_by_size_minimal fl Hirr Htrans rest first [first]).
           ++ by apply list_elem_of_singleton.
           ++ intros x ->%list_elem_of_singleton. apply Hirr.
        -- by intros -> -> -> ->.
        -- by intros -> -> -> -> ->.
        -- by intros -> -> -> -> ->.
Qed.

End AnswerRouting.

Section AnswerRoutingExamples.
Import PyStr Router Fixtures.

Lemma tool_answer_first_keyword_wins_witness :
  _process_tool_calls tenths sized_folder [list_call]
    (conversation "Which is the largest?")
  = "The largest file in the 'k' folder is 'b.jpg' at 20.0 KB." /\
  _process_tool_calls tenths sized_folder [list_call]
    (conversation "Please provide a clear response: any duplicate files?")
  = "The 'k' folder contains 3 files. Here are the details:"
    +:+ NL +:+ NL
    +:+ _execute_tool tenths sized_folder "list_folder_contents" [].
Proof.
  assert (forall a b c : Z, Z.ltb a b = true -> Z.ltb b c = true ->
                            Z.ltb a c = true) as Htrans.
  { intros a b c Hab%Z.ltb_lt Hbc%Z.ltb_lt. apply Z.ltb_lt. lia. }
  split.
  - edestruct (tool_answer_first_keyword_wins tenths sized_folder [list_call]
                 "You are an AI assistant with access to tools for analyzing image folders and files."
                 "Which is the largest?" Z.ltb_irrefl Htrans)
      as (_ & Hrun).
    edestruct Hrun as (_ & _ & _ & Hlisting); [reflexivity|].
    edestruct Hlisting as (_ & Hroute); [reflexivity|reflexivity|].
    destruct (Hroute eq_refl) as (_ & Hlargest & _).
    destruct Hlargest as [Hanswer _]; [reflexivity|reflexivity|].
    etrans; [exact Hanswer|]. reflexivity.
  - edestruct (tool_answer_first_keyword_wins tenths sized_folder [list_call]
                 "You are an AI assistant with access to tools for analyzing image folders and files."
                 "Please provide a clear response: any duplicate files?"
                 Z.ltb_irrefl Htrans)
      as (_ & Hrun).
    edestruct Hrun as (_ & _ & _ & Hlisting); [reflexivity|].
    edestruct Hlisting as (Hprompt & _); [reflexivity|reflexivity|].
    etrans; [exact (Hprompt eq_refl)|]. reflexivity.
Defined.

End AnswerRoutingExamples.

(** ** The field names of the batch path *)

Section BatchFieldNames.
Import PyStr Codec Store Simple Re Parser Batch.

(** What a successful image of a batch passes on: the reply of the
    model and the record parsed from it. *)
Lemma single_image_reply (sv : services) (self : app) (w w' : world)
    (image_path : string) (rules : list rule) :
  _process_single_image_ai sv self w image_path rules = (true, w') ->
  exists image_data response,
    read_image_data sv w image_path = Ok image_data /\
    vision_api sv image_data
      (build_context (PyPath.name image_path)
         (Context.parse_filename_data (PyPath.name image_path)) rules)
    = Some response /\
    response <> "" /\
    _parse_ai_response_for_metadata (current_filename_data self) response
    <> ∅ /\
    _save_metadata_to_file (store sv) (attrs self) w image_path
      (_parse_ai_response_for_metadata (current_filename_data self) response)
    = (true, w').
Proof.
  unfold _process_single_image_ai. intros H.
  destruct (read_image_data sv w image_path) as [image_data|];
    [|by simplify_eq].
  destruct (vision_api sv _ _) as [response|] eqn:Hapi; [|by simplify_eq].
  destruct (String.eqb_spec response ""); [by simplify_eq|].
  destruct (decide _); [by simplify_eq|].
  by exists image_data, response.
Qed.

(** C2. The two JPEG writers do not encode the same fields.  The
    interactive writer [save_simple_jpeg_metadata] puts every field of
    its record at its tag, the title and the keywords as UTF-16LE behind
    the byte-order mark, the other four as UTF-8.  The batch writer
    [_save_jpeg_metadata_direct] looks the title, the description and
    the keywords up under [XPTitle], [ImageDescription] and [XPKeywords],
    names the parser never uses: whenever an image of a batch is
    processed with success, tags 40091, 270 and 40094 of the file are
    what they were, whatever title, description and keywords the record
    holds, and only the artist, the make and the model of the record are
    encoded, as UTF-8 at 315, 271 and 272.  Given a record under the
    names it looks up, the batch writer would store the title and the
    keywords without the mark. *)
Theorem jpeg_batch_path_drops_title
    (sv : services) (self : app) (w w' : world) (image_path : string)
    (rules : list rule) (image : image_file) (ifd : gmap N bytes) :
  Interactive.is_jpeg image_path = true ->
  fs w !! image_path = Some (Image image) ->
  exif image = Some ifd ->
  _process_single_image_ai sv self w image_path rules = (true, w') ->
  (exists image_data response stored ifd',
      let metadata_dict :=
        _parse_ai_response_for_metadata (current_filename_data self) response in
      read_image_data sv w image_path = Ok image_data /\
      vision_api sv image_data
        (build_context (PyPath.name image_path)
           (Context.parse_filename_data (PyPath.name image_path)) rules)
      = Some response /\
      fs w' !! image_path = Some (Image stored) /\
      exif stored = Some ifd' /\
      ifd' !! 40091%N = ifd !! 40091%N /\
      ifd' !! 270%N = ifd !! 270%N /\
      ifd' !! 40094%N = ifd !! 40094%N /\
      ifd' !! 315%N = match metadata_dict !! "Artist" with
                      | Some v => Some (utf8_encode v)
                      | None => ifd !! 315%N
                      end /\
      ifd' !! 271%N = match metadata_dict !! "Make" with
                      | Some v => Some (utf8_encode v)
                      | None => ifd !! 271%N
                      end /\
      ifd' !! 272%N = match metadata_dict !! "Model" with
                      | Some v => Some (utf8_encode v)
                      | None => ifd !! 272%N
                      end) /\
  (forall (md : gmap string string) (ifd0 : gmap N bytes) (v : string),
      (md !! "XPTitle" = Some v ->
       map_fold Simple.add_field ifd0 md !! 40091%N
       = Some (BOM ++ utf16le_encode v)) /\
      (md !! "XPKeywords" = Some v ->
       map_fold Simple.add_field ifd0 md !! 40094%N
       = Some (BOM ++ utf16le_encode v)) /\
      (md !! "ImageDescription" = Some v ->
       map_fold Simple.add_field ifd0 md !! 270%N = Some (utf8_encode v)) /\
      (md !! "Artist" = Some v ->
       map_fold Simple.add_field ifd0 md !! 315%N = Some (utf8_encode v)) /\
      (md !! "Make" = Some v ->
       map_fold Simple.add_field ifd0 md !! 271%N = Some (utf8_encode v)) /\
      (md !! "Model" = Some v ->
       map_fold Simple.add_field ifd0 md !! 272%N = Some (utf8_encode v))) /\
  (forall (md : gmap string string) (ifd0 : gmap N bytes) (v : string),
      (md !! "XPTitle" = Some v ->
       direct_exif md ifd0 !! 40091%N = Some (utf16le_encode v)) /\
      (md !! "XPKeywords" = Some v ->
       direct_exif md ifd0 !! 40094%N = Some (utf16le_encode v)) /\
      starts_with_bom (utf16le_encode v) = false).
Proof.
  intros Hjpeg Hfile Hexif Hrun. split_and!.
  - apply single_image_reply in Hrun
      as (image_data & response & Hread & Hapi & _ & _ & Hsave).
    rewrite save_metadata_to_file_jpeg in Hsave by done.
    apply jpeg_direct_saved in Hsave
      as (image' & ifd0 & stored & Hfile' & Hifd & Hstored & Hnew).
    rewrite Hfile in Hfile'. simplify_eq.
    destruct Hifd as [Hifd|[Hifd _]]; [|congruence].
    rewrite Hexif in Hifd. simplify_eq.
    eexists image_data, response, stored, _.
    cbv zeta. split_and!; [done|done|done|done|..].
    + rewrite (direct_exif_lookup _ _ "XPTitle" _ Utf16le eq_refl).
      rewrite parser_other_fields; [done|by apply (bool_decide_unpack _)].
    + rewrite (direct_exif_lookup _ _ "ImageDescription" _ Utf8 eq_refl).
      rewrite parser_other_fields; [done|by apply (bool_decide_unpack _)].
    + rewrite (direct_exif_lookup _ _ "XPKeywords" _ Utf16le eq_refl).
      rewrite parser_other_fields; [done|by apply (bool_decide_unpack _)].
    + by rewrite (direct_exif_lookup _ _ "Artist" _ Utf8 eq_refl).
    + by rewrite (direct_exif_lookup _ _ "Make" _ Utf8 eq_refl).
    + by rewrite (direct_exif_lookup _ _ "Model" _ Utf8 eq_refl).
  - intros md ifd0 v. apply simple_field_encoding.
  - intros md ifd0 v. split_and!.
    + apply direct_exif_title.
    + apply direct_exif_keywords.
    + apply utf16le_encode_no_bom.
Qed.

(** One image of a batch: the reply of the model gives a title and a
    make; the run succeeds, the make is in the file and the title is
    not. *)
Lemma jpeg_batch_path_drops_title_witness :
  let reply := "Title: Modern Oak Kitchen" +:+ NL +:+ "Make: F032" in
  let r := _process_single_image_ai (Samples.answering reply)
             Fixtures.busy_app Fixtures.disk "/in/photo.jpg" [] in
  r.1 = true /\
  _parse_ai_response_for_metadata
    (current_filename_data Fixtures.busy_app) reply !! "Title"
  = Some "Modern Oak Kitchen" /\
  exists stored ifd',
    fs r.2 !! "/in/photo.jpg" = Some (Image stored) /\
    exif stored = Some ifd' /\
    ifd' !! 40091%N = None /\
    ifd' !! 271%N = Some (utf8_encode "F032").
Proof.
  intros reply r. split; [by vm_compute|]. split; [by vm_compute|].
  destruct (jpeg_batch_path_drops_title
              (Samples.answering reply) Fixtures.busy_app Fixtures.disk r.2
              "/in/photo.jpg" [] Fixtures.photo
              {[ Make := utf8_encode "Canon" ]})
    as ((image_data & response & stored & ifd' & _ & Hapi & H1 & H2 & H3
         & _ & _ & _ & H4 & _) & _).
  - reflexivity.
  - reflexivity.
  - reflexivity.
  - by vm_compute.
  - exists stored, ifd'. cbn in Hapi. simplify_eq.
    split_and!; [done|done|..].
    + rewrite H3. reflexivity.
    + rewrite H4. by vm_compute.
Defined.

End BatchFieldNames.

(** ** Starting a batch while one is running *)

Section SecondStart.
Import PyStr Batch.

(** C6. The flag [ai_processing] that the worker thread raises when it
    begins and lowers when it ends is not read by
    [start_batch_ai_processing]: in every state in which a run is active
    and a folder is selected, AI is enabled and the chat holds messages,
    a confirmed start is not rejected and launches a thread; so whenever
    a start launches a thread, a second start made while that thread
    runs launches another.  [start_compression], by contrast, refuses to
    start while its flag [is_processing] is set. *)
Theorem second_start_is_not_rejected (self : app) :
  ai_processing self = true ->
  truthy (batch_folder self) = true ->
  ai_enabled self = true ->
  chat_messages self <> [] ->
  start_batch_ai_processing self true = ThreadStarted /\
  (forall answer : bool,
      launches (start_batch_ai_processing self answer) = answer) /\
  (forall first : app,
      start_batch_ai_processing first true = ThreadStarted ->
      ai_processing (set_ai_processing true first) = true /\
      start_batch_ai_processing (set_ai_processing true first) true
      = ThreadStarted) /\
  (forall other : Compressor.settings,
      Compressor.is_processing other = true ->
      Compressor.start_compression other <> Compressor.Started).
Proof.
  intros _ Hfolder Henabled Hchat. unfold start_batch_ai_processing.
  rewrite Hfolder, Henabled. cbn.
  destruct (chat_messages self) as [|m l]; [done|]. split_and!.
  - done.
  - by intros [].
  - intros first Hfirst. split; [done|]. exact Hfirst.
  - intros other Hother. unfold Compressor.start_compression.
    rewrite Hother. by repeat case_match.
Qed.

Lemma second_start_is_not_rejected_witness :
  ai_processing Fixtures.busy_app = true /\
  start_batch_ai_processing Fixtures.busy_app true = ThreadStarted /\
  Compressor.start_compression Cases.compressing
  = Compressor.Refused "Compression is already in progress".
Proof.
  split; [reflexivity|]. split; [|reflexivity].
  destruct (second_start_is_not_rejected Fixtures.busy_app) as [Hstart _];
    [reflexivity|reflexivity|reflexivity|discriminate|exact Hstart].
Defined.

End SecondStart.

(** ** The worker thread of a batch *)

Section WorkerLog.
Import PyStr Store Batch.
Variable faults : string -> option string.
Hypothesis sound : forall message, faults message = None.










End WorkerLog.

Section WorkerThread.
Import PyStr Store Batch.



End WorkerThread.

Section WorkerThreadExamples.
Import PyStr Store Batch.



End WorkerThreadExamples.
